(** * StokerCloud hopper monitor

    A shallow embedding of [Stoker_Scraper.py]: the session client
    ([login_and_get_token], [accept_terms], [get_hopper_kg],
    [safe_get_hopper]), the notifier ([send_ntfy_alert]) and the poll loop
    of [main], followed by the properties of the specification.

    Python values are modelled structurally (the JSON fragment: None, bool,
    int, float, str, list, dict), Python floats as IEEE binary64 through the
    standard library's [spec_float], text as ASCII [string]s, and the outside
    world (HTTP server, clock) as an oracle over an abstract world state.
    Every function runs in a small exception-and-trace monad so that what was
    requested, logged and slept is part of the result. *)

From Stdlib Require Import ZArith List String Ascii Bool Lia.
From Stdlib Require Import DecimalString DecimalPos SpecFloat.
Import ListNotations.

Set Warnings "-register-all".

Local Open Scope string_scope.
Local Open Scope Z_scope.

(** ** Text helpers (the [str] methods the program uses) *)

Module PyStr.

Definition string_of_Z (z : Z) : string :=
  NilZero.string_of_int (Z.to_int z).

(** [s.replace(a, b)] for one-character [a] and [b]. *)
Fixpoint replace_char (a b : ascii) (s : string) : string :=
  match s with
  | EmptyString => EmptyString
  | String c rest =>
      String (if Ascii.eqb c a then b else c) (replace_char a b rest)
  end.

(** [s.rstrip(c)] for a one-character argument. *)
Fixpoint rstrip_char (c : ascii) (s : string) : string :=
  match s with
  | EmptyString => EmptyString
  | String x rest =>
      match rstrip_char c rest with
      | EmptyString => if Ascii.eqb x c then EmptyString else String x EmptyString
      | rest' => String x rest'
      end
  end.

(** [s[:n]] *)
Definition prefix_slice (n : nat) (s : string) : string := substring 0 n s.

Definition code (c : ascii) : N := N_of_ascii c.

Definition is_digit (c : ascii) : bool :=
  ((48 <=? code c) && (code c <=? 57))%N.

(** C's [isspace] on ASCII, which is what [float()] strips. *)
Definition is_space (c : ascii) : bool :=
  (((9 <=? code c) && (code c <=? 13)) || (code c =? 32))%N.

Definition to_lower (c : ascii) : ascii :=
  if ((65 <=? code c) && (code c <=? 90))%N
  then ascii_of_N (code c + 32) else c.

Fixpoint lower (s : string) : string :=
  match s with
  | EmptyString => EmptyString
  | String c rest => String (to_lower c) (lower rest)
  end.

Fixpoint lstrip (s : string) : string :=
  match s with
  | EmptyString => EmptyString
  | String c rest => if is_space c then lstrip rest else s
  end.

Fixpoint rstrip (s : string) : string :=
  match s with
  | EmptyString => EmptyString
  | String c rest =>
      match rstrip rest with
      | EmptyString => if is_space c then EmptyString else String c EmptyString
      | rest' => String c rest'
      end
  end.

Definition dquote : ascii := ascii_of_N 34.

Definition hex_digit (n : N) : ascii :=
  ascii_of_N (if (n <? 10)%N then 48 + n else 87 + n).

(** One character of [repr(str)] between quotes of kind [q]. *)
Definition repr_char (q c : ascii) : string :=
  if Ascii.eqb c "\"%char then "\\"
  else if Ascii.eqb c q then String "\"%char (String c EmptyString)
  else if (code c =? 9)%N then "\t"
  else if (code c =? 10)%N then "\n"
  else if (code c =? 13)%N then "\r"
  else if ((code c <? 32) || (code c =? 127))%N
  then String "\"%char (String "x"%char
         (String (hex_digit (code c / 16)) (String (hex_digit (code c mod 16)) EmptyString)))
  else String c EmptyString.

Fixpoint has_char (c : ascii) (s : string) : bool :=
  match s with
  | EmptyString => false
  | String x rest => Ascii.eqb x c || has_char c rest
  end.

Fixpoint repr_body (q : ascii) (s : string) : string :=
  match s with
  | EmptyString => EmptyString
  | String c rest => repr_char q c ++ repr_body q rest
  end.

(** [repr(s)]: single quotes unless the text has a single quote and no
    double quote. *)
Definition repr (s : string) : string :=
  let q := if has_char "'"%char s && negb (has_char dquote s)
           then dquote else "'"%char in
  String q (repr_body q s ++ String q EmptyString).

(** [sep.join(parts)] *)
Definition join (sep : string) (parts : list string) : string :=
  String.concat sep parts.

(** [t in s] *)
Definition includes (s t : string) : Prop :=
  exists pre post, s = pre ++ t ++ post.

End PyStr.

(** ** Python floats: IEEE binary64 *)

Module PyFloat.

Import PyStr.
Local Open Scope Z_scope.

Definition prec : Z := 53.
Definition emax : Z := 1024.

(** The quotient [n / d] of two integers ([0 <= n], [0 < d]) rounded to the
    nearest binary64, ties to even, with sign [neg]: what Python computes
    for [int / int] and, through it, for a decimal literal. *)
Definition div_round (neg : bool) (n d : Z) : spec_float :=
  match n with
  | Z0 => S754_zero neg
  | _ =>
      let '(q, e, l) := SFdiv_core_binary prec emax n 0 d 0 in
      binary_round_aux prec emax neg q e l
  end.

(** [digits * 10 ^ exp10], correctly rounded. *)
Definition of_decimal (neg : bool) (digits exp10 : Z) : spec_float :=
  if 0 <=? exp10
  then div_round neg (digits * 10 ^ exp10) 1
  else div_round neg digits (10 ^ (- exp10)).

(** [float(z)] for an integer that does not overflow a double. *)
Definition of_Z (z : Z) : spec_float := div_round (z <? 0) (Z.abs z) 1.

Definition mul (x y : spec_float) : spec_float := SFmul prec emax x y.
Definition div (x y : spec_float) : spec_float := SFdiv prec emax x y.
Definition leb (x y : spec_float) : bool := SFleb x y.
Definition ltb (x y : spec_float) : bool := SFltb x y.

Definition is_zero (x : spec_float) : bool :=
  match x with S754_zero _ => true | _ => false end.

(** [bool(x)]: every float but the two zeros is true, NaN included. *)
Definition truthy (x : spec_float) : bool := negb (is_zero x).

(** [x >= k] for a float [x] and an int [k]; Python compares the two
    exactly, without converting the int. *)
Definition ge_int (x : spec_float) (k : Z) : bool :=
  match x with
  | S754_nan => false
  | S754_infinity s => negb s
  | S754_zero _ => k <=? 0
  | S754_finite s m e =>
      let v := if s then Z.neg m else Z.pos m in
      if 0 <=? e then k <=? v * 2 ^ e else k * 2 ^ (- e) <=? v
  end.

(** *** [float(s)] on a string *)

Definition is_char (a : ascii) (c : ascii) : bool := Ascii.eqb c a.

(** Underscores may only stand between two digits; they are removed. *)
Fixpoint strip_underscores (prev : ascii) (s : string) : option string :=
  match s with
  | EmptyString => if is_char "_" prev then None else Some EmptyString
  | String c rest =>
      if is_char "_" c
      then if is_digit prev then strip_underscores c rest else None
      else if is_char "_" prev && negb (is_digit c) then None
      else option_map (String c) (strip_underscores c rest)
  end.

Definition take_sign (s : string) : bool * string :=
  match s with
  | String c rest =>
      if is_char "-" c then (true, rest)
      else if is_char "+" c then (false, rest)
      else (false, s)
  | EmptyString => (false, s)
  end.

(** Reads a run of digits: the number read after [acc], how many digits,
    and the rest. *)
Fixpoint take_digits (s : string) (acc cnt : Z) : Z * Z * string :=
  match s with
  | String c rest =>
      if is_digit c
      then take_digits rest (acc * 10 + (Z.of_N (code c) - 48)) (cnt + 1)
      else (acc, cnt, s)
  | EmptyString => (acc, cnt, s)
  end.

Definition parse_inf_nan (s : string) : option spec_float :=
  let '(neg, body) := take_sign s in
  let l := lower body in
  if String.eqb l "inf" || String.eqb l "infinity" then Some (S754_infinity neg)
  else if String.eqb l "nan" then Some S754_nan
  else None.

Definition parse_exponent (s : string) : option Z :=
  let '(eneg, s1) := take_sign s in
  let '(ev, ne, s2) := take_digits s1 0 0 in
  if ne =? 0 then None
  else match s2 with
       | EmptyString => Some (if eneg then - ev else ev)
       | _ => None
       end.

(** [sign? (digits+ ('.' digits* )? | '.' digits+) ([eE] sign? digits+)?] *)
Definition parse_number (s : string) : option spec_float :=
  let '(neg, s1) := take_sign s in
  let '(ip, ni, s2) := take_digits s1 0 0 in
  let '(mant, nf, s3) :=
    match s2 with
    | String c rest => if is_char "." c then take_digits rest ip 0 else (ip, 0, s2)
    | EmptyString => (ip, 0, s2)
    end in
  if ni + nf =? 0 then None
  else match s3 with
       | EmptyString => Some (of_decimal neg mant (- nf))
       | String c rest =>
           if is_char "e" c || is_char "E" c
           then match parse_exponent rest with
                | Some ex => Some (of_decimal neg mant (ex - nf))
                | None => None
                end
           else None
       end.

(** [float(s)]; [None] stands for its [ValueError]. *)
Definition of_string (s : string) : option spec_float :=
  match strip_underscores "000"%char s with
  | None => None
  | Some s1 =>
      match lstrip s1 with
      | EmptyString => None
      | s2 =>
          let s3 := rstrip s2 in
          match parse_inf_nan s3 with
          | Some x => Some x
          | None => parse_number s3
          end
      end
  end.

(** *** ["%.1f" % x] *)

Definition round_half_even_div (n d : Z) : Z :=
  let q := n / d in
  match 2 * (n mod d) ?= d with
  | Lt => q
  | Gt => q + 1
  | Eq => if Z.even q then q else q + 1
  end.

(** [|x| * 10] rounded to an integer, for [x = m * 2 ^ e]. *)
Definition tenths (m : positive) (e : Z) : Z :=
  if 0 <=? e then Z.pos m * 2 ^ e * 10
  else round_half_even_div (Z.pos m * 10) (2 ^ (- e)).

Definition sign_text (s : bool) : string := if s then "-" else "".

Definition format_1f (x : spec_float) : string :=
  match x with
  | S754_nan => "nan"
  | S754_infinity s => sign_text s ++ "inf"
  | S754_zero s => sign_text s ++ "0.0"
  | S754_finite s m e =>
      let t := tenths m e in
      sign_text s ++ string_of_Z (t / 10) ++ "." ++ string_of_Z (t mod 10)
  end.

End PyFloat.

(** ** Python values, exceptions and results *)

(** What [resp.json()] can return. A [VDict] lists its entries in insertion
    order; lookups take the first entry of a key. *)
Inductive value :=
| VNone
| VBool (b : bool)
| VInt (z : Z)
| VFloat (x : spec_float)
| VStr (s : string)
| VList (items : list value)
| VDict (entries : list (string * value)).

(** An exception: its class and [str(e)]. *)
Record exn := Exn { exn_class : string; exn_text : string }.

Inductive result (A : Type) :=
| Ok (a : A)
| Raise (e : exn).

Arguments Ok {A} a.
Arguments Raise {A} e.

Definition AttributeError (type_name attr : string) : exn :=
  Exn "AttributeError" ("'" ++ type_name ++ "' object has no attribute '" ++ attr ++ "'").
Definition ValueError (msg : string) : exn := Exn "ValueError" msg.
Definition RuntimeError (msg : string) : exn := Exn "RuntimeError" msg.
Definition ZeroDivisionError : exn := Exn "ZeroDivisionError" "float division by zero".
Definition OverflowError (msg : string) : exn := Exn "OverflowError" msg.

Module PyVal.

Definition type_name (v : value) : string :=
  match v with
  | VNone => "NoneType"
  | VBool _ => "bool"
  | VInt _ => "int"
  | VFloat _ => "float"
  | VStr _ => "str"
  | VList _ => "list"
  | VDict _ => "dict"
  end.

(** [bool(v)] *)
Definition truthy (v : value) : bool :=
  match v with
  | VNone => false
  | VBool b => b
  | VInt z => negb (z =? 0)
  | VFloat x => PyFloat.truthy x
  | VStr s => negb (String.eqb s "")
  | VList l => match l with [] => false | _ => true end
  | VDict d => match d with [] => false | _ => true end
  end.

(** [v == s] for a string literal [s] *)
Definition eq_str (v : value) (s : string) : bool :=
  match v with
  | VStr t => String.eqb t s
  | _ => false
  end.

Fixpoint lookup (key : string) (d : list (string * value)) : option value :=
  match d with
  | [] => None
  | (k, v) :: rest => if String.eqb k key then Some v else lookup key rest
  end.

(** [v.get(key, default)]; only a dict has the method. *)
Definition get_default (v : value) (key : string) (default : value) : result value :=
  match v with
  | VDict d => Ok (match lookup key d with Some x => x | None => default end)
  | _ => Raise (AttributeError (type_name v) "get")
  end.

(** [v.get(key)] *)
Definition get (v : value) (key : string) : result value :=
  get_default v key VNone.

(** [list(v.keys())] *)
Definition keys (v : value) : result (list string) :=
  match v with
  | VDict d => Ok (map fst d)
  | _ => Raise (AttributeError (type_name v) "keys")
  end.

Definition is_list (v : value) : bool :=
  match v with VList _ => true | _ => false end.

Definition is_dict (v : value) : bool :=
  match v with VDict _ => true | _ => false end.

End PyVal.

(** ** [int(s)] on a string *)

Module PyInt.

Import PyStr.

(** The digits of a decimal literal, with single underscores between them:
    the number read, how many digits, and what follows. [None] when an
    underscore is doubled or not followed by a digit. *)
Fixpoint scan_digits (s : string) (after_underscore : bool) (acc cnt : Z)
    : option (Z * Z * string) :=
  match s with
  | String c rest =>
      if is_digit c
      then scan_digits rest false (acc * 10 + (Z.of_N (code c) - 48)) (cnt + 1)
      else if PyFloat.is_char "_" c
      then if after_underscore then None else scan_digits rest true acc cnt
      else if after_underscore then None else Some (acc, cnt, s)
  | EmptyString => if after_underscore then None else Some (acc, cnt, s)
  end.

(** The longest literal [int()] converts by default. *)
Definition MAX_STR_DIGITS : Z := 4300.

Definition invalid_literal (s : string) : exn :=
  ValueError ("invalid literal for int() with base 10: " ++ repr s).

Definition too_many_digits (cnt : Z) : exn :=
  ValueError ("Exceeds the limit (4300 digits) for integer string conversion: value has "
              ++ string_of_Z cnt
              ++ " digits; use sys.set_int_max_str_digits() to increase the limit").

(** [int(s)]: blanks, an optional sign, digits, blanks. *)
Definition of_string (s : string) : result Z :=
  let '(neg, body) := PyFloat.take_sign (lstrip s) in
  match body with
  | EmptyString => Raise (invalid_literal s)
  | String c _ =>
      if PyFloat.is_char "_" c then Raise (invalid_literal s)
      else match scan_digits body false 0 0 with
           | None => Raise (invalid_literal s)
           | Some (v, cnt, rest) =>
               if MAX_STR_DIGITS <? cnt then Raise (too_many_digits cnt)
               else if cnt =? 0 then Raise (invalid_literal s)
               else match lstrip rest with
                    | EmptyString => Ok (if neg then - v else v)
                    | _ => Raise (invalid_literal s)
                    end
           end
  end.

End PyInt.

(** ** The outside world *)

Inductive level := DEBUG | INFO | WARNING | ERROR.

(** An HTTP request as the program issues it: through the session
    ([session.get], [session.post]) or directly ([requests.post]). *)
Record Request := {
  via_session : bool;
  method : string;
  url : string;
  params : list (string * value);
  data : option string;
  headers : list (string * string);
  timeout : Z
}.

(** What the program reads of a [requests.Response]. [body] is what
    [resp.json()] returns or raises. *)
Record Response := {
  status_code : Z;
  reason : string;
  final_url : string;
  text : string;
  body : result value
}.

Inductive event :=
| EvLog (lvl : level) (msg : string)
| EvHttp (rq : Request)
| EvSleep (secs : Z).

(** The remote side, the clock and the system's sleep, over a world state
    [W]: any HTTP call answers with a response or raises; the clock gives
    UTC time in microseconds; a sleep the system accepts moves the world on,
    and the system may refuse a deadline beyond the range of its clock with
    an error of its own. *)
Record Env (W : Type) := {
  perform : Request -> W -> W * result Response;
  utcnow : W -> W * Z;
  elapse : Z -> W -> W;
  sleep_refused : Z -> W -> option exn
}.

Arguments perform {W} _ _ _.
Arguments utcnow {W} _ _.
Arguments elapse {W} _ _ _.
Arguments sleep_refused {W} _ _ _.

(** ** The monad: state, exceptions and a trace of events *)

Record outcome (S A : Type) := Outcome {
  events : list event;
  state : S;
  res : result A
}.

Arguments Outcome {S A} _ _ _.
Arguments events {S A} _.
Arguments state {S A} _.
Arguments res {S A} _.

Definition M (S A : Type) : Type := S -> outcome S A.

Definition ret {S A} (a : A) : M S A := fun s => Outcome [] s (Ok a).

Definition raise {S A} (e : exn) : M S A := fun s => Outcome [] s (Raise e).

Definition bind {S A B} (m : M S A) (k : A -> M S B) : M S B :=
  fun s =>
    let o := m s in
    match res o with
    | Raise e => Outcome (events o) (state o) (Raise e)
    | Ok a =>
        let o' := k a (state o) in
        Outcome (events o ++ events o')%list (state o') (res o')
    end.

(** [try: m  except Exception as e: handler e] *)
Definition try_except {S A} (m : M S A) (handler : exn -> M S A) : M S A :=
  fun s =>
    let o := m s in
    match res o with
    | Ok a => o
    | Raise e =>
        let o' := handler e (state o) in
        Outcome (events o ++ events o')%list (state o') (res o')
    end.

Definition lift_result {S A} (r : result A) : M S A :=
  fun s => Outcome [] s r.

Definition log {S} (lvl : level) (msg : string) : M S unit :=
  fun s => Outcome [EvLog lvl msg] s (Ok tt).

Declare Scope py_scope.
Delimit Scope py_scope with py.
Notation "x <- m ;; k" := (bind m (fun x => k))
  (at level 61, m at next level, right associativity) : py_scope.
Notation "m ;; k" := (bind m (fun _ => k))
  (at level 61, right associativity) : py_scope.
Local Open Scope py_scope.

(** The same for pure code that can raise. *)
Definition rbind {A B} (r : result A) (k : A -> result B) : result B :=
  match r with
  | Ok a => k a
  | Raise e => Raise e
  end.

Notation "x <-? r ;; k" := (rbind r (fun x => k))
  (at level 61, r at next level, right associativity) : py_scope.

(** ** Configuration: the module-level constants *)

Record Config := {
  STOKERCLOUD_LOGIN_URL : string;
  STOKERCLOUD_ACCEPT_TERMS_URL : string;
  STOKERCLOUD_CONTROLLERDATA_URL : string;
  STOKERCLOUD_USER : string;
  STOKERCLOUD_PASSWORD : string;
  STOKERCLOUD_SCREEN : string;
  LOW_THRESHOLD_KG : spec_float;
  CHECK_INTERVAL : Z;
  MAX_CAPACITY_KG : option string;
  NTFY_SERVER : option string;
  NTFY_TOPIC : string;
  NTFY_TITLE : string;
  NTFY_PRIORITY : string;
  MIN_ALERT_INTERVAL_MIN : Z
}.

(** ** A scripted world for examples

    Every HTTP call consumes the next scripted reply (a refused connection
    once the script is used up); the clock stands still except while the
    program sleeps; a sleep of more than nine thousand million seconds is
    refused by the system, as on a host whose clock cannot hold the
    deadline. *)

Record Script := {
  replies : list (result Response);
  clock : Z
}.

Definition scripted : Env Script := {|
  perform := fun _ w =>
    match replies w with
    | [] => (w, Raise (Exn "ConnectionError" "connection refused"))
    | r :: rest => ({| replies := rest; clock := clock w |}, r)
    end;
  utcnow := fun w => (w, clock w);
  elapse := fun secs w => {| replies := replies w; clock := clock w + secs * 1000000 |};
  sleep_refused := fun secs _ =>
    if 9000000000 <? secs then Some (Exn "OSError" "[Errno 22] Invalid argument") else None
|}.

Definition json_reply (v : value) : result Response :=
  Ok {| status_code := 200; reason := "OK"; final_url := "https://stokercloud.dk/";
        text := ""; body := Ok v |}.

Definition status_reply (code : Z) (why : string) : result Response :=
  Ok {| status_code := code; reason := why; final_url := "https://ntfy.sh/stoker";
        text := ""; body := Raise (Exn "JSONDecodeError" "Expecting value") |}.

(** The defaults of the module, with a user, a topic and a server. *)
Definition sample_config : Config := {|
  STOKERCLOUD_LOGIN_URL := "https://stokercloud.dk/v2/dataout2/login.php";
  STOKERCLOUD_ACCEPT_TERMS_URL := "https://stokercloud.dk/v2/dataout2/acceptterms.php";
  STOKERCLOUD_CONTROLLERDATA_URL := "https://stokercloud.dk/v2/dataout2/controllerdata2.php";
  STOKERCLOUD_USER := "user";
  STOKERCLOUD_PASSWORD := "secret";
  STOKERCLOUD_SCREEN := "b1,3,b2,5";
  LOW_THRESHOLD_KG := PyFloat.of_decimal false 140 0;
  CHECK_INTERVAL := 60;
  MAX_CAPACITY_KG := Some "500";
  NTFY_SERVER := Some "https://ntfy.sh/";
  NTFY_TOPIC := "stoker";
  NTFY_TITLE := "Stoker hopper low";
  NTFY_PRIORITY := "4";
  MIN_ALERT_INTERVAL_MIN := 2
|}.

(** The same without [NTFY_SERVER] in the environment. *)
Definition config_without_server : Config := {|
  STOKERCLOUD_LOGIN_URL := STOKERCLOUD_LOGIN_URL sample_config;
  STOKERCLOUD_ACCEPT_TERMS_URL := STOKERCLOUD_ACCEPT_TERMS_URL sample_config;
  STOKERCLOUD_CONTROLLERDATA_URL := STOKERCLOUD_CONTROLLERDATA_URL sample_config;
  STOKERCLOUD_USER := STOKERCLOUD_USER sample_config;
  STOKERCLOUD_PASSWORD := STOKERCLOUD_PASSWORD sample_config;
  STOKERCLOUD_SCREEN := STOKERCLOUD_SCREEN sample_config;
  LOW_THRESHOLD_KG := LOW_THRESHOLD_KG sample_config;
  CHECK_INTERVAL := CHECK_INTERVAL sample_config;
  MAX_CAPACITY_KG := MAX_CAPACITY_KG sample_config;
  NTFY_SERVER := None;
  NTFY_TOPIC := NTFY_TOPIC sample_config;
  NTFY_TITLE := NTFY_TITLE sample_config;
  NTFY_PRIORITY := NTFY_PRIORITY sample_config;
  MIN_ALERT_INTERVAL_MIN := MIN_ALERT_INTERVAL_MIN sample_config
|}.

(** The same with a negative [CHECK_INTERVAL_SECONDS]. *)
Definition config_negative_interval : Config := {|
  STOKERCLOUD_LOGIN_URL := STOKERCLOUD_LOGIN_URL sample_config;
  STOKERCLOUD_ACCEPT_TERMS_URL := STOKERCLOUD_ACCEPT_TERMS_URL sample_config;
  STOKERCLOUD_CONTROLLERDATA_URL := STOKERCLOUD_CONTROLLERDATA_URL sample_config;
  STOKERCLOUD_USER := STOKERCLOUD_USER sample_config;
  STOKERCLOUD_PASSWORD := STOKERCLOUD_PASSWORD sample_config;
  STOKERCLOUD_SCREEN := STOKERCLOUD_SCREEN sample_config;
  LOW_THRESHOLD_KG := LOW_THRESHOLD_KG sample_config;
  CHECK_INTERVAL := -1;
  MAX_CAPACITY_KG := MAX_CAPACITY_KG sample_config;
  NTFY_SERVER := NTFY_SERVER sample_config;
  NTFY_TOPIC := NTFY_TOPIC sample_config;
  NTFY_TITLE := NTFY_TITLE sample_config;
  NTFY_PRIORITY := NTFY_PRIORITY sample_config;
  MIN_ALERT_INTERVAL_MIN := MIN_ALERT_INTERVAL_MIN sample_config
|}.

(** The same with a minimum interval of 286331154 minutes, the first
    whose seconds reach [2 ** 34]. *)
Definition config_long_interval : Config := {|
  STOKERCLOUD_LOGIN_URL := STOKERCLOUD_LOGIN_URL sample_config;
  STOKERCLOUD_ACCEPT_TERMS_URL := STOKERCLOUD_ACCEPT_TERMS_URL sample_config;
  STOKERCLOUD_CONTROLLERDATA_URL := STOKERCLOUD_CONTROLLERDATA_URL sample_config;
  STOKERCLOUD_USER := STOKERCLOUD_USER sample_config;
  STOKERCLOUD_PASSWORD := STOKERCLOUD_PASSWORD sample_config;
  STOKERCLOUD_SCREEN := STOKERCLOUD_SCREEN sample_config;
  LOW_THRESHOLD_KG := LOW_THRESHOLD_KG sample_config;
  CHECK_INTERVAL := CHECK_INTERVAL sample_config;
  MAX_CAPACITY_KG := MAX_CAPACITY_KG sample_config;
  NTFY_SERVER := NTFY_SERVER sample_config;
  NTFY_TOPIC := NTFY_TOPIC sample_config;
  NTFY_TITLE := NTFY_TITLE sample_config;
  NTFY_PRIORITY := NTFY_PRIORITY sample_config;
  MIN_ALERT_INTERVAL_MIN := 286331154
|}.

(** An environment that sets the three required variables and no other. *)
Definition minimal_environ (name : string) : option string :=
  if String.eqb name "STOKERCLOUD_USER" then Some "user"
  else if String.eqb name "STOKERCLOUD_PASSWORD" then Some "secret"
  else if String.eqb name "NTFY_TOPIC" then Some "stoker"
  else None.

(** A stand-in for [repr] of a float where an example needs one. *)
Definition sample_float_repr (x : spec_float) : string := PyFloat.format_1f x.

(** Payloads of the controller-data endpoint. *)
Definition hoppercontent_item (v : value) : value :=
  VDict [("id", VStr "hoppercontent"); ("value", v)].

Definition lng_kg_item (v : value) : value :=
  VDict [("id", VStr "3"); ("unit", VStr "LNG_KG"); ("value", v)].

Definition payload_front (v : value) : list (string * value) :=
  [("frontdata", VList [hoppercontent_item v])].

Definition payload_hopper (v : value) : list (string * value) :=
  [("hopperdata", VList [lng_kg_item v])].

Definition payload_both (front hopper : value) : list (string * value) :=
  [("frontdata", VList [VDict [("id", VStr "boilertemp"); ("value", VStr "61,5")];
                        hoppercontent_item front]);
   ("hopperdata", VList [lng_kg_item hopper])].

(** The local variables of [main] that live across iterations. *)
Record Locals := {
  token : value;
  last_alert_time : option Z
}.


(** Starting points of the examples. *)
Definition T0 : Z := 1700000000000000.

Definition world_of (rs : list (result Response)) : Script :=
  {| replies := rs; clock := T0 |}.

Definition reading_reply (txt : string) : result Response :=
  json_reply (VDict (payload_front (VStr txt))).

Definition locals0 : Locals := {| token := VStr "abc"; last_alert_time := None |}.

Definition kg_139_9 : spec_float := PyFloat.of_decimal false 1399 (-1).
Definition kg_500 : spec_float := PyFloat.of_Z 500.

(** ** The program *)

Section Program.

Import PyStr.

(** [repr] of a float, a builtin the program only uses inside log and
    error texts. *)
Variable float_repr : spec_float -> string.

Variable W : Type.
Variable env : Env W.
Variable cfg : Config.

(** *** Builtins on values *)

Fixpoint py_repr (v : value) : string :=
  match v with
  | VNone => "None"
  | VBool b => if b then "True" else "False"
  | VInt z => string_of_Z z
  | VFloat x => float_repr x
  | VStr s => repr s
  | VList items => "[" ++ join ", " (map py_repr items) ++ "]"
  | VDict entries =>
      "{" ++ join ", " (map (fun '(k, x) => repr k ++ ": " ++ py_repr x) entries) ++ "}"
  end.

(** [str(v)]: the text itself for a string, [repr] for everything else. *)
Definition py_str (v : value) : string :=
  match v with
  | VStr s => s
  | _ => py_repr v
  end.

(** [float(s)] *)
Definition py_float (s : string) : result spec_float :=
  match PyFloat.of_string s with
  | Some x => Ok x
  | None => Raise (ValueError ("could not convert string to float: " ++ repr s))
  end.

(** [x / y] on floats *)
Definition truediv (x y : spec_float) : result spec_float :=
  if PyFloat.is_zero y then Raise ZeroDivisionError else Ok (PyFloat.div x y).

(** *** HTTP and clock primitives *)

Definition http (rq : Request) : M W Response :=
  fun w =>
    let '(w', r) := perform env rq w in
    Outcome [EvHttp rq] w' r.

(** [requests.post(url, data=..., headers=..., timeout=10)] *)
Definition ntfy_request (u payload : string) (hs : list (string * string)) : Request :=
  {| via_session := false; method := "POST"; url := u; params := [];
     data := Some payload; headers := hs; timeout := 10 |}.

(** [resp.raise_for_status()] *)
Definition raise_for_status (resp : Response) : M W unit :=
  let c := status_code resp in
  let msg kind :=
    string_of_Z c ++ " " ++ kind ++ " Error: " ++ reason resp
    ++ " for url: " ++ final_url resp in
  if (400 <=? c) && (c <? 500) then raise (Exn "HTTPError" (msg "Client"))
  else if (500 <=? c) && (c <? 600) then raise (Exn "HTTPError" (msg "Server"))
  else ret tt.

(** [resp.json()] *)
Definition resp_json (resp : Response) : M W value := lift_result (body resp).

(** [datetime.now(timezone.utc)], in microseconds *)
Definition datetime_now : M W Z :=
  fun w => let '(w', t) := utcnow env w in Outcome [] w' (Ok t).

(** The largest number of seconds, in absolute value, whose nanoseconds
    fit the 64-bit timestamp [time.sleep] converts its argument to. *)
Definition SLEEP_MAX : Z := 9223372036.

(** [time.sleep(secs)] for an int: the argument is converted to a
    timestamp first, then its sign is tested, then the system sleeps, or
    refuses. *)
Definition time_sleep (secs : Z) : M W unit :=
  if (secs <? - SLEEP_MAX) || (SLEEP_MAX <? secs)
  then raise (OverflowError "timestamp too large to convert to C PyTime_t")
  else if secs <? 0 then raise (ValueError "sleep length must be non-negative")
  else fun w =>
         match sleep_refused env secs w with
         | Some e => Outcome [] w (Raise e)
         | None => Outcome [EvSleep secs] (elapse env secs w) (Ok tt)
         end.

(** [delta.total_seconds()] of a timedelta of [us] microseconds: the
    correctly rounded quotient by [10 ** 6]. *)
Definition total_seconds (us : Z) : spec_float :=
  PyFloat.div_round (us <? 0) (Z.abs us) 1000000.

(** The three requests of the session client. *)
Definition login_request : Request :=
  {| via_session := true; method := "POST"; url := STOKERCLOUD_LOGIN_URL cfg;
     params := [("user", VStr (STOKERCLOUD_USER cfg));
                ("password", VStr (STOKERCLOUD_PASSWORD cfg))];
     data := None; headers := []; timeout := 10 |}.

Definition terms_request (tok : value) : Request :=
  {| via_session := true; method := "GET"; url := STOKERCLOUD_ACCEPT_TERMS_URL cfg;
     params := [("token", tok)];
     data := None; headers := []; timeout := 10 |}.

Definition fetch_request (tok : value) : Request :=
  {| via_session := true; method := "GET"; url := STOKERCLOUD_CONTROLLERDATA_URL cfg;
     params := [("screen", VStr (STOKERCLOUD_SCREEN cfg)); ("token", tok)];
     data := None; headers := []; timeout := 10 |}.

(** *** [login_and_get_token] *)

Definition login_and_get_token : M W value :=
  log INFO ("Logging in to StokerCloud as " ++ STOKERCLOUD_USER cfg);;
  resp <- http login_request;;
  raise_for_status resp;;
  data <- try_except (resp_json resp)
            (fun e =>
               log ERROR ("Login did not return JSON, got: "
                          ++ repr (prefix_slice 200 (text resp)));;
               raise e);;
  tok <- lift_result
           (t1 <-? PyVal.get data "token";;
            if PyVal.truthy t1 then Ok t1
            else t2 <-? PyVal.get data "Token";;
                 if PyVal.truthy t2 then Ok t2
                 else PyVal.get data "TOKEN");;
  if negb (PyVal.truthy tok)
  then log ERROR ("Could not find token in login response: " ++ py_repr data);;
       raise (RuntimeError "Token not found in login response")
  else log INFO "Got token from login";;
       ret tok.

(** *** [accept_terms] *)

Definition accept_terms (tok : value) : M W unit :=
  log INFO "Accepting terms for token";;
  resp <- http (terms_request tok);;
  raise_for_status resp;;
  log DEBUG ("acceptterms response: " ++ repr (prefix_slice 200 (text resp))).

(** *** [get_hopper_kg] *)

(** [raw_val = str(item.get("value"))] and
    [hopper_kg = float(raw_val.replace(",", "."))] *)
Definition read_value (item : value) : result (string * spec_float) :=
  v <-? PyVal.get item "value";;
  let raw_val := py_str v in
  hopper_kg <-? py_float (replace_char "," "." raw_val);;
  Ok (raw_val, hopper_kg).

(** The loop over [frontdata]: the first item with id "hoppercontent"
    is read and ends the loop. *)
Fixpoint scan_frontdata (items : list value) : result (option (string * spec_float)) :=
  match items with
  | [] => Ok None
  | item :: rest =>
      id <-? PyVal.get item "id";;
      if PyVal.eq_str id "hoppercontent"
      then found <-? read_value item;; Ok (Some found)
      else scan_frontdata rest
  end.

(** The loop over [hopperdata]: id "3" and unit "LNG_KG". *)
Fixpoint scan_hopperdata (items : list value) : result (option (string * spec_float)) :=
  match items with
  | [] => Ok None
  | item :: rest =>
      id <-? PyVal.get item "id";;
      hit <-? (if PyVal.eq_str id "3"
               then unit <-? PyVal.get item "unit";; Ok (PyVal.eq_str unit "LNG_KG")
               else Ok false);;
      if hit : bool
      then found <-? read_value item;; Ok (Some found)
      else scan_hopperdata rest
  end.

Definition hopper_log (source : string) (raw_val : string) (hopper_kg : spec_float) : M unit unit :=
  log INFO ("Hopper (" ++ source ++ "): " ++ PyFloat.format_1f hopper_kg
            ++ " kg (raw=" ++ repr raw_val ++ ")").

(** The body of [get_hopper_kg] from [data = resp.json()] on. It touches
    nothing outside, so it runs over the unit state. *)
Definition get_hopper_kg_data (data : value) : M unit spec_float :=
  ks <- lift_result (PyVal.keys data);;
  log DEBUG ("controllerdata top-level keys: " ++ py_repr (VList (map VStr ks)));;
  frontdata <- lift_result (PyVal.get_default data "frontdata" (VList []));;
  from_front <- match frontdata with
                | VList items => lift_result (scan_frontdata items)
                | _ => ret None
                end;;
  match from_front with
  | Some (raw_val, hopper_kg) =>
      hopper_log "frontdata.hoppercontent" raw_val hopper_kg;;
      ret hopper_kg
  | None =>
      hopperdata <- lift_result (PyVal.get_default data "hopperdata" (VList []));;
      from_hopper <- match hopperdata with
                     | VList items => lift_result (scan_hopperdata items)
                     | _ => ret None
                     end;;
      match from_hopper with
      | Some (raw_val, hopper_kg) =>
          hopper_log "hopperdata id=3" raw_val hopper_kg;;
          ret hopper_kg
      | None =>
          hopperdata_raw <- lift_result (PyVal.get data "hopperdata");;
          raise (RuntimeError
                   ("Could not find hopper value in frontdata/hopperdata. "
                    ++ "frontdata=" ++ py_repr frontdata
                    ++ ", hopperdata=" ++ py_repr hopperdata_raw))
      end
  end.

(** Runs state-free code inside a stateful function. *)
Definition pure_call {S A} (m : M unit A) : M S A :=
  fun s => let o := m tt in Outcome (events o) s (res o).

Definition get_hopper_kg (tok : value) : M W spec_float :=
  resp <- http (fetch_request tok);;
  raise_for_status resp;;
  data <- resp_json resp;;
  pure_call (get_hopper_kg_data data).

(** *** [send_ntfy_alert] *)

Definition alert_message (hopper_kg : spec_float) (percent : option spec_float) : string :=
  match percent with
  | Some p =>
      "Hopper low: " ++ PyFloat.format_1f hopper_kg ++ " kg remaining "
      ++ "(" ++ PyFloat.format_1f p ++ "% of capacity). Threshold: "
      ++ PyFloat.format_1f (LOW_THRESHOLD_KG cfg) ++ " kg."
  | None =>
      "Hopper low: " ++ PyFloat.format_1f hopper_kg ++ " kg remaining. "
      ++ "Threshold: " ++ PyFloat.format_1f (LOW_THRESHOLD_KG cfg) ++ " kg."
  end.

Definition send_ntfy_alert (hopper_kg : spec_float) (percent : option spec_float) : M W unit :=
  u <- match NTFY_SERVER cfg with
       | Some server => ret (rstrip_char "/" server ++ "/" ++ NTFY_TOPIC cfg)
       | None => raise (AttributeError "NoneType" "rstrip")
       end;;
  let message := alert_message hopper_kg percent in
  let hs := [("Title", NTFY_TITLE cfg); ("Priority", NTFY_PRIORITY cfg);
             ("Tags", "warning,fire")] in
  log INFO ("Sending ntfy alert to " ++ u);;
  try_except
    (resp <- http (ntfy_request u message hs);;
     raise_for_status resp;;
     log INFO "ntfy alert sent successfully")
    (fun e => log ERROR ("Failed to send ntfy alert: " ++ exn_text e)).

(** *** [safe_get_hopper] *)

Definition safe_get_hopper (tok : value) : M W (spec_float * value) :=
  try_except
    (hopper_kg <- get_hopper_kg tok;;
     ret (hopper_kg, tok))
    (fun e =>
       log WARNING ("Token might be expired or request failed: " ++ exn_text e);;
       log INFO "Attempting re-login...";;
       try_except
         (new_token <- login_and_get_token;;
          accept_terms new_token;;
          log INFO "New token obtained, retrying data fetch...";;
          hopper_kg <- get_hopper_kg new_token;;
          ret (hopper_kg, new_token))
         (fun e2 =>
            log ERROR ("Token renewal failed: " ++ exn_text e2);;
            raise e2)).

(** *** [main] *)

(** Runs a function of the world inside [main], whose state also holds
    the local variables. *)
Definition call {A} (m : M W A) : M (W * Locals) A :=
  fun s =>
    let o := m (fst s) in
    Outcome (events o) (state o, snd s) (res o).

Definition get_local {A} (f : Locals -> A) : M (W * Locals) A :=
  fun s => Outcome [] s (Ok (f (snd s))).

Definition set_token (tok : value) : M (W * Locals) unit :=
  fun s => Outcome [] (fst s, {| token := tok; last_alert_time := last_alert_time (snd s) |}) (Ok tt).

Definition set_last_alert_time (t : option Z) : M (W * Locals) unit :=
  fun s => Outcome [] (fst s, {| token := token (snd s); last_alert_time := t |}) (Ok tt).

(** [(now - last).total_seconds() >= MIN_ALERT_INTERVAL_MIN * 60] *)
Definition interval_elapsed (last now : Z) : bool :=
  PyFloat.ge_int (total_seconds (now - last)) (MIN_ALERT_INTERVAL_MIN cfg * 60).

(** The expression bound to [should_send]; the clock is read only when
    there was an alert before. *)
Definition should_send (last : option Z) : M W bool :=
  match last with
  | None => ret true
  | Some l => now <- datetime_now;; ret (interval_elapsed l now)
  end.

(** [max_capacity_kg_val and max_capacity_kg_val > 0] *)
Definition capacity_usable (max_capacity_kg_val : option spec_float) : bool :=
  match max_capacity_kg_val with
  | Some m => PyFloat.truthy m && PyFloat.ltb (S754_zero false) m
  | None => false
  end.

(** The value of [percent] for a reading. *)
Definition compute_percent (max_capacity_kg_val : option spec_float)
    (hopper_kg : spec_float) : result (option spec_float) :=
  match max_capacity_kg_val with
  | Some m =>
      if capacity_usable max_capacity_kg_val
      then q <-? truediv hopper_kg m;; Ok (Some (PyFloat.mul q (PyFloat.of_Z 100)))
      else Ok None
  | None => Ok None
  end.

Definition ok_message (hopper_kg : spec_float) (percent : option spec_float) : string :=
  match percent with
  | Some p =>
      "Hopper OK: " ++ PyFloat.format_1f hopper_kg ++ " kg ("
      ++ PyFloat.format_1f p ++ "%), threshold "
      ++ PyFloat.format_1f (LOW_THRESHOLD_KG cfg) ++ " kg"
  | None =>
      "Hopper OK: " ++ PyFloat.format_1f hopper_kg ++ " kg, threshold "
      ++ PyFloat.format_1f (LOW_THRESHOLD_KG cfg) ++ " kg"
  end.

(** Lines 186 to 207: the alert decision and what follows from it. *)
Definition alert_step (hopper_kg : spec_float) (percent : option spec_float) : M (W * Locals) unit :=
  if PyFloat.leb hopper_kg (LOW_THRESHOLD_KG cfg)
  then
    last <- get_local last_alert_time;;
    go <- call (should_send last);;
    if go : bool
    then call (send_ntfy_alert hopper_kg percent);;
         now <- call datetime_now;;
         set_last_alert_time (Some now)
    else call (log INFO "Hopper low but last alert was recent; skipping alert.")
  else call (log INFO (ok_message hopper_kg percent)).

(** The body of the [try] of one iteration. *)
Definition cycle_body (max_capacity_kg_val : option spec_float) : M (W * Locals) unit :=
  tok <- get_local token;;
  fetched <- call (safe_get_hopper tok);;
  let '(hopper_kg, tok') := fetched in
  set_token tok';;
  percent <- lift_result (compute_percent max_capacity_kg_val hopper_kg);;
  alert_step hopper_kg percent.

(** The [try ... except Exception] of one iteration. *)
Definition cycle (max_capacity_kg_val : option spec_float) : M (W * Locals) unit :=
  try_except (cycle_body max_capacity_kg_val)
    (fun e => call (log ERROR ("Final failure this cycle: " ++ exn_text e))).

(** One turn of [while True]: the cycle, then the sleep. *)
Definition iteration (max_capacity_kg_val : option spec_float) : M (W * Locals) unit :=
  cycle max_capacity_kg_val;;
  call (time_sleep (CHECK_INTERVAL cfg)).

(** The first [n] turns of the loop. *)
Fixpoint poll_loop (max_capacity_kg_val : option spec_float) (n : nat) : M (W * Locals) unit :=
  match n with
  | O => ret tt
  | S k => iteration max_capacity_kg_val;; poll_loop max_capacity_kg_val k
  end.

(** [float(MAX_CAPACITY_KG) if MAX_CAPACITY_KG else None] *)
Definition max_capacity_kg_val_of (raw : option string) : result (option spec_float) :=
  match raw with
  | Some s => if String.eqb s "" then Ok None else x <-? py_float s;; Ok (Some x)
  | None => Ok None
  end.

(** [main], observed for [n] turns of its loop; the result is the local
    variables at that point. *)
Definition main (n : nat) : M W Locals :=
  max_capacity_kg_val <- lift_result (max_capacity_kg_val_of (MAX_CAPACITY_KG cfg));;
  tok <- login_and_get_token;;
  accept_terms tok;;
  fun w =>
    let o := poll_loop max_capacity_kg_val n
               (w, {| token := tok; last_alert_time := None |}) in
    Outcome (events o) (fst (state o))
      (match res o with Ok _ => Ok (snd (state o)) | Raise e => Raise e end).

(** The alert decision of a cycle as a function of its inputs. *)
Definition decide (hopper_kg : spec_float) (last : option Z) (now : Z) : bool :=
  PyFloat.leb hopper_kg (LOW_THRESHOLD_KG cfg)
  && match last with
     | None => true
     | Some l => interval_elapsed l now
     end.


(** *** The module level (lines 7 to 28) *)

(** [os.environ] as a lookup. *)
Definition Environ : Type := string -> option string.

Definition KeyError (key : string) : exn := Exn "KeyError" (repr key).

(** [os.getenv(name, default)] *)
Definition getenv (environ : Environ) (name default : string) : string :=
  match environ name with
  | Some v => v
  | None => default
  end.

(** [os.environ[name]] *)
Definition environ_item (environ : Environ) (name : string) : result string :=
  match environ name with
  | Some v => Ok v
  | None => Raise (KeyError name)
  end.

Definition DEFAULT_SCREEN_PARAM : string :=
  "b1,3,b2,5,b3,4,b4,6,b5,12,b6,14,b7,15,b8,16,b9,9,b10,0,"
  ++ "d1,3,d2,4,d3,0,d4,0,d5,0,d6,0,d7,0,d8,0,d9,0,d10,0,"
  ++ "h1,2,h2,3,h3,4,h4,7,h5,8,h6,0,h7,0,h8,0,h9,0,h10,0,"
  ++ "w1,2,w2,3,w3,9,w4,0,w5,0".

(** The names [logging] knows a level by. *)
Definition level_names : list string :=
  ["CRITICAL"; "FATAL"; "ERROR"; "WARN"; "WARNING"; "INFO"; "DEBUG"; "NOTSET"].

(** The level check of [logging.basicConfig(level=name, ...)] for a name
    given as a string. *)
Definition check_level (name : string) : result unit :=
  if existsb (String.eqb name) level_names then Ok tt
  else Raise (ValueError ("Unknown level: " ++ repr name)).

(** Line 7 and the assignments of lines 9 to 28, in their order; the first
    one that raises ends the import of the module. *)
Definition load_config (environ : Environ) : result Config :=
  _ <-? check_level (getenv environ "LOG_LEVEL" "INFO");;
  let login_url := getenv environ "STOKERCLOUD_LOGIN_URL"
                     "https://stokercloud.dk/v2/dataout2/login.php" in
  let terms_url := getenv environ "STOKERCLOUD_ACCEPT_TERMS_URL"
                     "https://stokercloud.dk/v2/dataout2/acceptterms.php" in
  let data_url := getenv environ "STOKERCLOUD_CONTROLLERDATA_URL"
                    "https://stokercloud.dk/v2/dataout2/controllerdata2.php" in
  user <-? environ_item environ "STOKERCLOUD_USER";;
  password <-? environ_item environ "STOKERCLOUD_PASSWORD";;
  let screen := getenv environ "STOKERCLOUD_SCREEN" DEFAULT_SCREEN_PARAM in
  low_threshold_kg <-? py_float (getenv environ "LOW_THRESHOLD_KG" "140");;
  check_interval <-? PyInt.of_string (getenv environ "CHECK_INTERVAL_SECONDS" "60");;
  let max_capacity_kg := environ "MAX_CAPACITY_KG" in
  let ntfy_server := environ "NTFY_SERVER" in
  ntfy_topic <-? environ_item environ "NTFY_TOPIC";;
  let ntfy_title := getenv environ "NTFY_TITLE" "Stoker hopper low" in
  let ntfy_priority := getenv environ "NTFY_PRIORITY" "4" in
  min_alert_interval_min <-? PyInt.of_string (getenv environ "MIN_ALERT_INTERVAL_MIN" "2");;
  Ok {| STOKERCLOUD_LOGIN_URL := login_url;
        STOKERCLOUD_ACCEPT_TERMS_URL := terms_url;
        STOKERCLOUD_CONTROLLERDATA_URL := data_url;
        STOKERCLOUD_USER := user;
        STOKERCLOUD_PASSWORD := password;
        STOKERCLOUD_SCREEN := screen;
        LOW_THRESHOLD_KG := low_threshold_kg;
        CHECK_INTERVAL := check_interval;
        MAX_CAPACITY_KG := max_capacity_kg;
        NTFY_SERVER := ntfy_server;
        NTFY_TOPIC := ntfy_topic;
        NTFY_TITLE := ntfy_title;
        NTFY_PRIORITY := ntfy_priority;
        MIN_ALERT_INTERVAL_MIN := min_alert_interval_min |}.

(** *** Vocabulary of the properties *)

(** The HTTP requests among the events, in order. *)
Fixpoint requests (evs : list event) : list Request :=
  match evs with
  | [] => []
  | EvHttp rq :: rest => rq :: requests rest
  | _ :: rest => requests rest
  end.

(** The sleeps among the events, in order. *)
Fixpoint sleeps (evs : list event) : list Z :=
  match evs with
  | [] => []
  | EvSleep secs :: rest => secs :: sleeps rest
  | _ :: rest => sleeps rest
  end.

(** The interval is one [time.sleep] accepts: not negative, within the
    range of the timestamp, and one the system does not refuse. *)
Definition sleep_accepts (secs : Z) : Prop :=
  0 <= secs <= SLEEP_MAX /\ forall w, sleep_refused env secs w = None.

(** Extraction in the words of the specification: the entry that supplies
    the value, and what is made of its value. *)

Definition field (entries : list (string * value)) (key : string) (default : value) : value :=
  match PyVal.lookup key entries with
  | Some v => v
  | None => default
  end.

Definition id_is (item : value) (key expected : string) : bool :=
  match PyVal.get item key with
  | Ok v => PyVal.eq_str v expected
  | Raise _ => false
  end.

Definition is_hoppercontent (item : value) : bool := id_is item "id" "hoppercontent".

Definition is_lng_kg (item : value) : bool :=
  id_is item "id" "3" && id_is item "unit" "LNG_KG".

Definition first_entry (p : value -> bool) (fld : value) : option value :=
  match fld with
  | VList items => find p items
  | _ => None
  end.

Definition chosen_entry (entries : list (string * value)) : option value :=
  match first_entry is_hoppercontent (field entries "frontdata" (VList [])) with
  | Some item => Some item
  | None => first_entry is_lng_kg (field entries "hopperdata" (VList []))
  end.

Definition value_of (item : value) : value :=
  match PyVal.get item "value" with
  | Ok v => v
  | Raise _ => VNone
  end.

Definition coerce_and_parse (v : value) : result spec_float :=
  py_float (replace_char "," "." (py_str v)).

(** A list field holds objects only, as the endpoint documents it. *)
Definition list_of_dicts (fld : value) : bool :=
  match fld with
  | VList items => forallb PyVal.is_dict items
  | _ => true
  end.

Definition payload_typed (entries : list (string * value)) : bool :=
  list_of_dicts (field entries "frontdata" (VList []))
  && list_of_dicts (field entries "hopperdata" (VList [])).

Definition not_found_message (entries : list (string * value)) : string :=
  "Could not find hopper value in frontdata/hopperdata. "
  ++ "frontdata=" ++ py_repr (field entries "frontdata" (VList []))
  ++ ", hopperdata=" ++ py_repr (field entries "hopperdata" VNone).


(** A computation that only logs: no request, no sleep. *)
Definition quiet {S A} (m : M S A) : Prop :=
  forall s, requests (events (m s)) = [] /\ sleeps (events (m s)) = [].


(** The notification a cycle posts for a reading. *)
Definition ntfy_url (server : string) : string :=
  rstrip_char "/" server ++ "/" ++ NTFY_TOPIC cfg.

Definition ntfy_headers : list (string * string) :=
  [("Title", NTFY_TITLE cfg); ("Priority", NTFY_PRIORITY cfg); ("Tags", "warning,fire")].

Definition alert_request (server : string) (hopper_kg : spec_float)
    (percent : option spec_float) : Request :=
  ntfy_request (ntfy_url server) (alert_message hopper_kg percent) ntfy_headers.

(** The notifications among the events: the requests made outside the
    session. *)
Definition notifications (evs : list event) : list Request :=
  filter (fun rq => negb (via_session rq)) (requests evs).

(** The notification went through: the success line was logged. *)
Definition delivered (evs : list event) : Prop :=
  In (EvLog INFO "ntfy alert sent successfully") evs.


(** A computation that never sleeps. *)
Definition sleepless {S A} (m : M S A) : Prop :=
  forall s, sleeps (events (m s)) = [].


(** The percentage in the words of the specification: the reading over the
    capacity, times 100, when a capacity is configured and positive. *)
Definition percent_remaining (max_capacity_kg_val : option spec_float)
    (hopper_kg : spec_float) : option spec_float :=
  match max_capacity_kg_val with
  | Some m =>
      if PyFloat.ltb (S754_zero false) m
      then Some (PyFloat.mul (PyFloat.div hopper_kg m) (PyFloat.of_Z 100))
      else None
  | None => None
  end.


(** A status [raise_for_status] rejects, and the text of its error. *)
Definition error_status (c : Z) : bool := (400 <=? c) && (c <? 600).

Definition http_error_text (resp : Response) : string :=
  string_of_Z (status_code resp) ++ " "
  ++ (if status_code resp <? 500 then "Client" else "Server")
  ++ " Error: " ++ reason resp ++ " for url: " ++ final_url resp.

(** The token a login body offers: the first true value among its keys
    "token", "Token" and "TOKEN". *)
Definition offered_token (d : list (string * value)) : option value :=
  find PyVal.truthy [field d "token" VNone; field d "Token" VNone; field d "TOKEN" VNone].


(** The entries a scan passes over: objects that do not match. *)
Definition passed_over (p : value -> bool) (items : list value) : bool :=
  forallb (fun item => PyVal.is_dict item && negb (p item)) items.


(** A run of [k] slashes. *)
Fixpoint slashes (k : nat) : string :=
  match k with
  | O => ""
  | S k' => String "/" (slashes k')
  end.

(** The last line [send_ntfy_alert] logs, by what its request met. *)
Definition send_verdict (answer : result Response) : event :=
  match answer with
  | Ok resp =>
      if error_status (status_code resp)
      then EvLog ERROR ("Failed to send ntfy alert: " ++ http_error_text resp)
      else EvLog INFO "ntfy alert sent successfully"
  | Raise e => EvLog ERROR ("Failed to send ntfy alert: " ++ exn_text e)
  end.


(** The number a run of decimal digits writes after [acc], and the texts
    made of digits only. *)
Fixpoint uint_value (d : Decimal.uint) (acc : Z) : Z :=
  match d with
  | Decimal.Nil => acc
  | Decimal.D0 d => uint_value d (acc * 10)
  | Decimal.D1 d => uint_value d (acc * 10 + 1)
  | Decimal.D2 d => uint_value d (acc * 10 + 2)
  | Decimal.D3 d => uint_value d (acc * 10 + 3)
  | Decimal.D4 d => uint_value d (acc * 10 + 4)
  | Decimal.D5 d => uint_value d (acc * 10 + 5)
  | Decimal.D6 d => uint_value d (acc * 10 + 6)
  | Decimal.D7 d => uint_value d (acc * 10 + 7)
  | Decimal.D8 d => uint_value d (acc * 10 + 8)
  | Decimal.D9 d => uint_value d (acc * 10 + 9)
  end.

Fixpoint all_digits (s : string) : bool :=
  match s with
  | EmptyString => true
  | String c rest => is_digit c && all_digits rest
  end.


(** The values of a JSON type that cannot stand for a number. *)
Definition not_numeric (v : value) : bool :=
  match v with
  | VNone | VBool _ | VList _ | VDict _ => true
  | VInt _ | VFloat _ | VStr _ => false
  end.


(** How many times a character occurs in a text. *)
Fixpoint count_char (a : ascii) (s : string) : nat :=
  match s with
  | EmptyString => O
  | String c rest => ((if Ascii.eqb c a then 1 else 0) + count_char a rest)%nat
  end.

(** The decimal separators of a raw value: its commas and its points. *)
Definition separators (s : string) : nat :=
  (count_char "," s + count_char "." s)%nat.

(** Correct rounding, and the order of the doubles, said without the
    operations of the model. *)

(** Where [a / b] lies in the unit interval, for [0 <= a < b]. *)
Definition location_of (a b : Z) : location :=
  if a =? 0 then loc_Exact else loc_Inexact (2 * a ?= b).

(** The quotient [T / D] with the position of its remainder. *)
Definition rec_of (T D : Z) : shr_record :=
  shr_record_of_loc (T / D) (location_of (T mod D) D).

(** The exponent of a double whose value has [z] as its magnitude. *)
Definition fexp64 (z : Z) : Z := Z.max (z - 53) (-1074).

(** Twice the distance from [n / d] to [m * 2 ^ e], and the unit [2 ^ e],
    both on the scale that makes them integers: the distance is at most
    half a unit when the first is at most the second. *)
Definition rounding_error (n d m e : Z) : Z :=
  2 * Z.abs (n * 2 ^ Z.max 0 (- e) - m * d * 2 ^ Z.max 0 e).

Definition half_ulp (d e : Z) : Z := d * 2 ^ Z.max 0 e.

(** [e] is the exponent a double gives a mantissa of the size of [m]. *)
Definition canonical64 (m e : Z) : Prop := fexp64 (Zdigits2 m + e) = e.

(** [m * 2 ^ e] is [n / d] rounded to the nearest double, ties to even. *)
Definition rounds_to (n d m e : Z) : Prop :=
  0 <= m /\ canonical64 m e /\
  rounding_error n d m e <= half_ulp d e /\
  (rounding_error n d m e = half_ulp d e -> Z.even m = true).

(** The double with sign [neg], mantissa [m] and exponent [e]: infinite
    beyond the largest exponent. *)
Definition float_of (neg : bool) (m e : Z) : spec_float :=
  match m with
  | Z0 => S754_zero neg
  | Zpos p => if e <=? 971 then S754_finite neg p e else S754_infinity neg
  | Zneg _ => S754_nan
  end.

(** A double, as [valid_binary] has it. *)
Definition is_double (x : spec_float) : Prop := valid_binary PyFloat.prec PyFloat.emax x = true.

Definition signed (s : bool) (m : positive) : Z := if s then Z.neg m else Z.pos m.

(** [a * 2 ^ ea <= b * 2 ^ eb], compared exactly. *)
Definition dyadic_le (a ea b eb : Z) : Prop :=
  a * 2 ^ (ea - Z.min ea eb) <= b * 2 ^ (eb - Z.min ea eb).

(** The value of a zero or finite double as [(mantissa, exponent)]. *)
Definition dyadic (x : spec_float) : Z * Z :=
  match x with
  | S754_finite s m e => (signed s m, e)
  | _ => (0, 0)
  end.

(** [x <= y] on the values: nothing compares with NaN, the infinities
    bound every number. *)
Definition float_le (x y : spec_float) : Prop :=
  match x, y with
  | S754_nan, _ | _, S754_nan => False
  | S754_infinity true, _ | _, S754_infinity false => True
  | S754_infinity false, _ | _, S754_infinity true => False
  | _, _ => dyadic_le (fst (dyadic x)) (snd (dyadic x)) (fst (dyadic y)) (snd (dyadic y))
  end.

(** *** The monad, step by step *)

Lemma bind_ok {S A B} (m : M S A) (k : A -> M S B) (s : S) (a : A) :
  res (m s) = Ok a ->
  bind m k s = Outcome (events (m s) ++ events (k a (state (m s))))%list
                       (state (k a (state (m s)))) (res (k a (state (m s)))).
Proof. intros H. unfold bind. rewrite H. reflexivity. Qed.

Lemma bind_raise {S A B} (m : M S A) (k : A -> M S B) (s : S) (e : exn) :
  res (m s) = Raise e ->
  bind m k s = Outcome (events (m s)) (state (m s)) (Raise e).
Proof. intros H. unfold bind. rewrite H. reflexivity. Qed.

Lemma try_except_ok {S A} (m : M S A) (h : exn -> M S A) (s : S) (a : A) :
  res (m s) = Ok a -> try_except m h s = m s.
Proof. intros H. unfold try_except. rewrite H. reflexivity. Qed.

Lemma try_except_raise {S A} (m : M S A) (h : exn -> M S A) (s : S) (e : exn) :
  res (m s) = Raise e ->
  try_except m h s = Outcome (events (m s) ++ events (h e (state (m s))))%list
                             (state (h e (state (m s)))) (res (h e (state (m s)))).
Proof. intros H. unfold try_except. rewrite H. reflexivity. Qed.

Lemma bind_res {S A B} (m : M S A) (k : A -> M S B) (s : S) :
  res (bind m k s) =
  match res (m s) with
  | Ok a => res (k a (state (m s)))
  | Raise e => Raise e
  end.
Proof. unfold bind. destruct (res (m s)); reflexivity. Qed.

Lemma bind_state {S A B} (m : M S A) (k : A -> M S B) (s : S) :
  state (bind m k s) =
  match res (m s) with
  | Ok a => state (k a (state (m s)))
  | Raise _ => state (m s)
  end.
Proof. unfold bind. destruct (res (m s)); reflexivity. Qed.

Lemma bind_events {S A B} (m : M S A) (k : A -> M S B) (s : S) :
  events (bind m k s) =
  match res (m s) with
  | Ok a => (events (m s) ++ events (k a (state (m s))))%list
  | Raise _ => events (m s)
  end.
Proof. unfold bind. destruct (res (m s)); reflexivity. Qed.

Lemma try_res {S A} (m : M S A) (h : exn -> M S A) (s : S) :
  res (try_except m h s) =
  match res (m s) with
  | Ok a => Ok a
  | Raise e => res (h e (state (m s)))
  end.
Proof. unfold try_except. destruct (res (m s)) eqn:E; simpl; [exact E|reflexivity]. Qed.

Lemma try_state {S A} (m : M S A) (h : exn -> M S A) (s : S) :
  state (try_except m h s) =
  match res (m s) with
  | Ok _ => state (m s)
  | Raise e => state (h e (state (m s)))
  end.
Proof. unfold try_except. destruct (res (m s)); reflexivity. Qed.

Lemma try_events {S A} (m : M S A) (h : exn -> M S A) (s : S) :
  events (try_except m h s) =
  match res (m s) with
  | Ok _ => events (m s)
  | Raise e => (events (m s) ++ events (h e (state (m s))))%list
  end.
Proof. unfold try_except. destruct (res (m s)); reflexivity. Qed.

(** Pushes the three projections through the combinators. *)
Ltac mstep :=
  repeat (cbv beta;
          rewrite ?try_res, ?try_state, ?try_events,
                  ?bind_res, ?bind_state, ?bind_events;
          cbn [res state events ret raise log lift_result];
          rewrite ?app_nil_r).

Lemma requests_app (a b : list event) :
  requests (a ++ b)%list = (requests a ++ requests b)%list.
Proof.
  induction a as [|ev a IH]; simpl; [reflexivity|].
  destruct ev; simpl; rewrite IH; reflexivity.
Qed.

Lemma sleeps_app (a b : list event) :
  sleeps (a ++ b)%list = (sleeps a ++ sleeps b)%list.
Proof.
  induction a as [|ev a IH]; simpl; [reflexivity|].
  destruct ev; simpl; rewrite IH; reflexivity.
Qed.

(** *** Correct rounding of a quotient *)

Lemma fexp_fexp64 (z : Z) : fexp PyFloat.prec PyFloat.emax z = fexp64 z.
Proof. reflexivity. Qed.

Lemma pow2_pos (k : Z) : 0 <= k -> 0 < 2 ^ k.
Proof. intros H. apply Z.pow_pos_nonneg; lia. Qed.

Lemma pow2_succ (k : Z) : 0 <= k -> 2 ^ (k + 1) = 2 * 2 ^ k.
Proof. intros H. rewrite Z.pow_add_r by lia. change (2 ^ 1) with 2. lia. Qed.

Lemma pow2_le (a b : Z) : 0 <= a <= b -> 2 ^ a <= 2 ^ b.
Proof. intros H. apply Z.pow_le_mono_r; lia. Qed.

Lemma pow2_lt (a b : Z) : 0 <= a < b -> 2 ^ a < 2 ^ b.
Proof. intros H. apply Z.pow_lt_mono_r; lia. Qed.

Lemma digits2_pos_bounds (p : positive) :
  2 ^ (Zpos (digits2_pos p) - 1) <= Zpos p < 2 ^ Zpos (digits2_pos p).
Proof.
  induction p as [p IH|p IH|]; cbn [digits2_pos].
  - rewrite Pos2Z.inj_succ. unfold Z.succ.
    replace (Zpos (digits2_pos p) + 1 - 1) with (Zpos (digits2_pos p) - 1 + 1) by lia.
    rewrite !pow2_succ by lia. lia.
  - rewrite Pos2Z.inj_succ. unfold Z.succ.
    replace (Zpos (digits2_pos p) + 1 - 1) with (Zpos (digits2_pos p) - 1 + 1) by lia.
    rewrite !pow2_succ by lia. lia.
  - cbn. lia.
Qed.

Lemma Zdigits2_bounds (x : Z) :
  0 < x -> 0 < Zdigits2 x /\ 2 ^ (Zdigits2 x - 1) <= x < 2 ^ Zdigits2 x.
Proof.
  destruct x as [|p|p]; try lia. intros _. cbn [Zdigits2].
  split; [lia|apply digits2_pos_bounds].
Qed.

Lemma Zdigits2_unique (x c : Z) :
  2 ^ (c - 1) <= x < 2 ^ c -> 0 < c -> Zdigits2 x = c.
Proof.
  intros [Hlo Hhi] Hc.
  assert (Hx : 0 < x) by (pose proof (pow2_pos (c - 1)); lia).
  destruct (Zdigits2_bounds x Hx) as (Hd & Hl & Hh).
  destruct (Z.lt_trichotomy (Zdigits2 x) c) as [H|[H|H]]; [|exact H|].
  - pose proof (pow2_le (Zdigits2 x) (c - 1)). lia.
  - pose proof (pow2_le c (Zdigits2 x - 1)). lia.
Qed.

Lemma Zdigits2_nonneg (x : Z) : 0 <= Zdigits2 x.
Proof. destruct x; cbn; lia. Qed.

Lemma Zdigits2_le (x c : Z) : 0 <= c -> 0 <= x < 2 ^ c -> Zdigits2 x <= c.
Proof.
  intros Hc [Hlo Hhi]. destruct (Z.eq_dec x 0) as [->|Hx]; [cbn; lia|].
  destruct (Zdigits2_bounds x ltac:(lia)) as (Hd & Hl & Hh).
  destruct (Z_le_gt_dec (Zdigits2 x) c) as [H|H]; [exact H|].
  pose proof (pow2_le c (Zdigits2 x - 1)). lia.
Qed.

Lemma Zdigits2_ge (x c : Z) : 0 <= c -> 2 ^ c <= x -> c + 1 <= Zdigits2 x.
Proof.
  intros Hc Hlo.
  assert (Hx : 0 < x) by (pose proof (pow2_pos c); lia).
  destruct (Zdigits2_bounds x Hx) as (Hd & Hl & Hh).
  destruct (Z_le_gt_dec (c + 1) (Zdigits2 x)) as [H|H]; [exact H|].
  pose proof (pow2_le (Zdigits2 x) c). lia.
Qed.

(** *** Shifting with a sticky remainder *)

Lemma new_location_spec (d r : Z) : 0 < d -> new_location d r = location_of r d.
Proof.
  intros Hd. unfold new_location, new_location_even, new_location_odd, location_of.
  destruct (Z.even d) eqn:E; [reflexivity|].
  destruct (r =? 0); [reflexivity|]. f_equal.
  assert (Ho : Z.odd d = true) by (rewrite <- Z.negb_even, E; reflexivity).
  apply Z.odd_spec in Ho. destruct Ho as [c Hc].
  destruct (Z.compare_spec (2 * r + 1) d), (Z.compare_spec (2 * r) d); try reflexivity; lia.
Qed.

Lemma loc_of_rec_of (T D : Z) :
  loc_of_shr_record (rec_of T D) = location_of (T mod D) D /\ shr_m (rec_of T D) = T / D.
Proof.
  unfold rec_of. destruct (location_of (T mod D) D) as [|[]]; split; reflexivity.
Qed.

Lemma shr_1_rec_of (T D : Z) : 0 <= T -> 0 < D -> shr_1 (rec_of T D) = rec_of T (2 * D).
Proof.
  intros HT HD. unfold rec_of.
  assert (Hq : T / (2 * D) = T / D / 2) by (rewrite Z.mul_comm, Z.div_div by lia; reflexivity).
  assert (Hr : T mod (2 * D) = T mod D + D * ((T / D) mod 2))
    by (rewrite (Z.mul_comm 2 D), Z.rem_mul_r by lia; reflexivity).
  rewrite Hq, Hr.
  pose proof (Z.mod_pos_bound T D HD) as Ha.
  pose proof (Z.div_pos T D HT HD) as Hm.
  set (a := T mod D) in *. set (m := T / D) in *. clearbody a m.
  unfold location_of.
  destruct m as [|[p|p|]|p]; try lia.
  - change (0 / 2) with 0. change (0 mod 2) with 0.
    rewrite Z.mul_0_r, Z.add_0_r.
    destruct (a =? 0) eqn:E0; [reflexivity|].
    apply Z.eqb_neq in E0.
    replace (2 * a ?= 2 * D) with Lt by (symmetry; apply Z.compare_lt_iff; lia).
    destruct (2 * a ?= D); reflexivity.
  - (* odd, at least 3 *)
    replace (Z.pos p~1 / 2) with (Z.pos p)
      by (rewrite Pos2Z.inj_xI; apply (Z.div_unique _ 2 _ 1); lia).
    replace (Z.pos p~1 mod 2) with 1
      by (rewrite Pos2Z.inj_xI; apply (Z.mod_unique _ 2 (Z.pos p) 1); lia).
    destruct (a =? 0) eqn:E0.
    + apply Z.eqb_eq in E0. subst a.
      replace (0 + D * 1 =? 0) with false by (symmetry; apply Z.eqb_neq; lia).
      replace (2 * (0 + D * 1) ?= 2 * D) with Eq by (symmetry; apply Z.compare_eq_iff; lia).
      reflexivity.
    + apply Z.eqb_neq in E0.
      replace (a + D * 1 =? 0) with false by (symmetry; apply Z.eqb_neq; lia).
      replace (2 * (a + D * 1) ?= 2 * D) with Gt by (symmetry; apply Z.compare_gt_iff; lia).
      destruct (2 * a ?= D); reflexivity.
  - replace (Z.pos p~0 / 2) with (Z.pos p)
      by (rewrite Pos2Z.inj_xO; apply (Z.div_unique _ 2 _ 0); lia).
    replace (Z.pos p~0 mod 2) with 0
      by (rewrite Pos2Z.inj_xO; apply (Z.mod_unique _ 2 (Z.pos p) 0); lia).
    rewrite Z.mul_0_r, Z.add_0_r.
    destruct (a =? 0) eqn:E0; [reflexivity|].
    apply Z.eqb_neq in E0.
    replace (2 * a ?= 2 * D) with Lt by (symmetry; apply Z.compare_lt_iff; lia).
    destruct (2 * a ?= D); reflexivity.
  - change (1 / 2) with 0. change (1 mod 2) with 1.
    destruct (a =? 0) eqn:E0.
    + apply Z.eqb_eq in E0. subst a.
      replace (0 + D * 1 =? 0) with false by (symmetry; apply Z.eqb_neq; lia).
      replace (2 * (0 + D * 1) ?= 2 * D) with Eq by (symmetry; apply Z.compare_eq_iff; lia).
      reflexivity.
    + apply Z.eqb_neq in E0.
      replace (a + D * 1 =? 0) with false by (symmetry; apply Z.eqb_neq; lia).
      replace (2 * (a + D * 1) ?= 2 * D) with Gt by (symmetry; apply Z.compare_gt_iff; lia).
      destruct (2 * a ?= D); reflexivity.
Qed.

Lemma pow2_xO (p : positive) : 2 ^ Z.pos p~0 = 2 ^ Z.pos p * 2 ^ Z.pos p.
Proof. rewrite <- Z.pow_add_r by lia. f_equal. lia. Qed.

Lemma pow2_xI (p : positive) : 2 ^ Z.pos p~1 = 2 * (2 ^ Z.pos p * 2 ^ Z.pos p).
Proof.
  rewrite <- Z.pow_add_r, <- pow2_succ by lia. f_equal. lia.
Qed.

Lemma iter_shr_1_rec_of (p : positive) :
  forall T D, 0 <= T -> 0 < D ->
  iter_pos shr_1 p (rec_of T D) = rec_of T (D * 2 ^ Zpos p).
Proof.
  induction p as [p IH|p IH|]; intros T D HT HD; cbn [iter_pos].
  - rewrite shr_1_rec_of, IH, IH by (try assumption; pose proof (pow2_pos (Zpos p)); nia).
    f_equal. rewrite pow2_xI. ring.
  - rewrite IH, IH by (try assumption; pose proof (pow2_pos (Zpos p)); nia).
    f_equal. rewrite pow2_xO. ring.
  - rewrite shr_1_rec_of by assumption. f_equal. change (2 ^ 1) with 2. ring.
Qed.

Lemma shr_rec_of (T D e k : Z) :
  0 <= T -> 0 < D ->
  shr (rec_of T D) e k = (rec_of T (D * 2 ^ Z.max 0 k), e + Z.max 0 k).
Proof.
  intros HT HD. unfold shr. destruct k as [|p|p].
  - cbn [Z.max Z.compare]. rewrite Z.mul_1_r, Z.add_0_r. reflexivity.
  - rewrite iter_shr_1_rec_of by assumption.
    replace (Z.max 0 (Z.pos p)) with (Z.pos p) by lia. reflexivity.
  - replace (Z.max 0 (Z.neg p)) with 0 by lia.
    rewrite Z.mul_1_r, Z.add_0_r. reflexivity.
Qed.

Lemma shr_fexp_rec_of (T D e : Z) :
  0 <= T -> 0 < D ->
  shr_fexp PyFloat.prec PyFloat.emax (T / D) e (location_of (T mod D) D)
  = (rec_of T (D * 2 ^ Z.max 0 (fexp64 (Zdigits2 (T / D) + e) - e)),
     e + Z.max 0 (fexp64 (Zdigits2 (T / D) + e) - e)).
Proof.
  intros HT HD. unfold shr_fexp. rewrite fexp_fexp64.
  apply (shr_rec_of T D e _ HT HD).
Qed.

Lemma round_nearest_even_rec_of (T D : Z) : 0 < D ->
  round_nearest_even (T / D) (location_of (T mod D) D) = PyFloat.round_half_even_div T D.
Proof.
  intros HD. unfold round_nearest_even, PyFloat.round_half_even_div, location_of.
  destruct (T mod D =? 0) eqn:E0.
  - apply Z.eqb_eq in E0. rewrite E0.
    replace (2 * 0 ?= D) with Lt by (symmetry; apply Z.compare_lt_iff; lia).
    reflexivity.
  - destruct (2 * (T mod D) ?= D); reflexivity.
Qed.

(** *** The two roundings of [binary_round_aux] *)

Lemma round_half_even_div_nonneg (T D : Z) : 0 <= T -> 0 < D -> 0 <= PyFloat.round_half_even_div T D.
Proof.
  intros HT HD. unfold PyFloat.round_half_even_div.
  pose proof (Z.div_pos T D HT HD).
  destruct (2 * (T mod D) ?= D); [destruct (Z.even (T / D))| |]; lia.
Qed.

Lemma shr_fexp_exact (m e : Z) :
  0 <= m ->
  shr_fexp PyFloat.prec PyFloat.emax m e loc_Exact
  = (rec_of m (2 ^ Z.max 0 (fexp64 (Zdigits2 m + e) - e)),
     e + Z.max 0 (fexp64 (Zdigits2 m + e) - e)).
Proof.
  intros Hm.
  pose proof (shr_fexp_rec_of m 1 e Hm ltac:(lia)) as H.
  rewrite Z.div_1_r, Z.mod_1_r, Z.mul_1_l in H. exact H.
Qed.

Lemma binary_round_aux_rec_of (neg : bool) (T D e : Z) :
  0 <= T -> 0 < D ->
  binary_round_aux PyFloat.prec PyFloat.emax neg (T / D) e (location_of (T mod D) D)
  = let k := Z.max 0 (fexp64 (Zdigits2 (T / D) + e) - e) in
    let m1 := PyFloat.round_half_even_div T (D * 2 ^ k) in
    let e1 := e + k in
    let k2 := Z.max 0 (fexp64 (Zdigits2 m1 + e1) - e1) in
    match m1 / 2 ^ k2 with
    | Z0 => S754_zero neg
    | Zpos m => if e1 + k2 <=? 971 then S754_finite neg m (e1 + k2) else S754_infinity neg
    | Zneg _ => S754_nan
    end.
Proof.
  intros HT HD. cbv zeta. unfold binary_round_aux.
  rewrite (shr_fexp_rec_of T D e HT HD).
  set (k := Z.max 0 (fexp64 (Zdigits2 (T / D) + e) - e)).
  assert (HD1 : 0 < D * 2 ^ k) by (pose proof (pow2_pos k ltac:(lia)); nia).
  destruct (loc_of_rec_of T (D * 2 ^ k)) as [-> ->].
  rewrite (round_nearest_even_rec_of T (D * 2 ^ k) HD1).
  rewrite (shr_fexp_exact _ (e + k) (round_half_even_div_nonneg T _ HT HD1)).
  destruct (loc_of_rec_of (PyFloat.round_half_even_div T (D * 2 ^ k))
              (2 ^ Z.max 0 (fexp64 (Zdigits2 (PyFloat.round_half_even_div T (D * 2 ^ k)) + (e + k))
                            - (e + k)))) as [_ ->].
  reflexivity.
Qed.

Lemma div_round_unfold (neg : bool) (n d : Z) :
  0 < n -> 0 < d ->
  let s := - Z.min (fexp64 (Zdigits2 n - Zdigits2 d)) 0 in
  PyFloat.div_round neg n d
  = binary_round_aux PyFloat.prec PyFloat.emax neg (n * 2 ^ s / d) (- s)
      (location_of ((n * 2 ^ s) mod d) d).
Proof.
  intros Hn Hd s. unfold PyFloat.div_round.
  destruct n as [|p|p]; try lia.
  unfold SFdiv_core_binary. rewrite !Z.add_0_r, fexp_fexp64.
  change (Z.sub 0 0) with 0.
  fold s.
  replace (0 - Z.min (fexp64 (Zdigits2 (Z.pos p) - Zdigits2 d)) 0) with s by (unfold s; lia).
  replace (Z.min (fexp64 (Zdigits2 (Z.pos p) - Zdigits2 d)) 0) with (- s) by (unfold s; lia).
  assert (Hs : 0 <= s) by (unfold s; lia).
  clearbody s.
  assert (Hm : match s with
               | 0 => Z.pos p
               | Z.pos _ => Z.shiftl (Z.pos p) s
               | Z.neg _ => 0
               end = Z.pos p * 2 ^ s).
  { destruct s as [|q|q]; [rewrite Z.pow_0_r; lia| |lia].
    apply Z.shiftl_mul_pow2. lia. }
  rewrite Hm.
  unfold Z.div, Z.modulo.
  destruct (Z.div_eucl (Z.pos p * 2 ^ s) d) as [q r].
  rewrite new_location_spec by assumption. reflexivity.
Qed.

(** *** The nearest double *)

Lemma round_half_even_div_near (T D : Z) :
  0 <= T -> 0 < D ->
  let m := PyFloat.round_half_even_div T D in
  (m = T / D \/ m = T / D + 1) /\
  2 * Z.abs (T - m * D) <= D /\
  (2 * Z.abs (T - m * D) = D -> Z.even m = true).
Proof.
  intros HT HD. cbv zeta. unfold PyFloat.round_half_even_div.
  pose proof (Z.div_mod T D ltac:(lia)) as Hdm.
  pose proof (Z.mod_pos_bound T D HD) as Hr.
  set (q := T / D) in *. set (r := T mod D) in *. clearbody q r.
  destruct (Z.compare_spec (2 * r) D) as [H|H|H].
  - destruct (Z.even q) eqn:E.
    + split; [auto|]. split; [lia|auto].
    + split; [auto|]. split; [lia|]. intros _.
      rewrite Z.even_add, E. reflexivity.
  - split; [auto|]. split; lia.
  - split; [auto|]. split; lia.
Qed.

Lemma div_pow2_bounds (q a b k : Z) :
  0 <= k <= a -> 2 ^ a <= q < 2 ^ b -> a <= b ->
  2 ^ (a - k) <= q / 2 ^ k < 2 ^ (b - k).
Proof.
  intros Hk [Hlo Hhi] Hab.
  pose proof (pow2_pos k ltac:(lia)) as Hp.
  split.
  - apply Z.div_le_lower_bound; [lia|].
    rewrite <- Z.pow_add_r by lia. replace (k + (a - k)) with a by lia. exact Hlo.
  - apply Z.div_lt_upper_bound; [lia|].
    rewrite <- Z.pow_add_r by lia. replace (k + (b - k)) with b by lia. exact Hhi.
Qed.

Lemma canonical64_shifted (q e : Z) :
  0 <= q -> e <= fexp64 (Zdigits2 q + e) ->
  canonical64 (q / 2 ^ (fexp64 (Zdigits2 q + e) - e)) (fexp64 (Zdigits2 q + e)).
Proof.
  intros Hq He. unfold canonical64.
  set (e1 := fexp64 (Zdigits2 q + e)) in *.
  set (k := e1 - e).
  assert (Hk : 0 <= k) by (unfold k; lia).
  destruct (Z.eq_dec q 0) as [->|Hq0].
  { rewrite Z.div_0_l by (pose proof (pow2_pos k Hk); lia).
    unfold e1, fexp64 in *. cbn [Zdigits2] in *. lia. }
  destruct (Zdigits2_bounds q ltac:(lia)) as (Hd & Hlo & Hhi).
  destruct (Z_lt_le_dec k (Zdigits2 q)) as [Hlt|Hge].
  - pose proof (div_pow2_bounds q (Zdigits2 q - 1) (Zdigits2 q) k ltac:(lia)
                  (conj Hlo Hhi) ltac:(lia)) as Hb.
    rewrite (Zdigits2_unique (q / 2 ^ k) (Zdigits2 q - k)).
    + replace (Zdigits2 q - k + e1) with (Zdigits2 q + e) by (unfold k; lia).
      reflexivity.
    + replace (Zdigits2 q - k - 1) with (Zdigits2 q - 1 - k) by lia. exact Hb.
    + lia.
  - assert (H0 : q / 2 ^ k = 0).
    { apply Z.div_small. split; [lia|].
      pose proof (pow2_le (Zdigits2 q) k ltac:(lia)). lia. }
    rewrite H0. cbn [Zdigits2]. unfold k, e1, fexp64 in *. lia.
Qed.

(** A carry out of the mantissa is absorbed by one more shift. *)
Lemma canonical64_carry (m0 m1 e1 : Z) :
  0 <= m0 -> canonical64 m0 e1 -> m1 = m0 \/ m1 = m0 + 1 ->
  let k2 := Z.max 0 (fexp64 (Zdigits2 m1 + e1) - e1) in
  canonical64 (m1 / 2 ^ k2) (e1 + k2) /\
  m1 / 2 ^ k2 * 2 ^ k2 = m1 /\
  (k2 = 0 \/ (k2 = 1 /\ m1 / 2 ^ k2 = 2 ^ 52)).
Proof.
  intros Hm0 Hc [->| ->]; cbv zeta.
  { rewrite Hc. replace (Z.max 0 (e1 - e1)) with 0 by lia.
    rewrite Z.pow_0_r, Z.div_1_r, Z.add_0_r, Z.mul_1_r. auto. }
  assert (Hc0 : 0 <= Zdigits2 m0) by apply Zdigits2_nonneg.
  assert (Hhi : m0 < 2 ^ Zdigits2 m0).
  { destruct (Z.eq_dec m0 0) as [->|H0]; [reflexivity|].
    apply Zdigits2_bounds. lia. }
  destruct (Z_lt_le_dec (m0 + 1) (2 ^ Zdigits2 m0)) as [Hlt|Hge].
  - assert (Hm : 0 < m0).
    { destruct (Z.eq_dec m0 0) as [->|H0]; [cbn in Hlt; lia|lia]. }
    destruct (Zdigits2_bounds m0 Hm) as (Hd & Hlo & _).
    rewrite (Zdigits2_unique (m0 + 1) (Zdigits2 m0)) by lia.
    rewrite Hc. replace (Z.max 0 (e1 - e1)) with 0 by lia.
    rewrite Z.pow_0_r, Z.div_1_r, Z.add_0_r, Z.mul_1_r.
    unfold canonical64. rewrite (Zdigits2_unique (m0 + 1) (Zdigits2 m0)) by lia. auto.
  - assert (Hm1 : m0 + 1 = 2 ^ Zdigits2 m0) by lia.
    assert (Hd1 : Zdigits2 (m0 + 1) = Zdigits2 m0 + 1).
    { apply Zdigits2_unique; [|lia].
      replace (Zdigits2 m0 + 1 - 1) with (Zdigits2 m0) by lia.
      rewrite pow2_succ by lia. lia. }
    rewrite Hd1. unfold canonical64, fexp64 in Hc.
    destruct (Z.eq_dec (Zdigits2 m0) 53) as [H53|H53].
    + assert (Hk2 : Z.max 0 (fexp64 (Zdigits2 m0 + 1 + e1) - e1) = 1)
        by (unfold fexp64; lia).
      rewrite Hk2, Hm1, H53. change (2 ^ 1) with 2.
      change (2 ^ 53 / 2) with (2 ^ 52).
      split; [|split; [reflexivity|right; auto]].
      unfold canonical64, fexp64. change (Zdigits2 (2 ^ 52)) with 53. lia.
    + assert (Hk2 : Z.max 0 (fexp64 (Zdigits2 m0 + 1 + e1) - e1) = 0)
        by (unfold fexp64; lia).
      rewrite Hk2, Z.pow_0_r, Z.div_1_r, Z.add_0_r, Z.mul_1_r.
      split; [|auto]. unfold canonical64, fexp64. rewrite Hd1. lia.
Qed.

Lemma abs_scale (a b g X : Z) :
  0 < X ->
  (2 * Z.abs (a * X - b * X) <= g * X -> 2 * Z.abs (a - b) <= g) /\
  (2 * Z.abs (a * X - b * X) = g * X <-> 2 * Z.abs (a - b) = g).
Proof.
  intros HX.
  replace (a * X - b * X) with ((a - b) * X) by ring.
  rewrite Z.abs_mul, (Z.abs_eq X) by lia.
  split; [intros H; nia|split; intros H; nia].
Qed.

Lemma rounding_rescaled (n d m s c : Z) :
  0 <= s -> 0 <= c -> 0 < d ->
  (2 * Z.abs (n * 2 ^ s - m * d * 2 ^ c) <= d * 2 ^ c ->
   rounding_error n d m (c - s) <= half_ulp d (c - s)) /\
  (rounding_error n d m (c - s) = half_ulp d (c - s) ->
   2 * Z.abs (n * 2 ^ s - m * d * 2 ^ c) = d * 2 ^ c).
Proof.
  intros Hs Hc Hd. unfold rounding_error, half_ulp.
  destruct (Z_le_gt_dec s c) as [Hle|Hgt].
  - replace (Z.max 0 (- (c - s))) with 0 by lia.
    replace (Z.max 0 (c - s)) with (c - s) by lia.
    rewrite Z.pow_0_r, Z.mul_1_r.
    replace (2 ^ c) with (2 ^ (c - s) * 2 ^ s)
      by (rewrite <- Z.pow_add_r by lia; f_equal; lia).
    pose proof (abs_scale n (m * d * 2 ^ (c - s)) (d * 2 ^ (c - s)) (2 ^ s)
                  (pow2_pos s Hs)) as [H1 H2].
    rewrite !Z.mul_assoc. split; [exact H1|apply H2].
  - replace (Z.max 0 (- (c - s))) with (s - c) by lia.
    replace (Z.max 0 (c - s)) with 0 by lia.
    rewrite Z.pow_0_r, !Z.mul_1_r.
    replace (2 ^ s) with (2 ^ (s - c) * 2 ^ c)
      by (rewrite <- Z.pow_add_r by lia; f_equal; lia).
    pose proof (abs_scale (n * 2 ^ (s - c)) (m * d) d (2 ^ c) (pow2_pos c Hc)) as [H1 H2].
    rewrite !Z.mul_assoc. split; [exact H1|apply H2].
Qed.

Lemma div_core_canonical (n d : Z) :
  0 < n -> 0 < d ->
  let s := - Z.min (fexp64 (Zdigits2 n - Zdigits2 d)) 0 in
  - s <= fexp64 (Zdigits2 (n * 2 ^ s / d) + - s).
Proof.
  intros Hn Hd s.
  assert (Hs : 0 <= s) by (unfold s; lia).
  destruct (Zdigits2_bounds n Hn) as (Hdn & Hnlo & Hnhi).
  destruct (Zdigits2_bounds d Hd) as (Hdd & Hdlo & Hdhi).
  set (dn := Zdigits2 n) in *. set (dd := Zdigits2 d) in *.
  set (q := n * 2 ^ s / d).
  assert (Hq : 0 <= Zdigits2 q) by apply Zdigits2_nonneg.
  destruct (Z_le_gt_dec 0 (dn - 1 + s - dd)) as [Hbig|Hsmall].
  - (* the quotient has at least [dn - dd + s] digits *)
    assert (Hlo : 2 ^ (dn - 1 + s - dd) <= q).
    { unfold q. apply Z.div_le_lower_bound; [lia|].
      assert (H1 : d * 2 ^ (dn - 1 + s - dd) <= 2 ^ dd * 2 ^ (dn - 1 + s - dd)).
      { apply Z.mul_le_mono_nonneg_r; [pose proof (pow2_pos (dn - 1 + s - dd)); lia|lia]. }
      rewrite <- Z.pow_add_r in H1 by lia.
      replace (dd + (dn - 1 + s - dd)) with (dn - 1 + s) in H1 by lia.
      rewrite Z.pow_add_r in H1 by lia.
      assert (H2 : 2 ^ (dn - 1) * 2 ^ s <= n * 2 ^ s).
      { apply Z.mul_le_mono_nonneg_r; [pose proof (pow2_pos s); lia|lia]. }
      lia. }
    pose proof (Zdigits2_ge q _ Hbig Hlo) as Hdq.
    unfold s in *. unfold fexp64 in *. lia.
  - unfold s in *. unfold fexp64 in *. lia.
Qed.

(** The quotient of two positive integers is rounded correctly. *)
Theorem div_round_spec (neg : bool) (n d : Z) :
  0 < n -> 0 < d ->
  exists m e, rounds_to n d m e /\ PyFloat.div_round neg n d = float_of neg m e.
Proof.
  intros Hn Hd.
  pose proof (div_round_unfold neg n d Hn Hd) as Hu. cbv zeta in Hu.
  pose proof (div_core_canonical n d Hn Hd) as Hcan. cbv zeta in Hcan.
  set (s := - Z.min (fexp64 (Zdigits2 n - Zdigits2 d)) 0) in *.
  assert (Hs : 0 <= s) by (unfold s; lia).
  clearbody s.
  set (T := n * 2 ^ s) in *.
  assert (HT : 0 <= T) by (unfold T; pose proof (pow2_pos s Hs); nia).
  rewrite (binary_round_aux_rec_of neg T d (- s) HT Hd) in Hu. cbv zeta in Hu.
  pose proof (Z.div_pos T d HT Hd) as Hq.
  set (q := T / d) in *.
  set (e1 := fexp64 (Zdigits2 q + - s)) in *.
  replace (Z.max 0 (e1 - - s)) with (e1 - - s) in Hu by lia.
  set (k := e1 - - s) in *.
  assert (Hk : 0 <= k) by (unfold k; lia).
  assert (HD1 : 0 < d * 2 ^ k) by (pose proof (pow2_pos k Hk); nia).
  pose proof (canonical64_shifted q (- s) Hq Hcan) as Hc0. fold e1 in Hc0. fold k in Hc0.
  assert (Hm0 : q / 2 ^ k = T / (d * 2 ^ k))
    by (unfold q; rewrite Z.div_div by (pose proof (pow2_pos k Hk); lia); reflexivity).
  rewrite Hm0 in Hc0.
  destruct (round_half_even_div_near T (d * 2 ^ k) HT HD1) as (Hm1 & Hnear & Htie).
  set (m1 := PyFloat.round_half_even_div T (d * 2 ^ k)) in *.
  replace (- s + k) with e1 in Hu by (unfold k; lia).
  assert (Hm0' : 0 <= T / (d * 2 ^ k)) by (apply Z.div_pos; lia).
  destruct (canonical64_carry _ m1 e1 Hm0' Hc0 Hm1) as (Hc & Hmul & Hk2).
  set (k2 := Z.max 0 (fexp64 (Zdigits2 m1 + e1) - e1)) in *.
  assert (Hk2' : 0 <= k2) by (unfold k2; lia).
  set (m := m1 / 2 ^ k2) in *.
  assert (Hm1' : 0 <= m1) by lia.
  assert (Hm : 0 <= m) by (apply Z.div_pos; [lia|apply pow2_pos; lia]).
  exists m, (e1 + k2). split.
  - assert (Hbound : 2 * Z.abs (n * 2 ^ s - m * d * 2 ^ (k + k2)) <= d * 2 ^ (k + k2)
                     /\ (2 * Z.abs (n * 2 ^ s - m * d * 2 ^ (k + k2)) = d * 2 ^ (k + k2)
                         -> Z.even m = true)).
    { fold T. rewrite Z.pow_add_r by lia.
      replace (m * d * (2 ^ k * 2 ^ k2)) with (m * 2 ^ k2 * (d * 2 ^ k)) by ring.
      rewrite Hmul.
      destruct Hk2 as [H0|[H1 H52]].
      - rewrite H0 in *. rewrite Z.pow_0_r in *. rewrite Z.mul_1_r in *.
        rewrite Hmul. auto.
      - rewrite H1. change (2 ^ 1) with 2. split; [lia|].
        intros _. rewrite H52. reflexivity. }
    destruct Hbound as [Hb1 Hb2].
    replace (e1 + k2) with (k + k2 - s) by (unfold k; lia).
    destruct (rounding_rescaled n d m s (k + k2) Hs ltac:(lia) Hd) as [R1 R2].
    split; [exact Hm|]. split.
    + replace (k + k2 - s) with (e1 + k2) by (unfold k; lia). exact Hc.
    + split; [apply R1; exact Hb1|]. intros H. apply Hb2, R2, H.
  - rewrite Hu. unfold float_of. reflexivity.
Qed.

(** *** The order of the doubles *)

Lemma canonical64_facts (p : positive) (e : Z) :
  canonical64 (Z.pos p) e ->
  -1074 <= e /\ Z.pos p < 2 ^ 53 /\ (-1074 < e -> 2 ^ 52 <= Z.pos p).
Proof.
  unfold canonical64, fexp64. intros H.
  destruct (Zdigits2_bounds (Z.pos p) ltac:(lia)) as (Hd & Hlo & Hhi).
  split; [lia|]. split.
  - pose proof (pow2_le (Zdigits2 (Z.pos p)) 53 ltac:(lia)). lia.
  - intros He. pose proof (pow2_le 52 (Zdigits2 (Z.pos p) - 1) ltac:(lia)). lia.
Qed.

Lemma bounded_canonical64 (p : positive) (e : Z) :
  bounded PyFloat.prec PyFloat.emax p e = true <-> canonical64 (Z.pos p) e /\ e <= 971.
Proof.
  unfold bounded, canonical_mantissa, canonical64. rewrite fexp_fexp64.
  rewrite andb_true_iff, Z.eqb_eq, Z.leb_le. reflexivity.
Qed.

Lemma is_double_finite (s : bool) (p : positive) (e : Z) :
  is_double (S754_finite s p e) ->
  -1074 <= e /\ Z.pos p < 2 ^ 53 /\ (-1074 < e -> 2 ^ 52 <= Z.pos p).
Proof.
  unfold is_double. cbn [valid_binary]. intros H.
  apply bounded_canonical64 in H. apply canonical64_facts, H.
Qed.

Lemma mantissas_by_exponent (p1 p2 : positive) (e1 e2 : Z) :
  -1074 <= e1 -> Z.pos p1 < 2 ^ 53 -> 2 ^ 52 <= Z.pos p2 -> e1 < e2 ->
  Z.pos p1 < Z.pos p2 * 2 ^ (e2 - e1).
Proof.
  intros H1 Hp1 Hp2 He.
  pose proof (pow2_le 1 (e2 - e1) ltac:(lia)) as Hp. change (2 ^ 1) with 2 in Hp.
  change (2 ^ 53) with (2 * 2 ^ 52) in Hp1. nia.
Qed.

Lemma leb_finite (s1 s2 : bool) (p1 p2 : positive) (e1 e2 : Z) :
  is_double (S754_finite s1 p1 e1) -> is_double (S754_finite s2 p2 e2) ->
  (PyFloat.leb (S754_finite s1 p1 e1) (S754_finite s2 p2 e2) = true
   <-> dyadic_le (signed s1 p1) e1 (signed s2 p2) e2).
Proof.
  intros V1 V2.
  destruct (is_double_finite _ _ _ V1) as (L1 & U1 & N1).
  destruct (is_double_finite _ _ _ V2) as (L2 & U2 & N2).
  unfold PyFloat.leb, SFleb, SFcompare, dyadic_le.
  destruct (Z.compare_spec e1 e2) as [He|He|He].
  - subst e2. rewrite Z.min_id, Z.sub_diag, Z.pow_0_r, !Z.mul_1_r.
    change (Pos.compare_cont Eq p1 p2) with (Pos.compare p1 p2).
    destruct s1, s2; cbn [signed];
      destruct (Pos.compare_spec p1 p2) as [Hp|Hp|Hp]; cbn [CompOpp];
      split; intros H; try reflexivity; try discriminate; try lia.
  - replace (Z.min e1 e2) with e1 by lia. rewrite Z.sub_diag, Z.pow_0_r, Z.mul_1_r.
    pose proof (mantissas_by_exponent p1 p2 e1 e2 L1 U1 (N2 ltac:(lia)) He) as Hm.
    pose proof (pow2_pos (e2 - e1) ltac:(lia)) as Hp.
    destruct s1, s2; cbn [signed];
      split; intros H; try reflexivity; try discriminate; try lia; try nia.
  - replace (Z.min e1 e2) with e2 by lia. rewrite Z.sub_diag, Z.pow_0_r, Z.mul_1_r.
    pose proof (mantissas_by_exponent p2 p1 e2 e1 L2 U2 (N1 ltac:(lia)) ltac:(lia)) as Hm.
    pose proof (pow2_pos (e1 - e2) ltac:(lia)) as Hp.
    destruct s1, s2; cbn [signed];
      split; intros H; try reflexivity; try discriminate; try lia; try nia.
Qed.

(** The comparison of the model is the order of the values. *)
Lemma leb_float_le (x y : spec_float) :
  is_double x -> is_double y -> (PyFloat.leb x y = true <-> float_le x y).
Proof.
  intros Vx Vy.
  destruct x as [s1|s1| |s1 p1 e1], y as [s2|s2| |s2 p2 e2];
    try (apply (leb_finite _ _ _ _ _ _ Vx Vy));
    clear Vx Vy;
    repeat match goal with s : bool |- _ => destruct s end;
    try solve [cbn; split; intros H;
               first [reflexivity | discriminate | contradiction | exact I]];
    unfold float_le, dyadic_le, PyFloat.leb, SFleb, SFcompare;
    cbn [dyadic fst snd signed].
  all: try (pose proof (pow2_pos (e2 - Z.min 0 e2) ltac:(lia))).
  all: try (pose proof (pow2_pos (e1 - Z.min e1 0) ltac:(lia))).
  all: split; intros H'; try reflexivity; try discriminate; try lia; nia.
Qed.

Lemma float_le_refl (x : spec_float) : x <> S754_nan -> float_le x x.
Proof.
  destruct x as [s|s| |s p e]; intros H; try congruence.
  - cbn. unfold dyadic_le. lia.
  - destruct s; exact I.
  - cbn. unfold dyadic_le. lia.
Qed.

(** *** The cooldown test, to the microsecond *)

Lemma rounded_nonzero (n e : Z) :
  0 < n -> canonical64 0 e -> ~ rounding_error n 1000000 0 e <= half_ulp 1000000 e.
Proof.
  unfold canonical64, fexp64, rounding_error, half_ulp. cbn [Zdigits2]. intros Hn He H.
  assert (e = -1074) by lia. subst e.
  replace (Z.max 0 (- -1074)) with 1074 in H by lia.
  replace (Z.max 0 (-1074)) with 0 in H by lia.
  pose proof (pow2_le 19 1074 ltac:(lia)) as Hp. change (2 ^ 19) with 524288 in Hp.
  rewrite Z.pow_0_r in H. nia.
Qed.

Lemma rounded_large (n e K : Z) (p : positive) :
  rounding_error n 1000000 (Z.pos p) e <= half_ulp 1000000 e ->
  canonical64 (Z.pos p) e -> 0 <= e -> K < 2 ^ 34 ->
  K < Z.pos p * 2 ^ e /\ K * 1000000 < n.
Proof.
  unfold rounding_error, half_ulp. intros H Hc He HK.
  destruct (canonical64_facts p e Hc) as (_ & _ & Hn).
  specialize (Hn ltac:(lia)).
  replace (Z.max 0 (- e)) with 0 in H by lia.
  replace (Z.max 0 e) with e in H by lia.
  rewrite Z.pow_0_r, Z.mul_1_r in H.
  pose proof (pow2_pos e He) as HP. set (P := 2 ^ e) in *. clearbody P.
  change (2 ^ 34) with 17179869184 in HK. change (2 ^ 52) with 4503599627370496 in Hn.
  assert (H1 : Z.pos p <= Z.pos p * P) by nia.
  split; [lia|].
  assert (H2 : 2 * Z.pos p - 1 <= (2 * Z.pos p - 1) * P) by nia.
  lia.
Qed.

Lemma rounded_small (n e K : Z) (p : positive) :
  rounding_error n 1000000 (Z.pos p) e <= half_ulp 1000000 e ->
  canonical64 (Z.pos p) e -> e < 0 -> 0 < n -> 0 <= K < 2 ^ 34 ->
  (K * 2 ^ (- e) <=? Z.pos p) = (K * 1000000 <=? n) /\
  (Z.pos p <=? K * 2 ^ (- e)) = (n <=? K * 1000000).
Proof.
  unfold rounding_error, half_ulp. intros H Hc He Hn0 HK.
  destruct (canonical64_facts p e Hc) as (_ & Hu & Hn).
  replace (Z.max 0 (- e)) with (- e) in H by lia.
  replace (Z.max 0 e) with 0 in H by lia.
  rewrite Z.pow_0_r, !Z.mul_1_r in H.
  pose proof (pow2_pos (- e) ltac:(lia)) as HP.
  change (2 ^ 34) with 17179869184 in HK.
  assert (H18 : 2 * 2 ^ (- e) <= 1000000 ->
                4503599627370496 <= Z.pos p /\ 2 ^ (- e) <= 262144).
  { intros Hsm.
    assert (L : - e <= 18).
    { destruct (Z_le_gt_dec (- e) 18) as [L|G]; [exact L|exfalso].
      pose proof (pow2_le 19 (- e) ltac:(lia)) as Hp19.
      change (2 ^ 19) with 524288 in Hp19. lia. }
    split; [apply Hn; lia|].
    apply (pow2_le (- e) 18). lia. }
  set (P := 2 ^ (- e)) in *. clearbody P.
  split.
  - destruct (Z.leb_spec (K * P) (Z.pos p)) as [Hm|Hm];
      destruct (Z.leb_spec (K * 1000000) n) as [Hk|Hk]; try reflexivity; exfalso.
    + (* the float reaches [K] although the quotient does not *)
      assert (Hs : (n + 1) * P <= K * 1000000 * P) by nia.
      destruct H18 as [Hn52 HP18]; [nia|].
      assert (HnP : n * P <= (17179869183 * 1000000 - 1) * 262144)
        by (apply Z.mul_le_mono_nonneg; lia).
      lia.
    + assert (K * 1000000 * P <= n * P) by nia.
      nia.
  - destruct (Z.leb_spec (Z.pos p) (K * P)) as [Hm|Hm];
      destruct (Z.leb_spec n (K * 1000000)) as [Hk|Hk]; try reflexivity; exfalso.
    + (* the float stays at [K] although the quotient is beyond *)
      assert (Hs : (K * 1000000 + 1) * P <= n * P) by nia.
      destruct H18 as [Hn52 HP18]; [nia|].
      assert (HKP : K * P <= 17179869183 * 262144)
        by (apply Z.mul_le_mono_nonneg; lia).
      lia.
    + assert (n * P <= K * 1000000 * P) by nia.
      nia.
Qed.

Lemma ge_int_div_round (neg : bool) (n K : Z) :
  0 < n -> - 2 ^ 34 < K < 2 ^ 34 ->
  PyFloat.ge_int (PyFloat.div_round neg n 1000000) K
  = (K * 1000000 <=? (if neg then - n else n)).
Proof.
  intros Hn HK.
  destruct (div_round_spec neg n 1000000 Hn ltac:(lia)) as (m & e & (Hm & Hc & Hb & _) & ->).
  unfold float_of. destruct m as [|p|p]; try lia.
  { exfalso. exact (rounded_nonzero n e Hn Hc Hb). }
  change (2 ^ 34) with 17179869184 in HK.
  destruct (Z.leb_spec 0 e) as [He|He].
  - destruct (rounded_large n e (Z.abs K) p Hb Hc He) as [H1 H2];
      [change (2 ^ 34) with 17179869184; lia|].
    pose proof (pow2_pos e He) as HP.
    assert (Hr : (K * 1000000 <=? (if neg then - n else n)) = negb neg).
    { destruct neg; cbn [negb]; [apply Z.leb_gt|apply Z.leb_le]; lia. }
    rewrite Hr.
    destruct (e <=? 971); cbn [PyFloat.ge_int]; [|reflexivity].
    destruct (Z.leb_spec 0 e); [|lia].
    destruct neg; cbn [negb]; [apply Z.leb_gt|apply Z.leb_le]; nia.
  - destruct (Z.leb_spec e 971) as [_|]; [|lia]. cbn [PyFloat.ge_int].
    destruct (Z.leb_spec 0 e); [lia|].
    pose proof (pow2_pos (- e) ltac:(lia)) as HP.
    destruct (rounded_small n e (Z.abs K) p Hb Hc He Hn) as [S1 S2];
      [change (2 ^ 34) with 17179869184; lia|].
    destruct neg, (Z_le_gt_dec 0 K) as [Hk|Hk].
    + transitivity false; [apply Z.leb_gt; nia|symmetry; apply Z.leb_gt; lia].
    + replace (Z.abs K) with (- K) in S2 by lia.
      replace (K * 2 ^ (- e) <=? Z.neg p) with (Z.pos p <=? - K * 2 ^ (- e)).
      * rewrite S2.
        destruct (Z.leb_spec n (- K * 1000000)), (Z.leb_spec (K * 1000000) (- n));
          try reflexivity; lia.
      * destruct (Z.leb_spec (Z.pos p) (- K * 2 ^ (- e))),
          (Z.leb_spec (K * 2 ^ (- e)) (Z.neg p)); try reflexivity; lia.
    + rewrite Z.abs_eq in S1 by lia. exact S1.
    + transitivity true; [apply Z.leb_le; nia|symmetry; apply Z.leb_le; lia].
Qed.

(** [total_seconds() >= K] is the comparison of the microseconds with
    [K * 10 ** 6], as long as [K] is below [2 ** 34] seconds. *)
Lemma ge_int_total_seconds (us K : Z) :
  - 2 ^ 34 < K < 2 ^ 34 ->
  PyFloat.ge_int (total_seconds us) K = (K * 1000000 <=? us).
Proof.
  intros HK. unfold total_seconds.
  destruct (Z.lt_trichotomy us 0) as [H|[->|H]].
  - rewrite ge_int_div_round by lia.
    destruct (Z.ltb_spec us 0); [|lia]. f_equal. lia.
  - cbn. destruct (Z.leb_spec K 0), (Z.leb_spec (K * 1000000) 0); try reflexivity; lia.
  - rewrite ge_int_div_round by lia.
    destruct (Z.ltb_spec us 0); [lia|]. rewrite Z.abs_eq by lia. reflexivity.
Qed.

(** *** The alert decision *)

Lemma div_round_is_double (neg : bool) (n d : Z) :
  0 <= n -> 0 < d -> is_double (PyFloat.div_round neg n d).
Proof.
  intros Hn Hd. destruct (Z.eq_dec n 0) as [->|H0]; [reflexivity|].
  destruct (div_round_spec neg n d ltac:(lia) Hd) as (m & e & (Hm & Hc & _) & ->).
  unfold float_of, is_double. destruct m as [|p|p]; try reflexivity.
  destruct (Z.leb_spec e 971); [|reflexivity].
  cbn [valid_binary]. apply bounded_canonical64. split; assumption.
Qed.

Lemma of_decimal_is_double (neg : bool) (digits exp10 : Z) :
  0 <= digits -> is_double (PyFloat.of_decimal neg digits exp10).
Proof.
  intros Hd. unfold PyFloat.of_decimal.
  destruct (Z.leb_spec 0 exp10).
  - apply div_round_is_double; [|lia].
    pose proof (Z.pow_pos_nonneg 10 exp10 ltac:(lia) ltac:(lia)). nia.
  - apply div_round_is_double; [exact Hd|].
    apply Z.pow_pos_nonneg; lia.
Qed.

Lemma take_digits_nonneg (s : string) :
  forall acc cnt, 0 <= acc -> 0 <= fst (fst (PyFloat.take_digits s acc cnt)).
Proof.
  induction s as [|c s IH]; intros acc cnt Hacc; cbn [PyFloat.take_digits]; [exact Hacc|].
  destruct (is_digit c) eqn:Hd; [|exact Hacc].
  apply IH.
  assert (48 <= Z.of_N (code c)).
  { unfold is_digit in Hd. apply andb_prop in Hd. destruct Hd as [Hd _].
    apply N.leb_le in Hd. lia. }
  lia.
Qed.

(** Whatever [float()] reads from a text is a double. *)
Lemma of_string_is_double (s : string) (x : spec_float) :
  PyFloat.of_string s = Some x -> is_double x.
Proof.
  unfold PyFloat.of_string.
  destruct (PyFloat.strip_underscores "000" s) as [s1|]; [|discriminate].
  destruct (lstrip s1) as [|c r]; [discriminate|].
  set (s3 := rstrip (String c r)). clearbody s3.
  destruct (PyFloat.parse_inf_nan s3) as [y|] eqn:E.
  - intros H. injection H as <-. unfold PyFloat.parse_inf_nan in E.
    destruct (PyFloat.take_sign s3) as [neg body].
    destruct (String.eqb (lower body) "inf" || String.eqb (lower body) "infinity").
    + injection E as <-. reflexivity.
    + destruct (String.eqb (lower body) "nan"); [|discriminate].
      injection E as <-. reflexivity.
  - unfold PyFloat.parse_number.
    destruct (PyFloat.take_sign s3) as [neg s4].
    pose proof (take_digits_nonneg s4 0 0 ltac:(lia)) as Hip.
    destruct (PyFloat.take_digits s4 0 0) as [[ip ni] s5]. cbn [fst] in Hip.
    assert (Hm : forall mant nf s6,
               match s5 with
               | String c0 rest =>
                   if PyFloat.is_char "." c0 then PyFloat.take_digits rest ip 0 else (ip, 0, s5)
               | EmptyString => (ip, 0, s5)
               end = (mant, nf, s6) -> 0 <= mant).
    { intros mant nf s6. destruct s5 as [|c0 rest].
      - intros H. injection H as <- _ _. exact Hip.
      - destruct (PyFloat.is_char "." c0).
        + intros H. pose proof (take_digits_nonneg rest ip 0 Hip) as Hn.
          rewrite H in Hn. exact Hn.
        + intros H. injection H as <- _ _. exact Hip. }
    destruct (match s5 with
              | String c0 rest =>
                  if PyFloat.is_char "." c0 then PyFloat.take_digits rest ip 0 else (ip, 0, s5)
              | EmptyString => (ip, 0, s5)
              end) as [[mant nf] s6] eqn:Em.
    specialize (Hm mant nf s6 eq_refl).
    destruct (ni + nf =? 0); [discriminate|].
    destruct s6 as [|c1 rest1].
    + intros H. injection H as <-. apply of_decimal_is_double, Hm.
    + destruct (PyFloat.is_char "e" c1 || PyFloat.is_char "E" c1); [|discriminate].
      destruct (PyFloat.parse_exponent rest1); [|discriminate].
      intros H. injection H as <-. apply of_decimal_is_double, Hm.
Qed.

(** The readings extraction returns and the threshold the module loads are
    doubles: both come out of [float()]. *)
Lemma py_float_is_double (s : string) (x : spec_float) :
  py_float s = Ok x -> is_double x.
Proof.
  unfold py_float. destruct (PyFloat.of_string s) as [y|] eqn:E; [|discriminate].
  intros H. injection H as <-. exact (of_string_is_double s y E).
Qed.

(** The cooldown test compares to the microsecond as long as the interval
    is below [2 ** 34] seconds. *)
Lemma interval_elapsed_exact (l now : Z) :
  - 286331153 <= MIN_ALERT_INTERVAL_MIN cfg <= 286331153 ->
  interval_elapsed l now = (MIN_ALERT_INTERVAL_MIN cfg * 60 * 1000000 <=? now - l).
Proof.
  intros Hm. unfold interval_elapsed. apply ge_int_total_seconds.
  change (2 ^ 34) with 17179869184. lia.
Qed.

(** C1, as the code has it. For an interval of at most 286331153 minutes
    (less than [2 ** 34] seconds) in absolute value, the alert decision is
    true exactly when the reading is at most the threshold, in the order of
    the values and so inclusive, and either no alert was sent before or the
    time elapsed since the last one, to the microsecond, is at least the
    interval, the exact boundary included; in every other case it is
    false. *)
Theorem decide_iff (hopper_kg : spec_float) (last : option Z) (now : Z) :
  is_double hopper_kg -> is_double (LOW_THRESHOLD_KG cfg) ->
  - 286331153 <= MIN_ALERT_INTERVAL_MIN cfg <= 286331153 ->
  (decide hopper_kg last now = true <->
     float_le hopper_kg (LOW_THRESHOLD_KG cfg) /\
     (last = None \/
      exists l, last = Some l /\ MIN_ALERT_INTERVAL_MIN cfg * 60 * 1000000 <= now - l)) /\
  (decide hopper_kg last now = false <->
     ~ float_le hopper_kg (LOW_THRESHOLD_KG cfg) \/
     exists l, last = Some l /\ now - l < MIN_ALERT_INTERVAL_MIN cfg * 60 * 1000000).
Proof.
  intros Hr Ht Hm.
  pose proof (leb_float_le hopper_kg (LOW_THRESHOLD_KG cfg) Hr Ht) as Hle.
  unfold decide.
  destruct (PyFloat.leb hopper_kg (LOW_THRESHOLD_KG cfg)) eqn:E; cbn [andb].
  - assert (Hfl : float_le hopper_kg (LOW_THRESHOLD_KG cfg)) by (apply Hle; reflexivity).
    destruct last as [l|].
    + rewrite (interval_elapsed_exact l now Hm).
      destruct (Z.leb_spec (MIN_ALERT_INTERVAL_MIN cfg * 60 * 1000000) (now - l)) as [H|H].
      * split; split.
        -- intros _. split; [exact Hfl|]. right. exists l. auto.
        -- intros _. reflexivity.
        -- discriminate.
        -- intros [Hn|(l' & Hl & Hlt)]; [contradiction|].
           injection Hl as <-. lia.
      * split; split.
        -- discriminate.
        -- intros (_ & [Hn|(l' & Hl & Hge)]); [discriminate|].
           injection Hl as <-. lia.
        -- intros _. right. exists l. auto.
        -- intros _. reflexivity.
    + split; split.
      * intros _. split; [exact Hfl|]. left. reflexivity.
      * intros _. reflexivity.
      * discriminate.
      * intros [Hn|(l' & Hl & _)]; [contradiction|discriminate].
  - assert (Hfl : ~ float_le hopper_kg (LOW_THRESHOLD_KG cfg)).
    { intros H. apply Hle in H. discriminate. }
    split; split.
    + discriminate.
    + intros [H _]. contradiction.
    + intros _. left. exact Hfl.
    + intros _. reflexivity.
Qed.

(** *** Quiet computations *)

Lemma quiet_ret {S A} (a : A) : quiet (@ret S A a).
Proof. intros s. split; reflexivity. Qed.

Lemma quiet_raise {S A} (e : exn) : quiet (@raise S A e).
Proof. intros s. split; reflexivity. Qed.

Lemma quiet_lift_result {S A} (r : result A) : quiet (@lift_result S A r).
Proof. intros s. split; reflexivity. Qed.

Lemma quiet_log {S} (lvl : level) (msg : string) : quiet (@log S lvl msg).
Proof. intros s. split; reflexivity. Qed.

Lemma quiet_bind {S A B} (m : M S A) (k : A -> M S B) :
  quiet m -> (forall a, quiet (k a)) -> quiet (bind m k).
Proof.
  intros Hm Hk s. unfold bind.
  destruct (Hm s) as [Hr Hs].
  destruct (res (m s)) as [a|e]; simpl.
  - destruct (Hk a (state (m s))) as [Hr' Hs'].
    rewrite requests_app, sleeps_app, Hr, Hs, Hr', Hs'. split; reflexivity.
  - split; assumption.
Qed.

Lemma quiet_try_except {S A} (m : M S A) (h : exn -> M S A) :
  quiet m -> (forall e, quiet (h e)) -> quiet (try_except m h).
Proof.
  intros Hm Hh s. unfold try_except.
  destruct (Hm s) as [Hr Hs].
  destruct (res (m s)) as [a|e]; simpl.
  - split; assumption.
  - destruct (Hh e (state (m s))) as [Hr' Hs'].
    rewrite requests_app, sleeps_app, Hr, Hs, Hr', Hs'. split; reflexivity.
Qed.

Lemma quiet_pure_call {S A} (m : M unit A) : quiet m -> quiet (@pure_call S A m).
Proof. intros Hm s. unfold pure_call. simpl. apply Hm. Qed.

Create HintDb quiet.
#[local] Hint Resolve @quiet_ret @quiet_raise @quiet_lift_result @quiet_log
  @quiet_pure_call : quiet.

Ltac quiet_steps :=
  repeat first
    [ progress cbv beta
    | solve [auto with quiet]
    | apply quiet_bind; [|intros ?]
    | apply quiet_try_except; [|intros ?]
    | match goal with
      | |- quiet (match ?x with _ => _ end) => destruct x
      | |- quiet (if ?x then _ else _) => destruct x
      end ].

Lemma raise_for_status_quiet (resp : Response) : quiet (raise_for_status resp).
Proof. unfold raise_for_status. quiet_steps. Qed.

Lemma resp_json_quiet (resp : Response) : quiet (resp_json resp).
Proof. unfold resp_json. auto with quiet. Qed.

Lemma raise_for_status_state (resp : Response) (w : W) :
  state (raise_for_status resp w) = w.
Proof. unfold raise_for_status. repeat destruct (_ && _); reflexivity. Qed.

Lemma get_hopper_kg_data_quiet (data : value) : quiet (get_hopper_kg_data data).
Proof. unfold get_hopper_kg_data, hopper_log. quiet_steps. Qed.

#[local] Hint Resolve raise_for_status_quiet resp_json_quiet
  get_hopper_kg_data_quiet : quiet.

(** *** What each function requests *)

Lemma http_then_requests {A} (rq : Request) (k : Response -> M W A) (w : W) :
  (forall resp, quiet (k resp)) ->
  requests (events (bind (http rq) k w)) = [rq].
Proof.
  intros Hk. unfold bind, http.
  destruct (perform env rq w) as [w' [resp|e]]; simpl; [|reflexivity].
  destruct (Hk resp w') as [Hr _]. rewrite Hr. reflexivity.
Qed.

Lemma get_hopper_kg_requests (tok : value) (w : W) :
  requests (events (get_hopper_kg tok w)) = [fetch_request tok].
Proof.
  unfold get_hopper_kg. apply http_then_requests.
  intros resp. unfold resp_json. quiet_steps.
Qed.

Lemma accept_terms_requests (tok : value) (w : W) :
  requests (events (accept_terms tok w)) = [terms_request tok].
Proof.
  unfold accept_terms. rewrite bind_ok with (a := tt) by reflexivity.
  simpl. apply http_then_requests.
  intros resp. quiet_steps.
Qed.

Lemma login_and_get_token_requests (w : W) :
  requests (events (login_and_get_token w)) = [login_request].
Proof.
  unfold login_and_get_token. rewrite bind_ok with (a := tt) by reflexivity.
  simpl. apply http_then_requests.
  intros resp. unfold resp_json. quiet_steps.
Qed.


(** C2. [safe_get_hopper] first fetches with the token it was given. If that
    succeeds it returns the reading with the same token, having made that one
    request. On any failure it runs the recovery once: login, then terms
    acceptance with the new token, then one more fetch with the new token; it
    returns the second reading with the new token, or raises the failure of
    the step that failed. Its requests are a prefix of fetch, login, terms,
    fetch: never a third fetch, never a second login. *)
Theorem safe_get_hopper_one_recovery (tok : value) (w : W) :
  let o := safe_get_hopper tok w in
  let first := get_hopper_kg tok w in
  match res first with
  | Ok hopper_kg =>
      res o = Ok (hopper_kg, tok) /\
      state o = state first /\
      requests (events o) = [fetch_request tok]
  | Raise _ =>
      let relogin := login_and_get_token (state first) in
      match res relogin with
      | Raise e2 =>
          res o = Raise e2 /\
          state o = state relogin /\
          requests (events o) = [fetch_request tok; login_request]
      | Ok new_token =>
          let terms := accept_terms new_token (state relogin) in
          match res terms with
          | Raise e2 =>
              res o = Raise e2 /\
              state o = state terms /\
              requests (events o) =
                [fetch_request tok; login_request; terms_request new_token]
          | Ok _ =>
              let second := get_hopper_kg new_token (state terms) in
              res o = match res second with
                      | Ok hopper_kg => Ok (hopper_kg, new_token)
                      | Raise e2 => Raise e2
                      end /\
              state o = state second /\
              requests (events o) =
                [fetch_request tok; login_request; terms_request new_token;
                 fetch_request new_token]
          end
      end
  end.
Proof.
  cbv zeta.
  pose proof (get_hopper_kg_requests tok w) as R1.
  unfold safe_get_hopper. mstep.
  destruct (res (get_hopper_kg tok w)) as [hopper_kg|e]; mstep.
  - auto.
  - pose proof (login_and_get_token_requests (state (get_hopper_kg tok w))) as R2.
    destruct (res (login_and_get_token (state (get_hopper_kg tok w))))
      as [new_token|e2]; mstep.
    + pose proof (accept_terms_requests new_token
                    (state (login_and_get_token (state (get_hopper_kg tok w))))) as R3.
      destruct (res (accept_terms new_token
                  (state (login_and_get_token (state (get_hopper_kg tok w))))))
        as [[]|e2]; mstep.
      * pose proof (get_hopper_kg_requests new_token
                      (state (accept_terms new_token
                         (state (login_and_get_token (state (get_hopper_kg tok w))))))) as R4.
        destruct (res (get_hopper_kg new_token
                    (state (accept_terms new_token
                       (state (login_and_get_token (state (get_hopper_kg tok w))))))))
          as [kg2|e2]; mstep.
        all: split; [reflexivity|split; [reflexivity|]].
        all: repeat (rewrite requests_app; cbn [requests app]).
        all: rewrite R1, R2, R3, R4; reflexivity.
      * split; [reflexivity|split; [reflexivity|]].
        repeat (rewrite requests_app; cbn [requests app]).
        rewrite R1, R2, R3; reflexivity.
    + split; [reflexivity|split; [reflexivity|]].
      repeat (rewrite requests_app; cbn [requests app]).
      rewrite R1, R2; reflexivity.
Qed.


(** *** Extraction *)

Lemma get_of_dict (d : list (string * value)) (key : string) :
  PyVal.get (VDict d) key = Ok (field d key VNone).
Proof. reflexivity. Qed.

Lemma is_dict_inv (item : value) :
  PyVal.is_dict item = true -> exists d, item = VDict d.
Proof. destruct item; try discriminate. intros _. eexists; reflexivity. Qed.

Lemma read_value_dict (d : list (string * value)) :
  read_value (VDict d) =
  match coerce_and_parse (value_of (VDict d)) with
  | Ok hopper_kg => Ok (py_str (value_of (VDict d)), hopper_kg)
  | Raise e => Raise e
  end.
Proof. reflexivity. Qed.

(** On a list of objects the loop over [frontdata] reads the first entry
    whose id is "hoppercontent". *)
Lemma scan_frontdata_find (items : list value) :
  forallb PyVal.is_dict items = true ->
  scan_frontdata items =
  match find is_hoppercontent items with
  | Some item =>
      match coerce_and_parse (value_of item) with
      | Ok hopper_kg => Ok (Some (py_str (value_of item), hopper_kg))
      | Raise e => Raise e
      end
  | None => Ok None
  end.
Proof.
  induction items as [|item rest IH]; intros Hd; [reflexivity|].
  cbn [forallb] in Hd. apply andb_prop in Hd. destruct Hd as [Hi Hrest].
  destruct (is_dict_inv item Hi) as [d ->].
  cbn [scan_frontdata find]. rewrite get_of_dict. cbn [rbind].
  unfold is_hoppercontent at 1, id_is. rewrite get_of_dict.
  destruct (PyVal.eq_str (field d "id" VNone) "hoppercontent").
  - rewrite read_value_dict.
    destruct (coerce_and_parse (value_of (VDict d))); reflexivity.
  - apply IH. exact Hrest.
Qed.

(** The same for [hopperdata]: id "3" and unit "LNG_KG". *)
Lemma scan_hopperdata_find (items : list value) :
  forallb PyVal.is_dict items = true ->
  scan_hopperdata items =
  match find is_lng_kg items with
  | Some item =>
      match coerce_and_parse (value_of item) with
      | Ok hopper_kg => Ok (Some (py_str (value_of item), hopper_kg))
      | Raise e => Raise e
      end
  | None => Ok None
  end.
Proof.
  induction items as [|item rest IH]; intros Hd; [reflexivity|].
  cbn [forallb] in Hd. apply andb_prop in Hd. destruct Hd as [Hi Hrest].
  destruct (is_dict_inv item Hi) as [d ->].
  cbn [scan_hopperdata find]. rewrite get_of_dict. cbn [rbind].
  unfold is_lng_kg at 1, id_is. rewrite !get_of_dict.
  destruct (PyVal.eq_str (field d "id" VNone) "3"); cbn [rbind andb].
  - destruct (PyVal.eq_str (field d "unit" VNone) "LNG_KG").
    + rewrite read_value_dict.
      destruct (coerce_and_parse (value_of (VDict d))); reflexivity.
    + apply IH. exact Hrest.
  - apply IH. exact Hrest.
Qed.

(** What the scan of a field yields once the field is known to hold
    objects only. *)
Lemma scan_front_field (fld : value) :
  list_of_dicts fld = true ->
  res (match fld with
       | VList items => lift_result (scan_frontdata items)
       | _ => ret None
       end tt) =
  match first_entry is_hoppercontent fld with
  | Some item =>
      match coerce_and_parse (value_of item) with
      | Ok hopper_kg => Ok (Some (py_str (value_of item), hopper_kg))
      | Raise e => Raise e
      end
  | None => Ok None
  end.
Proof.
  intros Hd. destruct fld; try reflexivity.
  cbn [res lift_result first_entry]. apply scan_frontdata_find. exact Hd.
Qed.

Lemma scan_hopper_field (fld : value) :
  list_of_dicts fld = true ->
  res (match fld with
       | VList items => lift_result (scan_hopperdata items)
       | _ => ret None
       end tt) =
  match first_entry is_lng_kg fld with
  | Some item =>
      match coerce_and_parse (value_of item) with
      | Ok hopper_kg => Ok (Some (py_str (value_of item), hopper_kg))
      | Raise e => Raise e
      end
  | None => Ok None
  end.
Proof.
  intros Hd. destruct fld; try reflexivity.
  cbn [res lift_result first_entry]. apply scan_hopperdata_find. exact Hd.
Qed.

Lemma scan_field_state {A} (fld : value) (scan : list value -> result A) (dflt : A) :
  state (match fld with
         | VList items => lift_result (scan items)
         | _ => ret dflt
         end tt) = tt.
Proof. destruct fld; reflexivity. Qed.

Lemma scan_field_events {A} (fld : value) (scan : list value -> result A) (dflt : A) :
  events (match fld with
          | VList items => lift_result (scan items)
          | _ => ret dflt
          end tt) = [].
Proof. destruct fld; reflexivity. Qed.

(** A hit in [frontdata] decides the result; [hopperdata] is not looked at. *)
Lemma front_hit (entries : list (string * value)) (item : value) :
  list_of_dicts (field entries "frontdata" (VList [])) = true ->
  first_entry is_hoppercontent (field entries "frontdata" (VList [])) = Some item ->
  res (get_hopper_kg_data (VDict entries) tt) = coerce_and_parse (value_of item).
Proof.
  intros Hd Hfind.
  unfold get_hopper_kg_data. mstep.
  cbn [PyVal.keys PyVal.get_default]. mstep.
  fold (field entries "frontdata" (VList [])).
  rewrite (scan_front_field _ Hd), Hfind.
  destruct (coerce_and_parse (value_of item)); [|reflexivity].
  unfold hopper_log. mstep. reflexivity.
Qed.

(** Without a hit in [frontdata], [hopperdata] decides. *)
Lemma front_miss (entries : list (string * value)) :
  payload_typed entries = true ->
  first_entry is_hoppercontent (field entries "frontdata" (VList [])) = None ->
  res (get_hopper_kg_data (VDict entries) tt) =
  match first_entry is_lng_kg (field entries "hopperdata" (VList [])) with
  | Some item => coerce_and_parse (value_of item)
  | None => Raise (RuntimeError (not_found_message entries))
  end.
Proof.
  intros Ht Hfind. apply andb_prop in Ht. destruct Ht as [Hf Hh].
  unfold get_hopper_kg_data. mstep.
  cbn [PyVal.keys PyVal.get_default]. mstep.
  fold (field entries "frontdata" (VList [])).
  rewrite (scan_front_field _ Hf), Hfind. mstep.
  fold (field entries "hopperdata" (VList [])).
  rewrite !scan_field_state.
  rewrite (scan_hopper_field _ Hh).
  destruct (first_entry is_lng_kg (field entries "hopperdata" (VList []))) as [item|].
  - destruct (coerce_and_parse (value_of item)); [|reflexivity].
    unfold hopper_log. mstep. reflexivity.
  - mstep. cbn [PyVal.get PyVal.get_default res lift_result]. reflexivity.
Qed.


Lemma string_app_assoc (a b c : string) : (a ++ b) ++ c = a ++ b ++ c.
Proof. induction a as [|x a IH]; simpl; [reflexivity|rewrite IH; reflexivity]. Qed.

Lemma string_app_nil_r (a : string) : a ++ "" = a.
Proof. induction a as [|x a IH]; simpl; [reflexivity|rewrite IH; reflexivity]. Qed.

Lemma includes_middle (a t b : string) : includes (a ++ t ++ b) t.
Proof. exists a, b. reflexivity. Qed.

Lemma includes_suffix (a t : string) : includes (a ++ t) t.
Proof. exists a, "". rewrite string_app_nil_r. reflexivity. Qed.

Lemma outcome_eta {S A} (o : outcome S A) :
  o = Outcome (events o) (state o) (res o).
Proof. destruct o; reflexivity. Qed.

(** C3, as the code has it. On a payload object whose list fields hold
    objects, extraction tries its two sources in a fixed order, first match
    winning: the first entry of the [frontdata] list whose id is
    "hoppercontent" supplies the value; otherwise the first entry of the
    [hopperdata] list whose id is "3" and whose unit is "LNG_KG" does. A
    match in [frontdata] wins over any match in [hopperdata]. The value is
    coerced to text, commas become dots, and the text is parsed as a number:
    "123,4" gives the double nearest to 123.4. *)
Theorem extraction_first_match_wins (entries : list (string * value)) :
  payload_typed entries = true ->
  res (get_hopper_kg_data (VDict entries) tt) =
    match chosen_entry entries with
    | Some item => coerce_and_parse (value_of item)
    | None => Raise (RuntimeError (not_found_message entries))
    end
  /\ (forall item,
        first_entry is_hoppercontent (field entries "frontdata" (VList [])) = Some item ->
        res (get_hopper_kg_data (VDict entries) tt) = coerce_and_parse (value_of item))
  /\ rounds_to 1234 10 8683503031523738 (-46)
  /\ coerce_and_parse (VStr "123,4") = Ok (S754_finite false 8683503031523738 (-46))
  /\ res (get_hopper_kg_data (VDict (payload_front (VStr "123,4"))) tt)
     = Ok (S754_finite false 8683503031523738 (-46))
  /\ res (get_hopper_kg_data (VDict (payload_hopper (VStr "87.0"))) tt)
     = Ok (S754_finite false 6122080743456768 (-46))
  /\ 6122080743456768 = 87 * 2 ^ 46
  /\ res (get_hopper_kg_data (VDict (payload_both (VStr "123,4") (VStr "87.0"))) tt)
     = Ok (S754_finite false 8683503031523738 (-46)).
Proof.
  intros Ht.
  assert (Hf : list_of_dicts (field entries "frontdata" (VList [])) = true).
  { apply andb_prop in Ht. apply Ht. }
  split; [|split; [|split; [|repeat split; vm_compute; reflexivity]]].
  - unfold chosen_entry.
    destruct (first_entry is_hoppercontent (field entries "frontdata" (VList [])))
      as [item|] eqn:Hfind.
    + apply front_hit; assumption.
    + apply front_miss; assumption.
  - intros item Hfind. apply front_hit; assumption.
  - unfold rounds_to, canonical64, rounding_error, half_ulp.
    split; [lia|]. split; [reflexivity|].
    split; [vm_compute; discriminate|]. intros _. reflexivity.
Qed.

(** C4, as the code has it. On a payload object whose list fields hold
    objects, when neither source yields a value (no entry of [frontdata]
    matches and no entry of [hopperdata] matches, the fields being absent or
    not lists included) extraction raises an error whose message holds the
    raw [frontdata] and the raw [hopperdata] of the payload. *)
Theorem extraction_failure_reports_raw (entries : list (string * value)) :
  payload_typed entries = true ->
  chosen_entry entries = None ->
  exists msg,
    res (get_hopper_kg_data (VDict entries) tt) = Raise (RuntimeError msg) /\
    includes msg (py_repr (field entries "frontdata" (VList []))) /\
    includes msg (py_repr (field entries "hopperdata" VNone)).
Proof.
  intros Ht Hnone.
  exists (not_found_message entries). split; [|split].
  - unfold chosen_entry in Hnone.
    destruct (first_entry is_hoppercontent (field entries "frontdata" (VList [])))
      eqn:Hfind; [discriminate|].
    rewrite (front_miss entries Ht Hfind), Hnone. reflexivity.
  - unfold not_found_message.
    rewrite <- (string_app_assoc _ "frontdata=").
    apply includes_middle.
  - unfold not_found_message.
    rewrite <- !string_app_assoc.
    apply includes_suffix.
Qed.

(** C10. When the first [frontdata] entry with id "hoppercontent" has a
    value that does not parse as a number once coerced to text and its commas
    replaced (an absent value, coerced to "None", for one), extraction raises
    the parse error there and then: nothing but the key listing is logged,
    and [hopperdata] plays no part, whatever it holds. *)
Theorem unparseable_front_value_raises (entries : list (string * value)) (item : value) :
  list_of_dicts (field entries "frontdata" (VList [])) = true ->
  first_entry is_hoppercontent (field entries "frontdata" (VList [])) = Some item ->
  PyFloat.of_string (replace_char "," "." (py_str (value_of item))) = None ->
  get_hopper_kg_data (VDict entries) tt =
    Outcome
      [EvLog DEBUG ("controllerdata top-level keys: "
                    ++ py_repr (VList (map VStr (map fst entries))))]
      tt
      (Raise (ValueError ("could not convert string to float: "
                          ++ repr (replace_char "," "." (py_str (value_of item)))))).
Proof.
  intros Hd Hfind Hparse.
  assert (Hres : coerce_and_parse (value_of item) =
                 Raise (ValueError ("could not convert string to float: "
                          ++ repr (replace_char "," "." (py_str (value_of item)))))).
  { unfold coerce_and_parse, py_float. rewrite Hparse. reflexivity. }
  rewrite (outcome_eta (get_hopper_kg_data (VDict entries) tt)).
  rewrite (front_hit entries item Hd Hfind), Hres.
  destruct (state (get_hopper_kg_data (VDict entries) tt)).
  f_equal.
  unfold get_hopper_kg_data. mstep.
  cbn [PyVal.keys PyVal.get_default]. mstep.
  fold (field entries "frontdata" (VList [])).
  rewrite (scan_front_field _ Hd), Hfind, Hres.
  rewrite scan_field_events. reflexivity.
Qed.


(** *** The notifier *)

Lemma http_events (rq : Request) (w : W) : events (http rq w) = [EvHttp rq].
Proof. unfold http. destruct (perform env rq w); reflexivity. Qed.

Lemma http_res (rq : Request) (w : W) : res (http rq w) = snd (perform env rq w).
Proof. unfold http. destruct (perform env rq w); reflexivity. Qed.

Lemma http_state (rq : Request) (w : W) : state (http rq w) = fst (perform env rq w).
Proof. unfold http. destruct (perform env rq w); reflexivity. Qed.

Lemma send_ntfy_alert_returns (server : string) (hopper_kg : spec_float)
    (percent : option spec_float) (w : W) :
  NTFY_SERVER cfg = Some server ->
  res (send_ntfy_alert hopper_kg percent w) = Ok tt /\
  requests (events (send_ntfy_alert hopper_kg percent w))
  = [alert_request server hopper_kg percent] /\
  sleeps (events (send_ntfy_alert hopper_kg percent w)) = [].
Proof.
  intros Hs. unfold send_ntfy_alert. rewrite Hs. cbv zeta.
  mstep. rewrite !http_events, !http_res, !http_state.
  change (ntfy_request (rstrip_char "/" server ++ "/" ++ NTFY_TOPIC cfg)
            (alert_message hopper_kg percent)
            [("Title", NTFY_TITLE cfg); ("Priority", NTFY_PRIORITY cfg);
             ("Tags", "warning,fire")])
    with (alert_request server hopper_kg percent).
  destruct (snd (perform env (alert_request server hopper_kg percent) w)) as [resp|e];
    mstep.
  - destruct (raise_for_status_quiet resp
                (fst (perform env (alert_request server hopper_kg percent) w)))
      as [Hr Hsl].
    destruct (res (raise_for_status resp
                (fst (perform env (alert_request server hopper_kg percent) w))))
      as [[]|e]; mstep.
    all: repeat rewrite ?requests_app, ?sleeps_app; rewrite Hr, Hsl.
    all: repeat split; reflexivity.
  - repeat split; reflexivity.
Qed.

(** C5 (what the code does without a server). With [NTFY_SERVER] unset,
    [send_ntfy_alert] raises before it reaches its [try]: the attribute
    error of [None.rstrip] goes to the caller, with nothing sent or
    logged. *)
Theorem send_ntfy_alert_without_server (hopper_kg : spec_float)
    (percent : option spec_float) (w : W) :
  NTFY_SERVER cfg = None ->
  send_ntfy_alert hopper_kg percent w
  = Outcome [] w (Raise (AttributeError "NoneType" "rstrip")).
Proof.
  intros Hs. unfold send_ntfy_alert. rewrite Hs. reflexivity.
Qed.


(** *** Nothing but [time.sleep] sleeps *)

Lemma quiet_sleepless {S A} (m : M S A) : quiet m -> sleepless m.
Proof. intros H s. apply H. Qed.

Lemma sleepless_bind {S A B} (m : M S A) (k : A -> M S B) :
  sleepless m -> (forall a, sleepless (k a)) -> sleepless (bind m k).
Proof.
  intros Hm Hk s. rewrite bind_events.
  destruct (res (m s)) as [a|e].
  - rewrite sleeps_app, Hm, Hk. reflexivity.
  - apply Hm.
Qed.

Lemma sleepless_try_except {S A} (m : M S A) (h : exn -> M S A) :
  sleepless m -> (forall e, sleepless (h e)) -> sleepless (try_except m h).
Proof.
  intros Hm Hh s. rewrite try_events.
  destruct (res (m s)) as [a|e].
  - apply Hm.
  - rewrite sleeps_app, Hm, Hh. reflexivity.
Qed.

Lemma sleepless_http (rq : Request) : sleepless (http rq).
Proof. intros w. rewrite http_events. reflexivity. Qed.

Lemma sleepless_datetime_now : sleepless datetime_now.
Proof. intros w. unfold datetime_now. destruct (utcnow env w). reflexivity. Qed.

Lemma sleepless_call {A} (m : M W A) : sleepless m -> sleepless (call m).
Proof. intros Hm s. unfold call. cbn [events]. apply Hm. Qed.

Lemma sleepless_get_local {A} (f : Locals -> A) : sleepless (get_local f).
Proof. intros s. reflexivity. Qed.

Lemma sleepless_set_token (tok : value) : sleepless (set_token tok).
Proof. intros s. reflexivity. Qed.

Lemma sleepless_set_last_alert_time (t : option Z) : sleepless (set_last_alert_time t).
Proof. intros s. reflexivity. Qed.

Create HintDb sleepless.
#[local] Hint Resolve @quiet_sleepless sleepless_http sleepless_datetime_now
  @sleepless_call @sleepless_get_local sleepless_set_token
  sleepless_set_last_alert_time : sleepless.

Ltac sleepless_steps :=
  repeat first
    [ progress cbv beta
    | solve [auto with sleepless quiet]
    | apply sleepless_bind; [|intros ?]
    | apply sleepless_try_except; [|intros ?]
    | match goal with
      | |- sleepless (match ?x with _ => _ end) => destruct x
      | |- sleepless (if ?x then _ else _) => destruct x
      | |- sleepless (let '(_, _) := ?x in _) => destruct x
      end ].

Lemma sleepless_get_hopper_kg (tok : value) : sleepless (get_hopper_kg tok).
Proof. unfold get_hopper_kg, resp_json. sleepless_steps. Qed.

Lemma sleepless_login_and_get_token : sleepless login_and_get_token.
Proof. unfold login_and_get_token, resp_json. sleepless_steps. Qed.

Lemma sleepless_accept_terms (tok : value) : sleepless (accept_terms tok).
Proof. unfold accept_terms. sleepless_steps. Qed.

#[local] Hint Resolve sleepless_get_hopper_kg sleepless_login_and_get_token
  sleepless_accept_terms : sleepless.

Lemma sleepless_safe_get_hopper (tok : value) : sleepless (safe_get_hopper tok).
Proof. unfold safe_get_hopper. sleepless_steps. Qed.

Lemma sleepless_send_ntfy_alert (hopper_kg : spec_float) (percent : option spec_float) :
  sleepless (send_ntfy_alert hopper_kg percent).
Proof. unfold send_ntfy_alert. sleepless_steps. Qed.

Lemma sleepless_should_send (last : option Z) : sleepless (should_send last).
Proof. unfold should_send. sleepless_steps. Qed.

#[local] Hint Resolve sleepless_safe_get_hopper sleepless_send_ntfy_alert
  sleepless_should_send : sleepless.

Lemma sleepless_alert_step (hopper_kg : spec_float) (percent : option spec_float) :
  sleepless (alert_step hopper_kg percent).
Proof. unfold alert_step. sleepless_steps. Qed.

#[local] Hint Resolve sleepless_alert_step : sleepless.

Lemma sleepless_cycle_body (max_capacity_kg_val : option spec_float) :
  sleepless (cycle_body max_capacity_kg_val).
Proof. unfold cycle_body. sleepless_steps. Qed.

#[local] Hint Resolve sleepless_cycle_body : sleepless.

Lemma sleepless_cycle (max_capacity_kg_val : option spec_float) :
  sleepless (cycle max_capacity_kg_val).
Proof. unfold cycle. sleepless_steps. Qed.


(** *** The percentage *)

Lemma positive_not_zero (m : spec_float) :
  PyFloat.ltb (S754_zero false) m = true -> PyFloat.is_zero m = false.
Proof. destruct m; simpl; try reflexivity. discriminate. Qed.

Lemma compute_percent_refines (max_capacity_kg_val : option spec_float)
    (hopper_kg : spec_float) :
  compute_percent max_capacity_kg_val hopper_kg
  = Ok (percent_remaining max_capacity_kg_val hopper_kg).
Proof.
  unfold compute_percent, percent_remaining, capacity_usable, truediv, PyFloat.truthy.
  destruct max_capacity_kg_val as [m|]; [|reflexivity].
  destruct (PyFloat.ltb (S754_zero false) m) eqn:Hpos.
  - rewrite (positive_not_zero m Hpos). reflexivity.
  - rewrite andb_false_r. reflexivity.
Qed.

(** C8. The percentage is the reading divided by the capacity, times 100;
    it is present exactly when a capacity is configured ([MAX_CAPACITY_KG]
    set and not empty) and positive, and absent otherwise. With a threshold
    of 140 and a capacity of 500, a reading of 139.9 kg gives the message
    "Hopper low: 139.9 kg remaining (28.0% of capacity). Threshold: 140.0
    kg.", every number with one decimal. *)
Theorem percent_and_message (max_capacity_kg_val : option spec_float)
    (hopper_kg : spec_float) :
  compute_percent max_capacity_kg_val hopper_kg
  = Ok (percent_remaining max_capacity_kg_val hopper_kg)
  /\ (percent_remaining max_capacity_kg_val hopper_kg <> None <->
      exists m, max_capacity_kg_val = Some m /\ PyFloat.ltb (S754_zero false) m = true)
  /\ max_capacity_kg_val_of None = Ok None
  /\ max_capacity_kg_val_of (Some "") = Ok None
  /\ max_capacity_kg_val_of (Some "500") = Ok (Some (PyFloat.of_Z 500))
  /\ (LOW_THRESHOLD_KG cfg = PyFloat.of_Z 140 ->
      forall reading,
        py_float "139.9" = Ok reading ->
        let message :=
          alert_message reading (percent_remaining (Some (PyFloat.of_Z 500)) reading) in
        message = "Hopper low: 139.9 kg remaining (28.0% of capacity). Threshold: 140.0 kg."
        /\ includes message "139.9 kg"
        /\ includes message "28.0%"
        /\ includes message "140.0 kg").
Proof.
  split; [apply compute_percent_refines|].
  split.
  { unfold percent_remaining. destruct max_capacity_kg_val as [m|].
    - destruct (PyFloat.ltb (S754_zero false) m) eqn:Hpos.
      + split; [intros _; exists m; auto | discriminate].
      + split; [intros H; contradiction H; reflexivity|].
        intros [m' [Hm Hp]]. injection Hm as <-. congruence.
    - split; [intros H; contradiction H; reflexivity|].
      intros [m' [Hm _]]. discriminate. }
  split; [reflexivity|]. split; [reflexivity|]. split; [vm_compute; reflexivity|].
  intros Hlow reading Hread. cbv zeta.
  assert (Hmsg : alert_message reading (percent_remaining (Some (PyFloat.of_Z 500)) reading)
                 = "Hopper low: 139.9 kg remaining (28.0% of capacity). Threshold: 140.0 kg.").
  { unfold alert_message. rewrite Hlow.
    vm_compute in Hread. injection Hread as <-.
    vm_compute. reflexivity. }
  rewrite Hmsg. split; [reflexivity|]. split; [|split].
  - exists "Hopper low: ", " remaining (28.0% of capacity). Threshold: 140.0 kg.". reflexivity.
  - exists "Hopper low: 139.9 kg remaining (", " of capacity). Threshold: 140.0 kg.". reflexivity.
  - exists "Hopper low: 139.9 kg remaining (28.0% of capacity). Threshold: ", ".". reflexivity.
Qed.


(** *** One cycle *)

Ltac lstep :=
  repeat (mstep;
          cbn [call get_local set_token set_last_alert_time fst snd
               res state events token last_alert_time]).

Lemma should_send_outcome (last : option Z) (w : W) :
  should_send last w =
  Outcome []
    (match last with None => w | Some _ => fst (utcnow env w) end)
    (Ok (match last with
         | None => true
         | Some l => interval_elapsed l (snd (utcnow env w))
         end)).
Proof.
  unfold should_send, datetime_now. destruct last as [l|]; [|reflexivity].
  unfold bind, ret. destruct (utcnow env w) as [w' t]. reflexivity.
Qed.

Lemma datetime_now_outcome (w : W) :
  datetime_now w = Outcome [] (fst (utcnow env w)) (Ok (snd (utcnow env w))).
Proof. unfold datetime_now. destruct (utcnow env w). reflexivity. Qed.

Lemma notifications_app (a b : list event) :
  notifications (a ++ b)%list = (notifications a ++ notifications b)%list.
Proof. unfold notifications. rewrite requests_app, filter_app. reflexivity. Qed.

Lemma quiet_notifications {S A} (m : M S A) (s : S) :
  quiet m -> notifications (events (m s)) = [].
Proof. intros H. unfold notifications. destruct (H s) as [-> _]. reflexivity. Qed.

(** The session client sends no notification. *)
Lemma safe_get_hopper_notifications (tok : value) (w : W) :
  notifications (events (safe_get_hopper tok w)) = [].
Proof.
  assert (F : forall t w', notifications (events (get_hopper_kg t w')) = []).
  { intros. unfold notifications. rewrite get_hopper_kg_requests. reflexivity. }
  assert (L : forall w', notifications (events (login_and_get_token w')) = []).
  { intros. unfold notifications. rewrite login_and_get_token_requests. reflexivity. }
  assert (T : forall t w', notifications (events (accept_terms t w')) = []).
  { intros. unfold notifications. rewrite accept_terms_requests. reflexivity. }
  unfold safe_get_hopper. mstep.
  destruct (res (get_hopper_kg tok w)); mstep; [apply F|].
  destruct (res (login_and_get_token _)) as [new_token|]; mstep.
  - destruct (res (accept_terms new_token _)); mstep.
    + destruct (res (get_hopper_kg new_token _)); mstep.
      all: rewrite ?notifications_app, ?F, ?L, ?T; reflexivity.
    + rewrite ?notifications_app, ?F, ?L, ?T; reflexivity.
  - rewrite ?notifications_app, ?F, ?L, ?T; reflexivity.
Qed.


(** The alert step is gated by [decide] on the time the clock shows: a
    negative decision only logs, a positive one runs the send and then
    records the time. *)
Lemma alert_step_gate (hopper_kg : spec_float) (percent : option spec_float)
    (w : W) (l : Locals) :
  let o := alert_step hopper_kg percent (w, l) in
  if decide hopper_kg (last_alert_time l) (snd (utcnow env w))
  then
    o = (call (send_ntfy_alert hopper_kg percent);;
         now <- call datetime_now;;
         set_last_alert_time (Some now))
          (state (should_send (last_alert_time l) w), l)
  else
    res o = Ok tt /\ snd (state o) = l /\ requests (events o) = [].
Proof.
  cbv zeta. unfold alert_step, decide.
  destruct (PyFloat.leb hopper_kg (LOW_THRESHOLD_KG cfg)); cbn [andb].
  2: { lstep. auto. }
  rewrite (outcome_eta (bind _ _ _)).
  lstep. rewrite !should_send_outcome. cbn [res state events].
  destruct (match last_alert_time l with
            | Some l0 => interval_elapsed l0 (snd (utcnow env w))
            | None => true
            end).
  - cbn [app]. symmetry. apply outcome_eta.
  - lstep. auto.
Qed.

(** What the alert step does, with a notification server configured: it
    sends exactly when the decision is positive, and then records the time
    read after the send, however the send went. *)
Lemma alert_step_outcome (server : string) (hopper_kg : spec_float)
    (percent : option spec_float) (w : W) (l : Locals) :
  NTFY_SERVER cfg = Some server ->
  let o := alert_step hopper_kg percent (w, l) in
  res o = Ok tt /\
  token (snd (state o)) = token l /\
  if decide hopper_kg (last_alert_time l) (snd (utcnow env w))
  then
    let sent := send_ntfy_alert hopper_kg percent
                  (state (should_send (last_alert_time l) w)) in
    notifications (events o) = [alert_request server hopper_kg percent] /\
    last_alert_time (snd (state o)) = Some (snd (utcnow env (state sent)))
  else
    notifications (events o) = [] /\
    last_alert_time (snd (state o)) = last_alert_time l.
Proof.
  intros Hs. cbv zeta. unfold alert_step, decide.
  destruct (PyFloat.leb hopper_kg (LOW_THRESHOLD_KG cfg)); cbn [andb].
  2: { lstep. auto. }
  lstep. rewrite !should_send_outcome. cbn [res state events].
  set (go := match last_alert_time l with
             | Some l0 => interval_elapsed l0 (snd (utcnow env w))
             | None => true
             end).
  set (w1 := match last_alert_time l with
             | Some _ => fst (utcnow env w)
             | None => w
             end).
  destruct go.
  2: { lstep. auto. }
  lstep.
  destruct (send_ntfy_alert_returns server hopper_kg percent w1 Hs) as [Hres [Hreq _]].
  rewrite !Hres. lstep. rewrite !datetime_now_outcome. lstep.
  split; [reflexivity|]. split; [reflexivity|]. split; [|reflexivity].
  cbn [app]. unfold notifications. rewrite Hreq. reflexivity.
Qed.


Lemma cycle_body_fetch_failed (max_capacity_kg_val : option spec_float)
    (w : W) (l : Locals) (e : exn) :
  res (safe_get_hopper (token l) w) = Raise e ->
  cycle_body max_capacity_kg_val (w, l)
  = Outcome (events (safe_get_hopper (token l) w))
            (state (safe_get_hopper (token l) w), l) (Raise e).
Proof.
  intros Hf.
  rewrite (outcome_eta (cycle_body max_capacity_kg_val (w, l))).
  unfold cycle_body. lstep. rewrite !Hf. reflexivity.
Qed.

Lemma cycle_body_fetched (max_capacity_kg_val : option spec_float)
    (w : W) (l : Locals) (hopper_kg : spec_float) (tok' : value) :
  res (safe_get_hopper (token l) w) = Ok (hopper_kg, tok') ->
  let step := alert_step hopper_kg (percent_remaining max_capacity_kg_val hopper_kg)
                (state (safe_get_hopper (token l) w),
                 {| token := tok'; last_alert_time := last_alert_time l |}) in
  cycle_body max_capacity_kg_val (w, l)
  = Outcome (events (safe_get_hopper (token l) w) ++ events step)%list
            (state step) (res step).
Proof.
  intros Hf. cbv zeta.
  rewrite (outcome_eta (cycle_body max_capacity_kg_val (w, l))).
  unfold cycle_body. lstep. rewrite !Hf. lstep.
  rewrite !compute_percent_refines. lstep. reflexivity.
Qed.

Lemma cycle_returns (max_capacity_kg_val : option spec_float) (s : W * Locals) :
  res (cycle max_capacity_kg_val s) = Ok tt.
Proof.
  unfold cycle. rewrite try_res.
  destruct (res (cycle_body max_capacity_kg_val s)) as [[]|e]; reflexivity.
Qed.

Lemma time_sleep_accepted (secs : Z) (w : W) :
  sleep_accepts secs ->
  time_sleep secs w = Outcome [EvSleep secs] (elapse env secs w) (Ok tt).
Proof.
  intros [[Hlo Hhi] Hsys]. unfold time_sleep.
  assert (Hmax : 0 < SLEEP_MAX) by reflexivity.
  destruct (secs <? - SLEEP_MAX) eqn:E0; [apply Z.ltb_lt in E0; lia|].
  destruct (SLEEP_MAX <? secs) eqn:E2; [apply Z.ltb_lt in E2; lia|].
  destruct (secs <? 0) eqn:E1; [apply Z.ltb_lt in E1; lia|].
  cbn [orb]. rewrite Hsys. reflexivity.
Qed.

Lemma iteration_outcome (max_capacity_kg_val : option spec_float) (s : W * Locals) :
  sleep_accepts (CHECK_INTERVAL cfg) ->
  iteration max_capacity_kg_val s
  = Outcome (events (cycle max_capacity_kg_val s) ++ [EvSleep (CHECK_INTERVAL cfg)])%list
            (elapse env (CHECK_INTERVAL cfg) (fst (state (cycle max_capacity_kg_val s))),
             snd (state (cycle max_capacity_kg_val s)))
            (Ok tt).
Proof.
  intros Hok.
  rewrite (outcome_eta (iteration max_capacity_kg_val s)).
  unfold iteration. lstep. rewrite !cycle_returns. lstep.
  rewrite !(time_sleep_accepted _ _ Hok). reflexivity.
Qed.

Lemma safe_get_hopper_first_request (tok : value) (w : W) :
  exists rest, requests (events (safe_get_hopper tok w)) = fetch_request tok :: rest.
Proof.
  unfold safe_get_hopper. mstep.
  destruct (res (get_hopper_kg tok w)); mstep;
    repeat (rewrite requests_app; cbn [requests app]);
    rewrite get_hopper_kg_requests; eexists; reflexivity.
Qed.

Lemma cycle_first_request (max_capacity_kg_val : option spec_float) (w : W) (l : Locals) :
  exists rest,
    requests (events (cycle max_capacity_kg_val (w, l))) = fetch_request (token l) :: rest.
Proof.
  destruct (safe_get_hopper_first_request (token l) w) as [rest Hrest].
  unfold cycle. rewrite try_events.
  destruct (res (safe_get_hopper (token l) w)) as [[hopper_kg tok']|e] eqn:Hf.
  - rewrite (cycle_body_fetched _ _ _ _ _ Hf). cbv zeta. cbn [events res].
    destruct (res (alert_step _ _ _));
      repeat (rewrite requests_app; cbn [requests app]);
      rewrite Hrest; eexists; reflexivity.
  - rewrite (cycle_body_fetch_failed _ _ _ _ Hf). cbn [events res].
    rewrite requests_app, Hrest. eexists; reflexivity.
Qed.

Lemma poll_loop_step (max_capacity_kg_val : option spec_float) (n : nat) (s : W * Locals) :
  sleep_accepts (CHECK_INTERVAL cfg) ->
  let turn := iteration max_capacity_kg_val s in
  let later := poll_loop max_capacity_kg_val n (state turn) in
  poll_loop max_capacity_kg_val (S n) s
  = Outcome (events turn ++ events later)%list (state later) (res later).
Proof.
  intros Hok. cbv zeta.
  rewrite (outcome_eta (poll_loop max_capacity_kg_val (S n) s)).
  cbn [poll_loop]. rewrite bind_events, bind_state, bind_res.
  rewrite (iteration_outcome _ _ Hok). cbn [res state events]. reflexivity.
Qed.

(** C7, as the code has it. With an interval that [time.sleep] accepts:
    whatever is raised inside a cycle is caught at its boundary, logged and
    dropped, so the cycle itself never raises; every cycle starts with the
    fetch for the current token; after every cycle, failed or not, the loop
    sleeps the configured interval and then runs the next cycle from the
    state the last one left. So any number of turns run to the end, each
    with its fetch and its sleep of the same length. *)
Theorem poll_loop_survives_failures (max_capacity_kg_val : option spec_float) :
  sleep_accepts (CHECK_INTERVAL cfg) ->
  (forall s,
      res (cycle max_capacity_kg_val s) = Ok tt /\
      forall e,
        res (cycle_body max_capacity_kg_val s) = Raise e ->
        events (cycle max_capacity_kg_val s)
        = (events (cycle_body max_capacity_kg_val s)
           ++ [EvLog ERROR ("Final failure this cycle: " ++ exn_text e)])%list) /\
  (forall w l,
      exists rest,
        requests (events (cycle max_capacity_kg_val (w, l)))
        = fetch_request (token l) :: rest) /\
  (forall s,
      iteration max_capacity_kg_val s
      = Outcome (events (cycle max_capacity_kg_val s) ++ [EvSleep (CHECK_INTERVAL cfg)])%list
                (elapse env (CHECK_INTERVAL cfg) (fst (state (cycle max_capacity_kg_val s))),
                 snd (state (cycle max_capacity_kg_val s)))
                (Ok tt)) /\
  (forall n s,
      let turn := iteration max_capacity_kg_val s in
      let later := poll_loop max_capacity_kg_val n (state turn) in
      poll_loop max_capacity_kg_val (S n) s
      = Outcome (events turn ++ events later)%list (state later) (Ok tt)) /\
  (forall n s,
      res (poll_loop max_capacity_kg_val n s) = Ok tt /\
      sleeps (events (poll_loop max_capacity_kg_val n s))
      = repeat (CHECK_INTERVAL cfg) n /\
      (n <= List.length (requests (events (poll_loop max_capacity_kg_val n s))))%nat).
Proof.
  intros Hok.
  assert (Hall : forall n s,
             res (poll_loop max_capacity_kg_val n s) = Ok tt /\
             sleeps (events (poll_loop max_capacity_kg_val n s))
             = repeat (CHECK_INTERVAL cfg) n /\
             (n <= List.length (requests (events (poll_loop max_capacity_kg_val n s))))%nat).
  { induction n as [|n IH]; intros s; [repeat split; cbn; lia|].
    rewrite (poll_loop_step _ n s Hok). cbv zeta. cbn [res events].
    destruct (IH (state (iteration max_capacity_kg_val s))) as (Hres & Hsl & Hrq).
    split; [exact Hres|].
    rewrite (iteration_outcome _ s Hok) in *. cbn [events state] in *.
    destruct s as [w l].
    destruct (cycle_first_request max_capacity_kg_val w l) as [rest Hfirst].
    split.
    - rewrite !sleeps_app, Hsl, sleepless_cycle. reflexivity.
    - rewrite !requests_app, Hfirst, !length_app. cbn [List.length]. lia. }
  split; [|split; [|split; [|split]]].
  - intros s. split; [apply cycle_returns|].
    intros e He. unfold cycle. rewrite try_events, He. reflexivity.
  - intros w l. apply cycle_first_request.
  - intros s. apply (iteration_outcome _ _ Hok).
  - intros n s. cbv zeta. rewrite (poll_loop_step _ n s Hok). cbv zeta.
    destruct (Hall n (state (iteration max_capacity_kg_val s))) as [-> _]. reflexivity.
  - exact Hall.
Qed.

(** C9. When the fetch of a cycle raises, its recovery included, the cycle
    leaves the loop variables as they were: the token and the time of the
    last alert are the same when the next cycle starts. *)
Theorem failed_fetch_keeps_locals (max_capacity_kg_val : option spec_float)
    (w : W) (l : Locals) (e : exn) :
  res (safe_get_hopper (token l) w) = Raise e ->
  snd (state (cycle max_capacity_kg_val (w, l))) = l /\
  snd (state (iteration max_capacity_kg_val (w, l))) = l /\
  res (cycle_body max_capacity_kg_val (w, l)) = Raise e.
Proof.
  intros Hf.
  assert (Hc : snd (state (cycle max_capacity_kg_val (w, l))) = l).
  { unfold cycle. rewrite try_state.
    rewrite (cycle_body_fetch_failed _ _ _ _ Hf). reflexivity. }
  split; [exact Hc|]. split.
  - unfold iteration. rewrite bind_state, cycle_returns.
    unfold call at 1. cbn [state snd]. exact Hc.
  - rewrite (cycle_body_fetch_failed _ _ _ _ Hf). reflexivity.
Qed.

(** C6, as the code has it. With a notification server configured, a cycle
    sets the time of the last alert exactly when it attempts a send, to the
    time read once the send has returned, whether or not the notification
    was delivered; a cycle that attempts no send (the fetch failed, the
    reading is above the threshold, or the last alert is recent) leaves it
    unchanged. *)
Theorem timestamp_follows_send_attempt (server : string)
    (max_capacity_kg_val : option spec_float) (w : W) (l : Locals) :
  NTFY_SERVER cfg = Some server ->
  let o := cycle max_capacity_kg_val (w, l) in
  let fetched := safe_get_hopper (token l) w in
  match res fetched with
  | Raise _ =>
      notifications (events o) = [] /\
      last_alert_time (snd (state o)) = last_alert_time l
  | Ok (hopper_kg, _) =>
      let percent := percent_remaining max_capacity_kg_val hopper_kg in
      if decide hopper_kg (last_alert_time l) (snd (utcnow env (state fetched)))
      then
        let sent := send_ntfy_alert hopper_kg percent
                      (state (should_send (last_alert_time l) (state fetched))) in
        notifications (events o) = [alert_request server hopper_kg percent] /\
        last_alert_time (snd (state o)) = Some (snd (utcnow env (state sent)))
      else
        notifications (events o) = [] /\
        last_alert_time (snd (state o)) = last_alert_time l
  end.
Proof.
  intros Hs. cbv zeta. unfold cycle.
  rewrite try_events, try_state.
  destruct (res (safe_get_hopper (token l) w)) as [[hopper_kg tok']|e] eqn:Hf.
  - rewrite (cycle_body_fetched _ _ _ _ _ Hf). cbn [res state events].
    pose proof (alert_step_outcome server hopper_kg
                  (percent_remaining max_capacity_kg_val hopper_kg)
                  (state (safe_get_hopper (token l) w))
                  {| token := tok'; last_alert_time := last_alert_time l |} Hs) as Ha.
    cbv zeta in Ha. cbn [token last_alert_time] in Ha.
    destruct Ha as [Hres [_ Hrest]]. rewrite Hres.
    rewrite notifications_app, safe_get_hopper_notifications. cbn [app].
    exact Hrest.
  - rewrite (cycle_body_fetch_failed _ _ _ _ Hf). cbn [res state events call log snd].
    rewrite notifications_app, safe_get_hopper_notifications. split; reflexivity.
Qed.


(** ** Further properties of the code *)

(** *** The session client, call by call *)

Lemma raise_for_status_outcome (resp : Response) (w : W) :
  raise_for_status resp w
  = Outcome [] w (if error_status (status_code resp)
                  then Raise (Exn "HTTPError" (http_error_text resp))
                  else Ok tt).
Proof.
  unfold raise_for_status, error_status, http_error_text. cbv zeta.
  destruct (Z.leb_spec 400 (status_code resp)), (Z.ltb_spec (status_code resp) 500),
    (Z.leb_spec 500 (status_code resp)), (Z.ltb_spec (status_code resp) 600);
    cbn [andb]; try lia; reflexivity.
Qed.

Lemma login_cases (w : W) :
  let o := login_and_get_token w in
  state o = fst (perform env login_request w) /\
  match snd (perform env login_request w) with
  | Raise e => res o = Raise e
  | Ok resp =>
      if error_status (status_code resp)
      then res o = Raise (Exn "HTTPError" (http_error_text resp))
      else
        match body resp with
        | Raise e =>
            res o = Raise e /\
            In (EvLog ERROR ("Login did not return JSON, got: "
                             ++ repr (prefix_slice 200 (text resp)))) (events o)
        | Ok (VDict d) =>
            match offered_token d with
            | Some tok => res o = Ok tok
            | None =>
                res o = Raise (RuntimeError "Token not found in login response") /\
                In (EvLog ERROR ("Could not find token in login response: "
                                 ++ py_repr (VDict d))) (events o)
            end
        | Ok data => res o = Raise (AttributeError (PyVal.type_name data) "get")
        end
  end.
Proof.
  cbv zeta. unfold login_and_get_token, resp_json. mstep.
  rewrite !http_res, !http_state, !http_events.
  destruct (snd (perform env login_request w)) as [resp|e]; mstep; [|auto].
  rewrite !raise_for_status_outcome. cbn [res state events].
  destruct (error_status (status_code resp)); mstep; [auto|].
  destruct (body resp) as [data|e]; mstep.
  2: { split; [reflexivity|]. split; [reflexivity|].
       cbn [app]. right. right. left. reflexivity. }
  destruct data as [| b | z | x | s | items | d]; cbn [PyVal.get PyVal.get_default rbind res];
    try (split; reflexivity).
  fold (field d "token" VNone). fold (field d "Token" VNone). fold (field d "TOKEN" VNone).
  unfold offered_token. cbn [find].
  destruct (PyVal.truthy (field d "token" VNone)) eqn:T1; cbn [res negb].
  { rewrite T1. mstep. auto. }
  destruct (PyVal.truthy (field d "Token" VNone)) eqn:T2; cbn [res negb].
  { rewrite T2. mstep. auto. }
  destruct (PyVal.truthy (field d "TOKEN" VNone)) eqn:T3; cbn [res negb]; mstep.
  - auto.
  - split; [reflexivity|]. split; [reflexivity|].
    cbn [app]. right. right. left. reflexivity.
Qed.


Lemma offered_token_truthy (d : list (string * value)) (tok : value) :
  offered_token d = Some tok -> PyVal.truthy tok = true.
Proof. unfold offered_token. intros H. apply find_some in H. apply H. Qed.

(** X1. [login_and_get_token] returns a token exactly when its one request
    is answered with a status outside 400..599 and a JSON object in which
    one of the keys "token", "Token", "TOKEN" (tried in that order) holds a
    true value; it returns that value, so never an empty or null token, and
    leaves the world as the request left it. *)
Theorem login_returns_first_true_token (w : W) (tok : value) :
  res (login_and_get_token w) = Ok tok <->
  exists resp d,
    snd (perform env login_request w) = Ok resp /\
    error_status (status_code resp) = false /\
    body resp = Ok (VDict d) /\
    offered_token d = Some tok /\
    PyVal.truthy tok = true /\
    state (login_and_get_token w) = fst (perform env login_request w).
Proof.
  destruct (login_cases w) as [Hst Hc]. revert Hc.
  destruct (snd (perform env login_request w)) as [resp|e].
  2: { intros ->. split; [discriminate|]. intros (? & ? & H & _). discriminate. }
  destruct (error_status (status_code resp)) eqn:Hs.
  { intros ->. split; [discriminate|]. intros (r & ? & H & H' & _).
    injection H as <-. congruence. }
  destruct (body resp) as [data|e] eqn:Hb.
  2: { intros [-> _]. split; [discriminate|]. intros (r & ? & H & _ & H' & _).
       injection H as <-. congruence. }
  destruct data as [| b | z | x | s | items | d];
    try (intros ->; split; [discriminate|];
         intros (r & ? & H & _ & H' & _); injection H as <-; congruence).
  destruct (offered_token d) as [t|] eqn:Ho.
  - intros ->. split.
    + intros H. injection H as <-. exists resp, d.
      repeat split; auto. apply (offered_token_truthy d t Ho).
    + intros (r & d' & H & _ & H' & Ho' & _). injection H as <-.
      rewrite Hb in H'. injection H' as <-. congruence.
  - intros [-> _]. split; [discriminate|].
    intros (r & d' & H & _ & H' & Ho' & _). injection H as <-.
    rewrite Hb in H'. injection H' as <-. congruence.
Qed.

Lemma prefix_slice_length (n : nat) (s : string) :
  (String.length (prefix_slice n s) <= n)%nat.
Proof.
  unfold prefix_slice. revert s.
  induction n as [|n IH]; intros s; destruct s; simpl; try lia.
  specialize (IH s). lia.
Qed.

(** X2. When the login answer has a good status but a body that is not
    JSON, the function logs an error quoting at most the first 200
    characters of the body and raises what [resp.json()] raised; an error
    status is raised as an HTTP error without the body being read. *)
Theorem login_reports_bad_body (w : W) (resp : Response) :
  snd (perform env login_request w) = Ok resp ->
  (error_status (status_code resp) = true ->
   res (login_and_get_token w) = Raise (Exn "HTTPError" (http_error_text resp))) /\
  (error_status (status_code resp) = false ->
   forall e, body resp = Raise e ->
     res (login_and_get_token w) = Raise e /\
     In (EvLog ERROR ("Login did not return JSON, got: "
                      ++ repr (prefix_slice 200 (text resp))))
        (events (login_and_get_token w)) /\
     (String.length (prefix_slice 200 (text resp)) <= 200)%nat).
Proof.
  intros Hp. destruct (login_cases w) as [_ Hc]. rewrite Hp in Hc.
  split.
  - intros Hs. rewrite Hs in Hc. exact Hc.
  - intros Hs e Hb. rewrite Hs, Hb in Hc. destruct Hc as [Hr Hl].
    split; [exact Hr|]. split; [exact Hl|]. apply prefix_slice_length.
Qed.

(** X3. [accept_terms] makes one request and succeeds exactly when it is
    answered with a status outside 400..599: the body of the answer is never
    looked at. The world is left as the request left it. *)
Theorem accept_terms_checks_status_only (tok : value) (w : W) :
  let o := accept_terms tok w in
  requests (events o) = [terms_request tok] /\
  state o = fst (perform env (terms_request tok) w) /\
  res o = match snd (perform env (terms_request tok) w) with
          | Raise e => Raise e
          | Ok resp =>
              if error_status (status_code resp)
              then Raise (Exn "HTTPError" (http_error_text resp))
              else Ok tt
          end.
Proof.
  cbv zeta. split; [apply accept_terms_requests|].
  unfold accept_terms. mstep.
  rewrite !http_res, !http_state.
  destruct (snd (perform env (terms_request tok) w)) as [resp|e]; mstep; [|auto].
  rewrite !raise_for_status_outcome. cbn [res state events].
  destruct (error_status (status_code resp)); mstep; auto.
Qed.

Lemma get_hopper_kg_data_state (data : value) :
  state (get_hopper_kg_data data tt) = tt.
Proof. destruct (state (get_hopper_kg_data data tt)). reflexivity. Qed.

(** X4. [get_hopper_kg] is its one request followed by the status check,
    the JSON decoding and the extraction, in that order: a network error, an
    error status or a body that is not JSON is raised as it is, and
    otherwise the result is that of the extraction on the decoded body. It
    changes the world only through the request. *)
Theorem get_hopper_kg_pipeline (tok : value) (w : W) :
  let o := get_hopper_kg tok w in
  requests (events o) = [fetch_request tok] /\
  state o = fst (perform env (fetch_request tok) w) /\
  res o = match snd (perform env (fetch_request tok) w) with
          | Raise e => Raise e
          | Ok resp =>
              if error_status (status_code resp)
              then Raise (Exn "HTTPError" (http_error_text resp))
              else match body resp with
                   | Raise e => Raise e
                   | Ok data => res (get_hopper_kg_data data tt)
                   end
          end.
Proof.
  cbv zeta. split; [apply get_hopper_kg_requests|].
  unfold get_hopper_kg, resp_json. mstep.
  rewrite !http_res, !http_state.
  destruct (snd (perform env (fetch_request tok) w)) as [resp|e]; mstep; [|auto].
  rewrite !raise_for_status_outcome. cbn [res state events].
  destruct (error_status (status_code resp)); mstep; [auto|].
  destruct (body resp) as [data|e]; mstep; [|auto].
  unfold pure_call. cbn [res state]. auto.
Qed.


(** *** Extraction at its edges *)

Lemma scan_frontdata_passes (pre rest : list value) :
  passed_over is_hoppercontent pre = true ->
  scan_frontdata (pre ++ rest)%list = scan_frontdata rest.
Proof.
  induction pre as [|item pre IH]; intros Hp; [reflexivity|].
  cbn [passed_over forallb] in Hp. apply andb_prop in Hp. destruct Hp as [Hi Hrest].
  apply andb_prop in Hi. destruct Hi as [Hd Hn].
  destruct (is_dict_inv item Hd) as [d ->].
  cbn [app scan_frontdata]. rewrite get_of_dict. cbn [rbind].
  unfold is_hoppercontent, id_is in Hn. rewrite get_of_dict in Hn.
  apply negb_true_iff in Hn. rewrite Hn. apply IH. exact Hrest.
Qed.

Lemma front_scan_res (entries : list (string * value)) (items : list value) :
  field entries "frontdata" (VList []) = VList items ->
  forall e, scan_frontdata items = Raise e ->
  res (get_hopper_kg_data (VDict entries) tt) = Raise e.
Proof.
  intros Hf e Hs. unfold get_hopper_kg_data. mstep.
  cbn [PyVal.keys PyVal.get_default]. mstep.
  fold (field entries "frontdata" (VList [])). rewrite Hf.
  cbn [res lift_result]. rewrite Hs. reflexivity.
Qed.

Lemma front_scan_found (entries : list (string * value)) (items : list value)
    (raw_val : string) (hopper_kg : spec_float) :
  field entries "frontdata" (VList []) = VList items ->
  scan_frontdata items = Ok (Some (raw_val, hopper_kg)) ->
  res (get_hopper_kg_data (VDict entries) tt) = Ok hopper_kg.
Proof.
  intros Hf Hs. unfold get_hopper_kg_data. mstep.
  cbn [PyVal.keys PyVal.get_default]. mstep.
  fold (field entries "frontdata" (VList [])). rewrite Hf.
  cbn [res lift_result]. rewrite Hs. unfold hopper_log. mstep. reflexivity.
Qed.

(** X5. The loop over [frontdata] stops at the first entry with id
    "hoppercontent": once the entries before it are objects with another id,
    its value decides the result, whatever follows it in the list (objects or
    not) and whatever [hopperdata] holds. *)
Theorem extraction_stops_at_first_match (entries : list (string * value))
    (pre post : list value) (hit : list (string * value)) :
  field entries "frontdata" (VList []) = VList (pre ++ VDict hit :: post) ->
  passed_over is_hoppercontent pre = true ->
  is_hoppercontent (VDict hit) = true ->
  res (get_hopper_kg_data (VDict entries) tt) = coerce_and_parse (value_of (VDict hit)).
Proof.
  intros Hf Hp Hh.
  assert (Hs : scan_frontdata (pre ++ VDict hit :: post)
               = match coerce_and_parse (value_of (VDict hit)) with
                 | Ok hopper_kg => Ok (Some (py_str (value_of (VDict hit)), hopper_kg))
                 | Raise e => Raise e
                 end).
  { rewrite (scan_frontdata_passes _ _ Hp). cbn [scan_frontdata].
    rewrite get_of_dict. cbn [rbind].
    unfold is_hoppercontent, id_is in Hh. rewrite get_of_dict in Hh. rewrite Hh.
    rewrite read_value_dict.
    destruct (coerce_and_parse (value_of (VDict hit))); reflexivity. }
  destruct (coerce_and_parse (value_of (VDict hit))) as [hopper_kg|e].
  - apply (front_scan_found entries _ _ _ Hf Hs).
  - apply (front_scan_res entries _ Hf e Hs).
Qed.

(** X6. Shapes the endpoint does not document make extraction raise an
    attribute error rather than fall back: a payload that is not an object
    fails on [keys] before anything is logged, and a [frontdata] entry that
    is not an object, met before any match, fails on [get], [hopperdata] not
    being looked at. *)
Theorem extraction_rejects_non_objects :
  (forall data,
      PyVal.is_dict data = false ->
      get_hopper_kg_data data tt
      = Outcome [] tt (Raise (AttributeError (PyVal.type_name data) "keys"))) /\
  (forall entries pre bad post,
      field entries "frontdata" (VList []) = VList (pre ++ bad :: post) ->
      passed_over is_hoppercontent pre = true ->
      PyVal.is_dict bad = false ->
      res (get_hopper_kg_data (VDict entries) tt)
      = Raise (AttributeError (PyVal.type_name bad) "get")).
Proof.
  split.
  - intros data Hd. destruct data; try discriminate Hd; reflexivity.
  - intros entries pre bad post Hf Hp Hb.
    apply (front_scan_res entries _ Hf).
    rewrite (scan_frontdata_passes _ _ Hp). cbn [scan_frontdata].
    destruct bad; try discriminate Hb; reflexivity.
Qed.

Lemma leb_nan_l (x : spec_float) : PyFloat.leb S754_nan x = false.
Proof. reflexivity. Qed.

Lemma leb_nan_r (x : spec_float) : PyFloat.leb x S754_nan = false.
Proof. destruct x; reflexivity. Qed.

(** X7. A value of "nan" (in any case, which [float()] accepts) is read as
    a reading, not refused, and a reading that is not a number never alerts:
    every comparison with it is false, whatever the threshold and the time of
    the last alert. The same holds for a threshold that is not a number. *)
Theorem nan_never_alerts (last : option Z) (now : Z) :
  (forall s, String.eqb (lower s) "nan" = true ->
             coerce_and_parse (VStr s) = Ok S754_nan) /\
  decide S754_nan last now = false /\
  (LOW_THRESHOLD_KG cfg = S754_nan ->
   forall hopper_kg, decide hopper_kg last now = false).
Proof.
  split; [|split].
  - intros s Hs. apply String.eqb_eq in Hs.
    destruct s as [|a [|b [|c [|]]]]; try discriminate Hs.
    cbn [lower] in Hs. injection Hs as Ha Hb Hc.
    unfold coerce_and_parse, py_float, py_str.
    assert (Hcase : forall x y, to_lower x = y ->
              (x = y \/ code x + 32 = code y)%N).
    { intros x y <-. unfold to_lower.
      destruct ((65 <=? code x) && (code x <=? 90))%N eqn:E; [right|left; reflexivity].
      unfold code. rewrite N_ascii_embedding; [reflexivity|].
      apply andb_prop in E. destruct E as [_ E]. apply N.leb_le in E.
      unfold code in E. lia. }
    assert (Hex : forall x (y : ascii) (k : N), code y = k ->
              (x = y \/ code x + 32 = code y)%N ->
              x = y \/ x = ascii_of_N (k - 32)).
    { intros x y k Hk [H|H]; [left; exact H|right].
      rewrite <- Hk. rewrite <- H. rewrite N.add_sub. unfold code.
      symmetry. apply ascii_N_embedding. }
    destruct (Hex a "n"%char 110%N eq_refl (Hcase _ _ Ha)) as [-> | ->];
    destruct (Hex b "a"%char 97%N eq_refl (Hcase _ _ Hb)) as [-> | ->];
    destruct (Hex c "n"%char 110%N eq_refl (Hcase _ _ Hc)) as [-> | ->];
    vm_compute; reflexivity.
  - unfold decide. rewrite leb_nan_l. reflexivity.
  - intros Hn hopper_kg. unfold decide. rewrite Hn, leb_nan_r. reflexivity.
Qed.


(** *** The notifier *)

Lemma rstrip_char_slash (s : string) :
  rstrip_char "/" (s ++ "/") = rstrip_char "/" s.
Proof.
  induction s as [|x s IH]; [reflexivity|].
  cbn [append rstrip_char]. rewrite IH. reflexivity.
Qed.

Lemma rstrip_char_no_slash_end (s t : string) :
  rstrip_char "/" s <> t ++ "/".
Proof.
  revert t. induction s as [|x s IH]; intros t.
  - destruct t; discriminate.
  - cbn [rstrip_char]. destruct (rstrip_char "/" s) as [|y r] eqn:E.
    + destruct (Ascii.eqb_spec x "/"%char) as [->|Hx].
      * destruct t; discriminate.
      * destruct t as [|a [|b t]]; cbn [append]; try discriminate.
        intros H. injection H as H. congruence.
    + destruct t as [|a t]; cbn [append]; [discriminate|].
      intros H. injection H as _ H. exact (IH t H).
Qed.

Lemma rstrip_char_slashes (s : string) :
  exists k, s = rstrip_char "/" s ++ slashes k.
Proof.
  induction s as [|x s [k IH]].
  - exists O. reflexivity.
  - cbn [rstrip_char]. destruct (rstrip_char "/" s) as [|y r] eqn:E.
    + destruct (Ascii.eqb_spec x "/"%char) as [->|Hx].
      * exists (S k). cbn [append slashes]. cbn [append] in IH. rewrite <- IH. reflexivity.
      * exists k. cbn [append]. cbn [append] in IH. rewrite <- IH. reflexivity.
    + exists k. cbn [append]. cbn [append] in IH. rewrite <- IH. reflexivity.
Qed.

(** X8. The notification URL is the server with every trailing slash
    removed, one slash, and the topic: only slashes at the end are dropped,
    the part kept does not end in a slash, and a server written with or
    without a final slash gives the same URL. *)
Theorem ntfy_url_ignores_trailing_slashes (server : string) :
  ntfy_url (server ++ "/") = ntfy_url server /\
  (exists k, server = rstrip_char "/" server ++ slashes k) /\
  (forall t, rstrip_char "/" server <> t ++ "/") /\
  ntfy_url server = rstrip_char "/" server ++ "/" ++ NTFY_TOPIC cfg.
Proof.
  split; [|split; [|split]].
  - unfold ntfy_url. rewrite rstrip_char_slash. reflexivity.
  - apply rstrip_char_slashes.
  - apply rstrip_char_no_slash_end.
  - reflexivity.
Qed.

(** X9. With a server configured, [send_ntfy_alert] logs where it sends,
    makes exactly one POST of the message to the notification URL with the
    title, priority and tag headers, and logs one verdict: success when the
    answer has a status outside 400..599, the failure otherwise, be it an
    error status or an exception of the request. It returns in every case
    and never tries a second time. *)
Theorem send_ntfy_alert_posts_once (server : string) (hopper_kg : spec_float)
    (percent : option spec_float) (w : W) :
  NTFY_SERVER cfg = Some server ->
  let rq := alert_request server hopper_kg percent in
  send_ntfy_alert hopper_kg percent w
  = Outcome [EvLog INFO ("Sending ntfy alert to " ++ ntfy_url server);
             EvHttp rq;
             send_verdict (snd (perform env rq w))]
            (fst (perform env rq w))
            (Ok tt).
Proof.
  intros Hs. cbv zeta.
  rewrite (outcome_eta (send_ntfy_alert hopper_kg percent w)).
  unfold send_ntfy_alert. rewrite Hs. cbv zeta.
  mstep. rewrite !http_events, !http_res, !http_state.
  change (ntfy_request (rstrip_char "/" server ++ "/" ++ NTFY_TOPIC cfg)
            (alert_message hopper_kg percent)
            [("Title", NTFY_TITLE cfg); ("Priority", NTFY_PRIORITY cfg);
             ("Tags", "warning,fire")])
    with (alert_request server hopper_kg percent).
  change (rstrip_char "/" server ++ "/" ++ NTFY_TOPIC cfg) with (ntfy_url server).
  unfold send_verdict.
  destruct (snd (perform env (alert_request server hopper_kg percent) w)) as [resp|e];
    mstep; [|reflexivity].
  rewrite !raise_for_status_outcome. cbn [res state events].
  destruct (error_status (status_code resp)); mstep; reflexivity.
Qed.


(** *** The cycle and the loop *)

Lemma send_ntfy_alert_requests_le (hopper_kg : spec_float) (percent : option spec_float)
    (w : W) :
  (List.length (requests (events (send_ntfy_alert hopper_kg percent w))) <= 1)%nat.
Proof.
  destruct (NTFY_SERVER cfg) as [server|] eqn:Hs.
  - destruct (send_ntfy_alert_returns server hopper_kg percent w Hs) as [_ [-> _]].
    cbn [List.length]. lia.
  - unfold send_ntfy_alert. rewrite Hs. cbn [bind raise res events requests List.length]. lia.
Qed.

Lemma send_branch_facts (hopper_kg : spec_float) (percent : option spec_float)
    (w1 : W) (l : Locals) :
  let o := (call (send_ntfy_alert hopper_kg percent);;
            now <- call datetime_now;;
            set_last_alert_time (Some now)) (w1, l) in
  token (snd (state o)) = token l /\
  requests (events o) = requests (events (send_ntfy_alert hopper_kg percent w1)) /\
  (res (send_ntfy_alert hopper_kg percent w1) <> Ok tt ->
   snd (state o) = l /\ res o = res (send_ntfy_alert hopper_kg percent w1)).
Proof.
  cbv zeta. lstep.
  destruct (res (send_ntfy_alert hopper_kg percent w1)) as [[]|e] eqn:Hr; lstep.
  - rewrite !datetime_now_outcome. lstep.
    split; [reflexivity|]. split; [reflexivity|].
    intros H; contradiction H; reflexivity.
  - split; [reflexivity|]. split; [reflexivity|]. intros _. auto.
Qed.

Lemma alert_step_token (hopper_kg : spec_float) (percent : option spec_float)
    (w : W) (l : Locals) :
  token (snd (state (alert_step hopper_kg percent (w, l)))) = token l.
Proof.
  pose proof (alert_step_gate hopper_kg percent w l) as Hg. cbv zeta in Hg.
  destruct (decide hopper_kg (last_alert_time l) (snd (utcnow env w))).
  - rewrite Hg. apply send_branch_facts.
  - destruct Hg as [_ [-> _]]. reflexivity.
Qed.

Lemma alert_step_requests_le (hopper_kg : spec_float) (percent : option spec_float)
    (w : W) (l : Locals) :
  (List.length (requests (events (alert_step hopper_kg percent (w, l)))) <= 1)%nat.
Proof.
  pose proof (alert_step_gate hopper_kg percent w l) as Hg. cbv zeta in Hg.
  destruct (decide hopper_kg (last_alert_time l) (snd (utcnow env w))).
  - rewrite Hg.
    destruct (send_branch_facts hopper_kg percent
                (state (should_send (last_alert_time l) w)) l) as [_ [-> _]].
    apply send_ntfy_alert_requests_le.
  - destruct Hg as [_ [_ ->]]. cbn [List.length]. lia.
Qed.

Lemma safe_get_hopper_requests_le (tok : value) (w : W) :
  (List.length (requests (events (safe_get_hopper tok w))) <= 4)%nat.
Proof.
  unfold safe_get_hopper. mstep.
  destruct (res (get_hopper_kg tok w)); mstep.
  { rewrite get_hopper_kg_requests. cbn [List.length]. lia. }
  destruct (res (login_and_get_token _)) as [new_token|]; mstep.
  - destruct (res (accept_terms new_token _)); mstep.
    + destruct (res (get_hopper_kg new_token _)); mstep.
      all: repeat (rewrite requests_app; cbn [requests app]).
      all: rewrite !get_hopper_kg_requests, login_and_get_token_requests,
             accept_terms_requests; cbn [List.length app]; lia.
    + repeat (rewrite requests_app; cbn [requests app]).
      rewrite get_hopper_kg_requests, login_and_get_token_requests,
        accept_terms_requests; cbn [List.length app]; lia.
  - repeat (rewrite requests_app; cbn [requests app]).
    rewrite get_hopper_kg_requests, login_and_get_token_requests; cbn [List.length app]; lia.
Qed.

Lemma cycle_requests (max_capacity_kg_val : option spec_float) (s : W * Locals) :
  requests (events (cycle max_capacity_kg_val s))
  = requests (events (cycle_body max_capacity_kg_val s)).
Proof.
  unfold cycle. rewrite try_events.
  destruct (res (cycle_body max_capacity_kg_val s)); [reflexivity|].
  rewrite requests_app. cbn [call log events requests]. apply app_nil_r.
Qed.

Lemma cycle_state (max_capacity_kg_val : option spec_float) (s : W * Locals) :
  state (cycle max_capacity_kg_val s) = state (cycle_body max_capacity_kg_val s).
Proof.
  unfold cycle. rewrite try_state.
  destruct (res (cycle_body max_capacity_kg_val s)); [reflexivity|].
  cbn [call log state]. destruct (state (cycle_body max_capacity_kg_val s)); reflexivity.
Qed.

Lemma cycle_requests_le (max_capacity_kg_val : option spec_float) (w : W) (l : Locals) :
  (List.length (requests (events (cycle max_capacity_kg_val (w, l)))) <= 5)%nat.
Proof.
  rewrite cycle_requests.
  pose proof (safe_get_hopper_requests_le (token l) w) as H4.
  destruct (res (safe_get_hopper (token l) w)) as [[hopper_kg tok']|e] eqn:Hf.
  - rewrite (cycle_body_fetched _ _ _ _ _ Hf). cbn [events].
    rewrite requests_app, length_app.
    pose proof (alert_step_requests_le hopper_kg
                  (percent_remaining max_capacity_kg_val hopper_kg)
                  (state (safe_get_hopper (token l) w))
                  {| token := tok'; last_alert_time := last_alert_time l |}) as H1.
    lia.
  - rewrite (cycle_body_fetch_failed _ _ _ _ Hf). cbn [events]. lia.
Qed.

Lemma iteration_requests (max_capacity_kg_val : option spec_float) (s : W * Locals) :
  requests (events (iteration max_capacity_kg_val s))
  = requests (events (cycle max_capacity_kg_val s)).
Proof.
  unfold iteration. rewrite bind_events, cycle_returns, requests_app.
  unfold call, time_sleep. cbn [events].
  destruct ((CHECK_INTERVAL cfg <? - SLEEP_MAX) || (SLEEP_MAX <? CHECK_INTERVAL cfg));
    [apply app_nil_r|].
  destruct (CHECK_INTERVAL cfg <? 0); [apply app_nil_r|].
  destruct (sleep_refused env (CHECK_INTERVAL cfg) (fst (state (cycle max_capacity_kg_val s))));
    apply app_nil_r.
Qed.

(** X10. A token renewed by [safe_get_hopper] is the loop's token from
    then on: whenever the fetch of a cycle succeeds, the token it returned is
    the token after the cycle and after the sleep that follows, whatever the
    rest of the cycle does, a failing send included. *)
Theorem fetched_token_is_kept (max_capacity_kg_val : option spec_float)
    (w : W) (l : Locals) (hopper_kg : spec_float) (tok' : value) :
  res (safe_get_hopper (token l) w) = Ok (hopper_kg, tok') ->
  token (snd (state (cycle max_capacity_kg_val (w, l)))) = tok' /\
  token (snd (state (iteration max_capacity_kg_val (w, l)))) = tok'.
Proof.
  intros Hf.
  assert (Hc : token (snd (state (cycle max_capacity_kg_val (w, l)))) = tok').
  { rewrite cycle_state, (cycle_body_fetched _ _ _ _ _ Hf). cbn [state].
    rewrite alert_step_token. reflexivity. }
  split; [exact Hc|].
  unfold iteration. rewrite bind_state, cycle_returns.
  unfold call at 1. cbn [state snd]. exact Hc.
Qed.

(** X11. A cycle makes at most five HTTP requests, four through the session
    (fetch, login, terms, fetch) and one notification, and so [n] turns of
    the loop make at most [5 * n]. *)
Theorem requests_per_cycle_bounded (max_capacity_kg_val : option spec_float) :
  (forall w l,
      (List.length (requests (events (cycle max_capacity_kg_val (w, l)))) <= 5)%nat /\
      (List.length (notifications (events (cycle max_capacity_kg_val (w, l)))) <= 1)%nat) /\
  (forall n w l,
      (List.length (requests (events (poll_loop max_capacity_kg_val n (w, l)))) <= 5 * n)%nat).
Proof.
  split.
  - intros w l. split; [apply cycle_requests_le|].
    unfold notifications. rewrite cycle_requests.
    destruct (res (safe_get_hopper (token l) w)) as [[hopper_kg tok']|e] eqn:Hf.
    + rewrite (cycle_body_fetched _ _ _ _ _ Hf). cbn [events].
      rewrite requests_app, filter_app, length_app.
      fold (notifications (events (safe_get_hopper (token l) w))).
      rewrite safe_get_hopper_notifications. cbn [List.length].
      pose proof (alert_step_requests_le hopper_kg
                    (percent_remaining max_capacity_kg_val hopper_kg)
                    (state (safe_get_hopper (token l) w))
                    {| token := tok'; last_alert_time := last_alert_time l |}) as H1.
      pose proof (filter_length_le (fun rq => negb (via_session rq))
                    (requests (events (alert_step hopper_kg
                       (percent_remaining max_capacity_kg_val hopper_kg)
                       (state (safe_get_hopper (token l) w),
                        {| token := tok'; last_alert_time := last_alert_time l |}))))) as H2.
      lia.
    + rewrite (cycle_body_fetch_failed _ _ _ _ Hf). cbn [events].
      fold (notifications (events (safe_get_hopper (token l) w))).
      rewrite safe_get_hopper_notifications. cbn [List.length]. lia.
  - induction n as [|n IH]; intros w l; [cbn; lia|].
    cbn [poll_loop]. rewrite bind_events.
    pose proof (cycle_requests_le max_capacity_kg_val w l) as H5.
    rewrite <- iteration_requests in H5.
    destruct (res (iteration max_capacity_kg_val (w, l))); [|lia].
    rewrite requests_app, length_app.
    destruct (state (iteration max_capacity_kg_val (w, l))) as [w' l'].
    specialize (IH w' l'). lia.
Qed.


(** X12. Without [NTFY_SERVER] no cycle ever sends a notification or sets
    the time of the last alert; a cycle whose reading calls for an alert
    ends with the error of the send logged as the failure of the cycle, so
    that the next cycle will try again. *)
Theorem without_server_nothing_is_recorded (max_capacity_kg_val : option spec_float)
    (w : W) (l : Locals) :
  NTFY_SERVER cfg = None ->
  let o := cycle max_capacity_kg_val (w, l) in
  let fetched := safe_get_hopper (token l) w in
  notifications (events o) = [] /\
  last_alert_time (snd (state o)) = last_alert_time l /\
  (forall hopper_kg tok',
      res fetched = Ok (hopper_kg, tok') ->
      decide hopper_kg (last_alert_time l) (snd (utcnow env (state fetched))) = true ->
      exists evs,
        events o
        = (evs ++ [EvLog ERROR ("Final failure this cycle: "
                                ++ "'NoneType' object has no attribute 'rstrip'")])%list).
Proof.
  intros Hs. cbv zeta.
  assert (Hsend : forall hopper_kg percent w1 l1,
            (call (send_ntfy_alert hopper_kg percent);;
             now <- call datetime_now;;
             set_last_alert_time (Some now)) (w1, l1)
            = Outcome [] (w1, l1) (Raise (AttributeError "NoneType" "rstrip"))).
  { intros. rewrite (outcome_eta (bind _ _ _)). lstep.
    unfold send_ntfy_alert. rewrite Hs. lstep. reflexivity. }
  destruct (res (safe_get_hopper (token l) w)) as [[hopper_kg tok']|e] eqn:Hf.
  - pose proof (alert_step_gate hopper_kg
                  (percent_remaining max_capacity_kg_val hopper_kg)
                  (state (safe_get_hopper (token l) w))
                  {| token := tok'; last_alert_time := last_alert_time l |}) as Hg.
    cbv zeta in Hg. cbn [last_alert_time] in Hg.
    unfold cycle. rewrite try_events, try_state.
    rewrite (cycle_body_fetched _ _ _ _ _ Hf). cbn [res state events].
    destruct (decide hopper_kg (last_alert_time l)
                (snd (utcnow env (state (safe_get_hopper (token l) w))))) eqn:Hd0.
    + rewrite Hg, Hsend. cbn [res state events call log snd last_alert_time].
      rewrite !notifications_app, safe_get_hopper_notifications.
      split; [reflexivity|]. split; [reflexivity|].
      intros k t Hk _. eexists. reflexivity.
    + destruct Hg as [Hr [Hl Hq]]. rewrite Hr.
      rewrite notifications_app, safe_get_hopper_notifications. unfold notifications.
      rewrite Hq, Hl. split; [reflexivity|]. split; [reflexivity|].
      intros k t Hk Hd. injection Hk as <- <-. congruence.
  - unfold cycle. rewrite try_events, try_state.
    rewrite (cycle_body_fetch_failed _ _ _ _ Hf).
    cbn [res state events call log snd].
    rewrite notifications_app, safe_get_hopper_notifications.
    split; [reflexivity|]. split; [reflexivity|].
    intros k t Hk. discriminate Hk.
Qed.

Lemma poll_loop_runs (max_capacity_kg_val : option spec_float) (n : nat)
    (s : W * Locals) :
  sleep_accepts (CHECK_INTERVAL cfg) ->
  res (poll_loop max_capacity_kg_val n s) = Ok tt /\
  sleeps (events (poll_loop max_capacity_kg_val n s)) = repeat (CHECK_INTERVAL cfg) n.
Proof.
  intros Hok. revert s.
  induction n as [|n IH]; intros s; [split; reflexivity|].
  cbn [poll_loop]. rewrite bind_res, bind_events.
  rewrite (iteration_outcome _ _ Hok). cbn [res state events].
  destruct (IH (elapse env (CHECK_INTERVAL cfg) (fst (state (cycle max_capacity_kg_val s))),
                snd (state (cycle max_capacity_kg_val s)))) as [Hres Hsl].
  split; [exact Hres|].
  rewrite !sleeps_app, Hsl, sleepless_cycle. reflexivity.
Qed.

(** X13. A failure at startup is fatal: an unreadable [MAX_CAPACITY_KG]
    stops [main] before any request, a failed login after the login request,
    a failed terms acceptance after these two, and in each case the loop is
    never entered (nothing sleeps). Once all three succeed, and the interval
    is one [time.sleep] accepts, [main] does not stop: it runs any number of
    turns. *)
Theorem main_startup_is_fatal (n : nat) (w : W) :
  let o := main n w in
  match max_capacity_kg_val_of (MAX_CAPACITY_KG cfg) with
  | Raise e => o = Outcome [] w (Raise e)
  | Ok _ =>
      let login := login_and_get_token w in
      match res login with
      | Raise e =>
          res o = Raise e /\ requests (events o) = [login_request] /\
          sleeps (events o) = []
      | Ok tok =>
          let terms := accept_terms tok (state login) in
          match res terms with
          | Raise e =>
              res o = Raise e /\
              requests (events o) = [login_request; terms_request tok] /\
              sleeps (events o) = []
          | Ok _ =>
              sleep_accepts (CHECK_INTERVAL cfg) ->
              (exists l, res o = Ok l) /\
              sleeps (events o) = repeat (CHECK_INTERVAL cfg) n
          end
      end
  end.
Proof.
  cbv zeta. unfold main.
  destruct (max_capacity_kg_val_of (MAX_CAPACITY_KG cfg)) as [max|e]; [|reflexivity].
  mstep.
  pose proof (login_and_get_token_requests w) as R1.
  pose proof (sleepless_login_and_get_token w) as S1.
  destruct (res (login_and_get_token w)) as [tok|e]; mstep.
  2: { cbn [app]. auto. }
  pose proof (accept_terms_requests tok (state (login_and_get_token w))) as R2.
  pose proof (sleepless_accept_terms tok (state (login_and_get_token w))) as S2.
  destruct (res (accept_terms tok (state (login_and_get_token w)))) as [[]|e]; mstep.
  - intros Hok.
    destruct (poll_loop_runs max n
                (state (accept_terms tok (state (login_and_get_token w))),
                 {| token := tok; last_alert_time := None |}) Hok) as [Hr Hs].
    rewrite Hr. split; [eexists; reflexivity|].
    cbn [app]. rewrite !sleeps_app, S1, S2, Hs. reflexivity.
  - cbn [app]. rewrite !requests_app, !sleeps_app, R1, R2, S1, S2. auto.
Qed.

Lemma poll_loop_sleep_raises (max_capacity_kg_val : option spec_float)
    (n : nat) (s : W * Locals) (e : exn) :
  (forall w, time_sleep (CHECK_INTERVAL cfg) w = Outcome [] w (Raise e)) ->
  poll_loop max_capacity_kg_val (S n) s
  = Outcome (events (cycle max_capacity_kg_val s))
            (state (cycle max_capacity_kg_val s))
            (Raise e).
Proof.
  intros Hsleep.
  rewrite (outcome_eta (poll_loop max_capacity_kg_val (S n) s)).
  cbn [poll_loop]. unfold iteration. lstep. rewrite !cycle_returns. lstep.
  rewrite !Hsleep. cbn [res state events]. rewrite app_nil_r.
  destruct (state (cycle max_capacity_kg_val s)). reflexivity.
Qed.

(** X14. An interval that [time.sleep] refuses for its sign or its size
    ends the loop: [time.sleep] stands outside the [try], so after the first
    cycle its error leaves the loop, with nothing slept and nothing run after
    that cycle. The error is the [ValueError] of a negative sleep from -1
    down to -9223372036 seconds, and an [OverflowError] beyond 9223372036
    seconds on either side, where the conversion to a timestamp fails before
    the sign is looked at. *)
Theorem negative_interval_stops_loop (max_capacity_kg_val : option spec_float)
    (n : nat) (s : W * Locals) :
  (- SLEEP_MAX <= CHECK_INTERVAL cfg < 0 ->
   poll_loop max_capacity_kg_val (S n) s
   = Outcome (events (cycle max_capacity_kg_val s))
             (state (cycle max_capacity_kg_val s))
             (Raise (ValueError "sleep length must be non-negative"))) /\
  (CHECK_INTERVAL cfg < - SLEEP_MAX \/ SLEEP_MAX < CHECK_INTERVAL cfg ->
   exists msg,
     poll_loop max_capacity_kg_val (S n) s
     = Outcome (events (cycle max_capacity_kg_val s))
               (state (cycle max_capacity_kg_val s))
               (Raise (OverflowError msg))).
Proof.
  split.
  - intros [Hlo Hneg]. apply poll_loop_sleep_raises. intros w. unfold time_sleep.
    destruct (Z.ltb_spec (CHECK_INTERVAL cfg) (- SLEEP_MAX)); [lia|].
    destruct (Z.ltb_spec SLEEP_MAX (CHECK_INTERVAL cfg));
      [assert (0 < SLEEP_MAX) by reflexivity; lia|].
    destruct (Z.ltb_spec (CHECK_INTERVAL cfg) 0); [reflexivity|lia].
  - intros Hout. eexists. apply poll_loop_sleep_raises. intros w. unfold time_sleep.
    destruct (Z.ltb_spec (CHECK_INTERVAL cfg) (- SLEEP_MAX));
      destruct (Z.ltb_spec SLEEP_MAX (CHECK_INTERVAL cfg)); try reflexivity; lia.
Qed.


(** *** Formatting and parsing numbers *)

Lemma round_half_even_div_spec (n d : Z) :
  0 < d ->
  let q := PyFloat.round_half_even_div n d in
  2 * Z.abs (n - q * d) <= d /\
  (2 * Z.abs (n - q * d) = d -> Z.even q = true) /\
  (0 <= n -> 0 <= q).
Proof.
  intros Hd. cbv zeta. unfold PyFloat.round_half_even_div.
  pose proof (Z.div_mod n d ltac:(lia)) as Hdm.
  pose proof (Z.mod_pos_bound n d Hd) as Hr.
  assert (Hq : 0 <= n -> 0 <= n / d) by (intros; apply Z.div_pos; lia).
  set (q := n / d) in *. set (r := n mod d) in *. clearbody q r.
  assert (E1 : n - q * d = r) by lia.
  assert (E2 : n - (q + 1) * d = r - d) by lia.
  destruct (2 * r ?= d) eqn:Hc.
  - apply Z.compare_eq in Hc.
    destruct (Z.even q) eqn:He.
    + rewrite E1. split; [lia|]. split; [auto|exact Hq].
    + rewrite E2. split; [lia|]. split; [|intros; specialize (Hq H); lia].
      intros _. rewrite Z.even_add, He. reflexivity.
  - change (2 * r < d) in Hc. rewrite E1.
    split; [lia|]. split; [intros; lia|exact Hq].
  - change (2 * r > d) in Hc. rewrite E2.
    split; [lia|]. split; [intros; lia|intros; specialize (Hq H); lia].
Qed.

Lemma one_digit_text (r : Z) :
  0 <= r < 10 ->
  string_of_Z r = String (ascii_of_N (48 + Z.to_N r)) "".
Proof.
  intros Hr.
  assert (H : r = 0 \/ r = 1 \/ r = 2 \/ r = 3 \/ r = 4 \/ r = 5 \/ r = 6
              \/ r = 7 \/ r = 8 \/ r = 9) by lia.
  repeat (destruct H as [-> | H]; [reflexivity|]).
  subst r. reflexivity.
Qed.

(** X15. Numbers are written with one decimal, correctly rounded: a finite
    float [m * 2 ^ e] is printed as its sign, the whole part [t / 10] in
    decimal, a point and the one digit [t mod 10], where [t], ten times the
    number printed, is the integer nearest to ten times the float, the even
    one when two are as near. *)
Theorem format_1f_rounds_to_one_decimal (s : bool) (m : positive) (e : Z) :
  let t := PyFloat.tenths m e in
  PyFloat.format_1f (S754_finite s m e)
  = PyFloat.sign_text s ++ string_of_Z (t / 10) ++ "."
    ++ String (ascii_of_N (48 + Z.to_N (t mod 10))) "" /\
  0 <= t /\
  (0 <= e -> t = Z.pos m * 2 ^ e * 10) /\
  (e < 0 ->
   2 * Z.abs (Z.pos m * 10 - t * 2 ^ (- e)) <= 2 ^ (- e) /\
   (2 * Z.abs (Z.pos m * 10 - t * 2 ^ (- e)) = 2 ^ (- e) -> Z.even t = true)).
Proof.
  cbv zeta.
  assert (Ht : 0 <= PyFloat.tenths m e).
  { unfold PyFloat.tenths. destruct (Z.leb_spec 0 e) as [He|He].
    - assert (0 < 2 ^ e) by (apply Z.pow_pos_nonneg; lia). nia.
    - assert (0 < 2 ^ (- e)) by (apply Z.pow_pos_nonneg; lia).
      apply (round_half_even_div_spec (Z.pos m * 10) (2 ^ (- e))); lia. }
  split; [|split; [exact Ht|split]].
  - unfold PyFloat.format_1f.
    rewrite (one_digit_text (PyFloat.tenths m e mod 10)); [reflexivity|].
    apply Z.mod_pos_bound. lia.
  - intros He. unfold PyFloat.tenths.
    destruct (Z.leb_spec 0 e); [reflexivity|lia].
  - intros He. unfold PyFloat.tenths.
    destruct (Z.leb_spec 0 e); [lia|].
    assert (Hp : 0 < 2 ^ (- e)) by (apply Z.pow_pos_nonneg; lia).
    destruct (round_half_even_div_spec (Z.pos m * 10) (2 ^ (- e)) Hp) as [H1 [H2 _]].
    split; assumption.
Qed.

Lemma uint_value_acc (d : Decimal.uint) (acc : positive) :
  uint_value d (Z.pos acc) = Z.pos (Pos.of_uint_acc d acc).
Proof.
  revert acc. induction d; intros acc; cbn [uint_value Pos.of_uint_acc];
    try reflexivity;
    match goal with
    | |- uint_value _ ?a = _ =>
        match goal with
        | |- _ = Z.pos (Pos.of_uint_acc _ ?b) =>
            replace a with (Z.pos b) by lia; apply IHd
        end
    end.
Qed.

Lemma uint_value_of_uint (d : Decimal.uint) :
  uint_value d 0 = Z.of_N (Pos.of_uint d).
Proof.
  induction d; cbn [uint_value Pos.of_uint Z.of_N]; try reflexivity;
    try exact IHd;
    match goal with
    | |- uint_value _ ?a = Z.pos (Pos.of_uint_acc _ ?b) =>
        change a with (Z.pos b); apply uint_value_acc
    end.
Qed.

Lemma take_digits_uint (d : Decimal.uint) (acc cnt : Z) :
  exists n, 0 <= n /\
  PyFloat.take_digits (NilEmpty.string_of_uint d) acc cnt = (uint_value d acc, cnt + n, "") /\
  (d <> Decimal.Nil -> 0 < n).
Proof.
  revert acc cnt. induction d; intros acc cnt;
    cbn [NilEmpty.string_of_uint PyFloat.take_digits uint_value].
  1: { exists 0. split; [lia|]. split; [f_equal; f_equal; lia|]. intros H; contradiction H; reflexivity. }
  all: match goal with
       | IH : forall acc cnt, exists n, _ |- context [uint_value _ ?a] =>
           destruct (IH a (cnt + 1)) as [n [Hn [Ht _]]]
       end;
       exists (n + 1); split; [lia|]; split; [|intros _; lia];
       change (is_digit _) with true; cbv iota;
       match type of Ht with
       | PyFloat.take_digits _ ?a _ = _ =>
           match goal with
           | |- PyFloat.take_digits _ ?b _ = _ =>
               replace b with a by (cbn; lia)
           end
       end;
       rewrite Ht; f_equal; f_equal; lia.
Qed.

Lemma digit_facts (c : ascii) :
  is_digit c = true ->
  PyFloat.is_char "_" c = false /\ is_space c = false /\ Ascii.eqb c "," = false /\
  PyFloat.is_char "-" c = false /\ PyFloat.is_char "+" c = false /\
  Ascii.eqb (to_lower c) "i" = false /\ Ascii.eqb (to_lower c) "n" = false.
Proof.
  destruct c as [[] [] [] [] [] [] [] []]; vm_compute; intros H;
    try discriminate H; repeat split; reflexivity.
Qed.

Lemma all_digits_uint (d : Decimal.uint) :
  all_digits (NilEmpty.string_of_uint d) = true.
Proof. induction d; cbn [NilEmpty.string_of_uint all_digits]; auto. Qed.

Lemma digits_replace (s : string) :
  all_digits s = true -> replace_char "," "." s = s.
Proof.
  induction s as [|c s IH]; [reflexivity|]. cbn [all_digits replace_char].
  intros H. apply andb_prop in H. destruct H as [Hc Hs].
  destruct (digit_facts c Hc) as (_ & _ & -> & _). rewrite (IH Hs). reflexivity.
Qed.

Lemma digits_strip_underscores (s : string) (prev : ascii) :
  all_digits s = true -> PyFloat.is_char "_" prev = false ->
  PyFloat.strip_underscores prev s = Some s.
Proof.
  revert prev. induction s as [|c s IH]; intros prev Hs Hp.
  - cbn [PyFloat.strip_underscores]. rewrite Hp. reflexivity.
  - cbn [all_digits] in Hs. apply andb_prop in Hs. destruct Hs as [Hc Hs].
    destruct (digit_facts c Hc) as (Hu & _).
    cbn [PyFloat.strip_underscores]. rewrite Hu, Hp. cbn [andb].
    rewrite (IH c Hs Hu). reflexivity.
Qed.

Lemma digits_rstrip (s : string) : all_digits s = true -> rstrip s = s.
Proof.
  induction s as [|c s IH]; [reflexivity|]. cbn [all_digits rstrip].
  intros H. apply andb_prop in H. destruct H as [Hc Hs].
  destruct (digit_facts c Hc) as (_ & Hsp & _). rewrite (IH Hs), Hsp.
  destruct s; reflexivity.
Qed.

Lemma parse_digits (neg : bool) (c : ascii) (r : string) (v n : Z) :
  all_digits (String c r) = true ->
  PyFloat.take_digits (String c r) 0 0 = (v, n, "") -> 0 < n ->
  PyFloat.of_string (if neg then String "-" (String c r) else String c r)
  = Some (PyFloat.div_round neg v 1).
Proof.
  intros Hd Ht Hn.
  assert (Hc : is_digit c = true) by (cbn [all_digits] in Hd; apply andb_prop in Hd; apply Hd).
  destruct (digit_facts c Hc) as (Hu & Hsp & _ & Hm & Hp & Hi & Hnn).
  assert (Hcore : forall body,
             body = (if neg then String "-" (String c r) else String c r) ->
             PyFloat.parse_inf_nan body = None /\
             PyFloat.parse_number body = Some (PyFloat.div_round neg v 1)).
  { intros body ->.
    assert (Hsign : PyFloat.take_sign (if neg then String "-" (String c r) else String c r)
                    = (neg, String c r)).
    { destruct neg; [reflexivity|]. cbn [PyFloat.take_sign]. rewrite Hm, Hp. reflexivity. }
    split.
    - unfold PyFloat.parse_inf_nan. rewrite Hsign. cbn [lower String.eqb].
      rewrite Hi, Hnn. reflexivity.
    - unfold PyFloat.parse_number. rewrite Hsign, Ht.
      replace (n + 0 =? 0) with false by (symmetry; apply Z.eqb_neq; lia).
      unfold PyFloat.of_decimal. cbn [Z.opp Z.leb Z.compare Z.pow Z.pow_pos Pos.iter].
      rewrite Z.mul_1_r. reflexivity. }
  unfold PyFloat.of_string.
  destruct neg.
  - change (PyFloat.strip_underscores "000" (String "-" (String c r)))
      with (option_map (String "-") (PyFloat.strip_underscores "-" (String c r))).
    rewrite (digits_strip_underscores (String c r) "-" Hd eq_refl). cbn [option_map].
    change (lstrip (String "-" (String c r))) with (String "-" (String c r)).
    cbv beta iota zeta.
    assert (Hr : rstrip (String "-" (String c r)) = String "-" (String c r)).
    { cbn [rstrip]. change (rstrip (String c r)) with
        (match rstrip r with
         | EmptyString => if is_space c then EmptyString else String c EmptyString
         | String a b => String c (String a b)
         end).
      pose proof (digits_rstrip (String c r) Hd) as H. cbn [rstrip] in H. rewrite H.
      reflexivity. }
    rewrite Hr. destruct (Hcore _ eq_refl) as [-> ->]. reflexivity.
  - rewrite (digits_strip_underscores (String c r) "000" Hd eq_refl).
    cbn [lstrip]. rewrite Hsp.
    rewrite (digits_rstrip (String c r) Hd).
    destruct (Hcore _ eq_refl) as [-> ->]. reflexivity.
Qed.

Lemma pos_digits (p : positive) :
  exists c r n,
    NilZero.string_of_uint (Pos.to_uint p) = String c r /\
    all_digits (String c r) = true /\
    PyFloat.take_digits (String c r) 0 0 = (Z.pos p, n, "") /\ 0 < n.
Proof.
  assert (Hv : uint_value (Pos.to_uint p) 0 = Z.pos p).
  { rewrite uint_value_of_uint, DecimalPos.Unsigned.of_to. reflexivity. }
  destruct (take_digits_uint (Pos.to_uint p) 0 0) as [n [_ [Ht Hn]]].
  pose proof (all_digits_uint (Pos.to_uint p)) as Hd.
  rewrite Hv in Ht.
  destruct (Pos.to_uint p) as [|u|u|u|u|u|u|u|u|u|u] eqn:E;
    [cbn [uint_value] in Hv; discriminate Hv|..];
    eexists; eexists; exists (0 + n);
    (split; [reflexivity|]); (split; [exact Hd|]); (split; [exact Ht|]);
    assert (0 < n) by (apply Hn; discriminate); lia.
Qed.

Lemma string_of_Z_parses (z : Z) :
  replace_char "," "." (string_of_Z z) = string_of_Z z /\
  PyFloat.of_string (string_of_Z z) = Some (PyFloat.of_Z z).
Proof.
  destruct z as [|p|p].
  - split; vm_compute; reflexivity.
  - destruct (pos_digits p) as (c & r & n & Hs & Hd & Ht & Hn).
    unfold string_of_Z. cbn [Z.to_int NilZero.string_of_int]. rewrite Hs.
    split; [apply digits_replace; exact Hd|].
    apply (parse_digits false c r (Z.pos p) n Hd Ht Hn).
  - destruct (pos_digits p) as (c & r & n & Hs & Hd & Ht & Hn).
    unfold string_of_Z. cbn [Z.to_int NilZero.string_of_int]. rewrite Hs.
    split.
    + cbn [replace_char]. change (Ascii.eqb "-" ",") with false. cbv iota.
      f_equal. apply (digits_replace (String c r) Hd).
    + apply (parse_digits true c r (Z.pos p) n Hd Ht Hn).
Qed.

Lemma rstrip_head (c : ascii) (r : string) :
  is_space c = false -> exists r', rstrip (String c r) = String c r'.
Proof.
  intros H. cbn [rstrip]. destruct (rstrip r); rewrite ?H; eexists; reflexivity.
Qed.

(** A text cannot be a number when it starts with a character that is
    neither a blank, a sign, a digit, a point nor one of i, I, n, N. *)
Lemma of_string_bad_start (c : ascii) (r : string) :
  is_space c = false -> PyFloat.is_char "_" c = false -> is_digit c = false ->
  PyFloat.is_char "-" c = false -> PyFloat.is_char "+" c = false ->
  PyFloat.is_char "." c = false ->
  Ascii.eqb (to_lower c) "i" = false -> Ascii.eqb (to_lower c) "n" = false ->
  PyFloat.of_string (String c r) = None.
Proof.
  intros Hsp Hu Hd Hm Hp Hdot Hi Hn.
  unfold PyFloat.of_string. cbn [PyFloat.strip_underscores]. rewrite Hu. cbn [andb].
  destruct (PyFloat.strip_underscores c r) as [r1|]; [|reflexivity].
  change (PyFloat.is_char "_" "000") with false. cbn [andb option_map lstrip].
  rewrite Hsp.
  destruct (rstrip_head c r1 Hsp) as [r2 ->].
  unfold PyFloat.parse_inf_nan, PyFloat.parse_number.
  cbn [PyFloat.take_sign]. rewrite Hm, Hp.
  cbn [lower String.eqb]. rewrite Hi, Hn. cbn [andb orb].
  cbn [PyFloat.take_digits]. rewrite Hd, Hdot. reflexivity.
Qed.

(** X16. A value is read by its text, whatever its JSON type: an integer
    [z] (of at most 4300 digits, the longest that [str] writes) is read as
    the double nearest to [z], while null, a boolean, a list or an object
    is refused with the error of [float()], never taken for a number. *)
Theorem values_by_json_type :
  (forall z, Z.abs z < 10 ^ PyInt.MAX_STR_DIGITS ->
             coerce_and_parse (VInt z) = Ok (PyFloat.of_Z z)) /\
  (forall z, Z.abs z < 10 ^ PyInt.MAX_STR_DIGITS ->
             res (get_hopper_kg_data (VDict (payload_front (VInt z))) tt)
             = Ok (PyFloat.of_Z z)) /\
  (forall v,
      not_numeric v = true ->
      coerce_and_parse v
      = Raise (ValueError ("could not convert string to float: "
                           ++ repr (replace_char "," "." (py_str v))))).
Proof.
  assert (Hint : forall z, coerce_and_parse (VInt z) = Ok (PyFloat.of_Z z)).
  { intros z. unfold coerce_and_parse, py_float, py_str. cbn [py_repr].
    destruct (string_of_Z_parses z) as [-> ->]. reflexivity. }
  split; [intros z _; apply Hint|]. split.
  - intros z _.
    rewrite (front_hit (payload_front (VInt z)) (hoppercontent_item (VInt z)));
      [apply Hint|reflexivity|reflexivity].
  - intros v Hv. unfold coerce_and_parse, py_float.
    assert (Hnone : PyFloat.of_string (replace_char "," "." (py_str v)) = None).
    { destruct v as [| b | z | x | s | items | d]; try discriminate Hv.
      - reflexivity.
      - destruct b; reflexivity.
      - cbn [py_str py_repr append replace_char].
        apply of_string_bad_start; reflexivity.
      - cbn [py_str py_repr append replace_char].
        apply of_string_bad_start; reflexivity. }
    rewrite Hnone. reflexivity.
Qed.


(** *** The configuration *)

Lemma check_level_known (name : string) :
  check_level name = Ok tt <-> In name level_names.
Proof.
  unfold check_level.
  destruct (existsb (String.eqb name) level_names) eqn:E.
  - split; [intros _|reflexivity].
    apply existsb_exists in E. destruct E as (x & Hin & Hx).
    apply String.eqb_eq in Hx. subst x. exact Hin.
  - split; [discriminate|]. intros Hin. exfalso.
    assert (H : existsb (String.eqb name) level_names = true).
    { apply existsb_exists. exists name. split; [exact Hin|apply String.eqb_refl]. }
    congruence.
Qed.

(** X17. The module loads exactly when [LOG_LEVEL], or its default, is one
    of the names [logging] knows a level by (in capitals), the three
    required variables ([STOKERCLOUD_USER], [STOKERCLOUD_PASSWORD],
    [NTFY_TOPIC]) are set, to anything, and the threshold and the two
    intervals, or their defaults, parse as a float and as integers. An
    unknown level stops the import at line 7 with a [ValueError], whatever
    else is set. [NTFY_SERVER] and [MAX_CAPACITY_KG] are taken as they are,
    unset or unreadable included: nothing checks them at this point. *)
Theorem load_config_requirements (environ : Environ) :
  ((exists c, load_config environ = Ok c) <->
   In (getenv environ "LOG_LEVEL" "INFO") level_names /\
   environ "STOKERCLOUD_USER" <> None /\
   environ "STOKERCLOUD_PASSWORD" <> None /\
   environ "NTFY_TOPIC" <> None /\
   (exists x, py_float (getenv environ "LOW_THRESHOLD_KG" "140") = Ok x) /\
   (exists n, PyInt.of_string (getenv environ "CHECK_INTERVAL_SECONDS" "60") = Ok n) /\
   (exists n, PyInt.of_string (getenv environ "MIN_ALERT_INTERVAL_MIN" "2") = Ok n)) /\
  (~ In (getenv environ "LOG_LEVEL" "INFO") level_names ->
   load_config environ
   = Raise (ValueError ("Unknown level: " ++ repr (getenv environ "LOG_LEVEL" "INFO")))) /\
  (forall c,
      load_config environ = Ok c ->
      NTFY_SERVER c = environ "NTFY_SERVER" /\
      MAX_CAPACITY_KG c = environ "MAX_CAPACITY_KG" /\
      environ "STOKERCLOUD_USER" = Some (STOKERCLOUD_USER c) /\
      environ "STOKERCLOUD_PASSWORD" = Some (STOKERCLOUD_PASSWORD c) /\
      environ "NTFY_TOPIC" = Some (NTFY_TOPIC c)).
Proof.
  unfold load_config, environ_item. cbv zeta.
  pose proof (check_level_known (getenv environ "LOG_LEVEL" "INFO")) as Hlv.
  destruct (check_level (getenv environ "LOG_LEVEL" "INFO")) as [[]|e] eqn:Hcheck; cbn [rbind].
  2: { assert (Hno : ~ In (getenv environ "LOG_LEVEL" "INFO") level_names).
       { intros Hin. apply Hlv in Hin. discriminate Hin. }
       split; [split|split]; [intros [c H]; discriminate H
                             | intros [H _]; contradiction
                             | intros _; unfold check_level in Hcheck;
                               destruct (existsb _ level_names);
                               [discriminate Hcheck|injection Hcheck as <-; reflexivity]
                             | intros c H; discriminate H]. }
  assert (Hin : In (getenv environ "LOG_LEVEL" "INFO") level_names)
    by (apply Hlv; reflexivity).
  clear Hlv Hcheck.
  destruct (environ "STOKERCLOUD_USER") as [user|]; cbn [rbind].
  2: { split; [split|split]; [intros [c H]; discriminate H
                             | intros (_ & H & _); contradiction H; reflexivity
                             | intros H; contradiction
                             | intros c H; discriminate H]. }
  destruct (environ "STOKERCLOUD_PASSWORD") as [password|]; cbn [rbind].
  2: { split; [split|split]; [intros [c H]; discriminate H
                             | intros (_ & _ & H & _); contradiction H; reflexivity
                             | intros H; contradiction
                             | intros c H; discriminate H]. }
  destruct (py_float (getenv environ "LOW_THRESHOLD_KG" "140")) as [low|e]; cbn [rbind].
  2: { split; [split|split]; [intros [c H]; discriminate H
                             | intros (_ & _ & _ & _ & [x H] & _); discriminate H
                             | intros H; contradiction
                             | intros c H; discriminate H]. }
  destruct (PyInt.of_string (getenv environ "CHECK_INTERVAL_SECONDS" "60")) as [check|e];
    cbn [rbind].
  2: { split; [split|split]; [intros [c H]; discriminate H
                             | intros (_ & _ & _ & _ & _ & [x H] & _); discriminate H
                             | intros H; contradiction
                             | intros c H; discriminate H]. }
  destruct (environ "NTFY_TOPIC") as [topic|]; cbn [rbind].
  2: { split; [split|split]; [intros [c H]; discriminate H
                             | intros (_ & _ & _ & H & _); contradiction H; reflexivity
                             | intros H; contradiction
                             | intros c H; discriminate H]. }
  destruct (PyInt.of_string (getenv environ "MIN_ALERT_INTERVAL_MIN" "2")) as [minutes|e];
    cbn [rbind].
  2: { split; [split|split]; [intros [c H]; discriminate H
                             | intros (_ & _ & _ & _ & _ & _ & [x H]); discriminate H
                             | intros H; contradiction
                             | intros c H; discriminate H]. }
  split; [split|split].
  - intros _. split; [exact Hin|]. repeat split; try discriminate; eexists; reflexivity.
  - intros _. eexists; reflexivity.
  - intros H; contradiction.
  - intros c H. injection H as <-. cbn. repeat split; reflexivity.
Qed.

(** X18. With the three required variables set and nothing else, the
    constants take the defaults of the module: a threshold of 140.0 kg, a
    poll every 60 s, two minutes between alerts, priority "4", the default
    title and URLs, no capacity and no notification server. *)
Theorem load_config_defaults (environ : Environ) (user password topic : string) :
  environ "STOKERCLOUD_USER" = Some user ->
  environ "STOKERCLOUD_PASSWORD" = Some password ->
  environ "NTFY_TOPIC" = Some topic ->
  (forall name,
      name <> "STOKERCLOUD_USER" -> name <> "STOKERCLOUD_PASSWORD" ->
      name <> "NTFY_TOPIC" -> environ name = None) ->
  load_config environ
  = Ok {| STOKERCLOUD_LOGIN_URL := "https://stokercloud.dk/v2/dataout2/login.php";
          STOKERCLOUD_ACCEPT_TERMS_URL := "https://stokercloud.dk/v2/dataout2/acceptterms.php";
          STOKERCLOUD_CONTROLLERDATA_URL :=
            "https://stokercloud.dk/v2/dataout2/controllerdata2.php";
          STOKERCLOUD_USER := user;
          STOKERCLOUD_PASSWORD := password;
          STOKERCLOUD_SCREEN := DEFAULT_SCREEN_PARAM;
          LOW_THRESHOLD_KG := PyFloat.of_Z 140;
          CHECK_INTERVAL := 60;
          MAX_CAPACITY_KG := None;
          NTFY_SERVER := None;
          NTFY_TOPIC := topic;
          NTFY_TITLE := "Stoker hopper low";
          NTFY_PRIORITY := "4";
          MIN_ALERT_INTERVAL_MIN := 2 |}.
Proof.
  intros Hu Hp Ht Hrest.
  assert (Hnone : forall name,
            String.eqb name "STOKERCLOUD_USER" = false ->
            String.eqb name "STOKERCLOUD_PASSWORD" = false ->
            String.eqb name "NTFY_TOPIC" = false -> environ name = None).
  { intros name H1 H2 H3. apply Hrest; apply String.eqb_neq; assumption. }
  unfold load_config, environ_item, getenv. cbv zeta.
  rewrite Hu, Hp, Ht.
  rewrite !Hnone by reflexivity.
  vm_compute. reflexivity.
Qed.

(** *** Decimal separators *)

Lemma dot_facts (c : ascii) :
  Ascii.eqb c "." = true ->
  is_space c = false /\ is_digit c = false /\ PyFloat.is_char "_" c = false /\
  PyFloat.is_char "-" c = false /\ PyFloat.is_char "+" c = false.
Proof.
  intros H. apply Ascii.eqb_eq in H. subst c. repeat split; reflexivity.
Qed.

Lemma lower_dot (c : ascii) : Ascii.eqb (to_lower c) "." = Ascii.eqb c ".".
Proof. destruct c as [[] [] [] [] [] [] [] []]; reflexivity. Qed.

Lemma dots_strip_underscores (s : string) :
  forall prev s1, PyFloat.strip_underscores prev s = Some s1 ->
                  count_char "." s1 = count_char "." s.
Proof.
  induction s as [|c s IH]; intros prev s1; cbn [PyFloat.strip_underscores].
  - destruct (PyFloat.is_char "_" prev); intros H; [discriminate|].
    injection H as <-. reflexivity.
  - destruct (PyFloat.is_char "_" c) eqn:Hu.
    + destruct (is_digit prev); [|discriminate]. intros H.
      cbn [count_char]. unfold PyFloat.is_char in Hu. apply Ascii.eqb_eq in Hu. subst c.
      cbn. apply (IH _ _ H).
    + destruct (PyFloat.is_char "_" prev && negb (is_digit c)); [discriminate|].
      destruct (PyFloat.strip_underscores c s) as [r|] eqn:E; [|discriminate].
      cbn [option_map]. intros H. injection H as <-.
      cbn [count_char]. rewrite (IH _ _ E). reflexivity.
Qed.

Lemma dots_lstrip (s : string) : count_char "." (lstrip s) = count_char "." s.
Proof.
  induction s as [|c s IH]; [reflexivity|]. cbn [lstrip].
  destruct (is_space c) eqn:Hs; [|reflexivity].
  cbn [count_char]. rewrite IH.
  destruct (Ascii.eqb c ".") eqn:Hd; [|reflexivity].
  destruct (dot_facts c Hd) as [H _]. congruence.
Qed.

Lemma dots_rstrip (s : string) : count_char "." (rstrip s) = count_char "." s.
Proof.
  induction s as [|c s IH]; [reflexivity|]. cbn [rstrip].
  destruct (rstrip s) as [|a r] eqn:E.
  - cbn [count_char] in IH. cbn [count_char]. rewrite <- IH.
    destruct (is_space c) eqn:Hs; cbn [count_char]; [|reflexivity].
    destruct (Ascii.eqb c ".") eqn:Hd; [|reflexivity].
    destruct (dot_facts c Hd) as [H _]. congruence.
  - cbn [count_char]. cbn [count_char] in IH. rewrite IH. reflexivity.
Qed.

Lemma dots_take_sign (s : string) :
  count_char "." (snd (PyFloat.take_sign s)) = count_char "." s.
Proof.
  destruct s as [|c s]; [reflexivity|]. cbn [PyFloat.take_sign].
  destruct (PyFloat.is_char "-" c) eqn:Hm.
  - cbn [snd count_char]. destruct (Ascii.eqb c ".") eqn:Hd; [|reflexivity].
    destruct (dot_facts c Hd) as (_ & _ & _ & H & _). congruence.
  - destruct (PyFloat.is_char "+" c) eqn:Hp; [|reflexivity].
    cbn [snd count_char]. destruct (Ascii.eqb c ".") eqn:Hd; [|reflexivity].
    destruct (dot_facts c Hd) as (_ & _ & _ & _ & H). congruence.
Qed.

Lemma dots_lower (s : string) : count_char "." (lower s) = count_char "." s.
Proof.
  induction s as [|c s IH]; [reflexivity|].
  cbn [lower count_char]. rewrite lower_dot, IH. reflexivity.
Qed.

Lemma dots_take_digits (s : string) :
  forall acc cnt v n rest,
    PyFloat.take_digits s acc cnt = (v, n, rest) ->
    count_char "." rest = count_char "." s.
Proof.
  induction s as [|c s IH]; intros acc cnt v n rest; cbn [PyFloat.take_digits].
  - intros H. injection H as _ _ <-. reflexivity.
  - destruct (is_digit c) eqn:Hd.
    + intros H. rewrite (IH _ _ _ _ _ H). cbn [count_char].
      destruct (Ascii.eqb c ".") eqn:Hdot; [|reflexivity].
      destruct (dot_facts c Hdot) as (_ & H' & _). congruence.
    + intros H. injection H as _ _ <-. reflexivity.
Qed.

Lemma dots_parse_inf_nan (s : string) (x : spec_float) :
  PyFloat.parse_inf_nan s = Some x -> count_char "." s = O.
Proof.
  unfold PyFloat.parse_inf_nan.
  pose proof (dots_take_sign s) as Hs.
  destruct (PyFloat.take_sign s) as [neg body]. cbn [snd] in Hs.
  rewrite <- Hs, <- dots_lower.
  destruct (String.eqb (lower body) "inf") eqn:E1.
  { apply String.eqb_eq in E1. rewrite E1. reflexivity. }
  destruct (String.eqb (lower body) "infinity") eqn:E2.
  { apply String.eqb_eq in E2. rewrite E2. reflexivity. }
  cbn [orb].
  destruct (String.eqb (lower body) "nan") eqn:E3; [|discriminate].
  apply String.eqb_eq in E3. rewrite E3. reflexivity.
Qed.

Lemma dots_parse_exponent (s : string) (e : Z) :
  PyFloat.parse_exponent s = Some e -> count_char "." s = O.
Proof.
  unfold PyFloat.parse_exponent.
  pose proof (dots_take_sign s) as Hs.
  destruct (PyFloat.take_sign s) as [neg body]. cbn [snd] in Hs. rewrite <- Hs.
  destruct (PyFloat.take_digits body 0 0) as [[v n] rest] eqn:Ht.
  pose proof (dots_take_digits _ _ _ _ _ _ Ht) as Hd. rewrite <- Hd.
  destruct (n =? 0); [discriminate|].
  destruct rest; [reflexivity|discriminate].
Qed.

Lemma dots_parse_number (s : string) (x : spec_float) :
  PyFloat.parse_number s = Some x -> (count_char "." s <= 1)%nat.
Proof.
  unfold PyFloat.parse_number.
  pose proof (dots_take_sign s) as Hs.
  destruct (PyFloat.take_sign s) as [neg s1]. cbn [snd] in Hs. rewrite <- Hs.
  destruct (PyFloat.take_digits s1 0 0) as [[ip ni] s2] eqn:Ht.
  rewrite <- (dots_take_digits _ _ _ _ _ _ Ht).
  assert (Hrest : forall mant nf s3 (y : spec_float),
            (if ni + nf =? 0 then None
             else match s3 with
                  | EmptyString => Some (PyFloat.of_decimal neg mant (- nf))
                  | String c rest =>
                      if PyFloat.is_char "e" c || PyFloat.is_char "E" c
                      then match PyFloat.parse_exponent rest with
                           | Some ex => Some (PyFloat.of_decimal neg mant (ex - nf))
                           | None => None
                           end
                      else None
                  end) = Some y ->
            count_char "." s3 = O).
  { intros mant nf s3 y. destruct (ni + nf =? 0); [discriminate|].
    destruct s3 as [|c rest]; [reflexivity|].
    destruct (PyFloat.is_char "e" c || PyFloat.is_char "E" c) eqn:He; [|discriminate].
    destruct (PyFloat.parse_exponent rest) as [ex|] eqn:Hx; [|discriminate].
    intros _. cbn [count_char]. rewrite (dots_parse_exponent _ _ Hx).
    destruct (Ascii.eqb c ".") eqn:Hd; [|reflexivity].
    apply Ascii.eqb_eq in Hd. subst c. discriminate He. }
  destruct s2 as [|c rest].
  - intros _. cbn. lia.
  - destruct (PyFloat.is_char "." c) eqn:Hdot.
    + destruct (PyFloat.take_digits rest ip 0) as [[mant nf] s3] eqn:Ht2.
      intros H. pose proof (Hrest mant nf s3 x H) as H'.
      rewrite (dots_take_digits _ _ _ _ _ _ Ht2) in H'.
      cbn [count_char]. rewrite H'. destruct (Ascii.eqb c "."); lia.
    + intros H. pose proof (Hrest ip 0 (String c rest) x H) as H'. rewrite H'. lia.
Qed.

Lemma of_string_one_point (s : string) (x : spec_float) :
  PyFloat.of_string s = Some x -> (count_char "." s <= 1)%nat.
Proof.
  unfold PyFloat.of_string.
  destruct (PyFloat.strip_underscores "000" s) as [s1|] eqn:E1; [|discriminate].
  rewrite <- (dots_strip_underscores _ _ _ E1), <- dots_lstrip.
  destruct (lstrip s1) as [|c r]; [discriminate|].
  rewrite <- dots_rstrip.
  destruct (PyFloat.parse_inf_nan (rstrip (String c r))) as [y|] eqn:E2.
  - intros _. rewrite (dots_parse_inf_nan _ _ E2). lia.
  - apply dots_parse_number.
Qed.

Lemma dots_replace (s : string) :
  count_char "." (replace_char "," "." s) = separators s.
Proof.
  unfold separators. induction s as [|c s IH]; [reflexivity|].
  cbn [replace_char count_char]. rewrite IH.
  destruct (Ascii.eqb c ",") eqn:Hc.
  - apply Ascii.eqb_eq in Hc. subst c. cbn. lia.
  - destruct (Ascii.eqb c "."); lia.
Qed.

(** X19. A value written with more than one decimal separator, commas and
    points counted together (a thousands separator beside a decimal one,
    as in "1.234,5"), is never read as a number: every comma becomes a
    point and [float()] refuses the result with a [ValueError] that
    quotes it. *)
Theorem grouped_number_is_rejected (d : list (string * value)) (raw : string) :
  field d "value" VNone = VStr raw ->
  (2 <= separators raw)%nat ->
  read_value (VDict d) =
  Raise (ValueError ("could not convert string to float: "
                     ++ repr (replace_char "," "." raw))).
Proof.
  intros Hv Hsep. rewrite read_value_dict. unfold value_of.
  rewrite get_of_dict, Hv. unfold coerce_and_parse, py_float. cbn [py_str].
  destruct (PyFloat.of_string (replace_char "," "." raw)) as [x|] eqn:E; [|reflexivity].
  apply of_string_one_point in E. rewrite dots_replace in E. lia.
Qed.

End Program.

(** ** The properties on concrete runs *)

#[local] Abbreviation run_cycle := (cycle sample_float_repr Script scripted sample_config).
#[local] Abbreviation run_extract := (get_hopper_kg_data sample_float_repr).

(** The decision at the default interval of two minutes: exactly 120 s
    after the last alert it is positive, one microsecond earlier it is
    not. *)
Lemma decide_iff_witness :
  is_double kg_139_9 /\
  is_double (LOW_THRESHOLD_KG sample_config) /\
  - 286331153 <= MIN_ALERT_INTERVAL_MIN sample_config <= 286331153 /\
  float_le kg_139_9 (LOW_THRESHOLD_KG sample_config) /\
  decide sample_config kg_139_9 (Some T0) (T0 + 120000000) = true /\
  decide sample_config kg_139_9 (Some T0) (T0 + 120000000 - 1) = false.
Proof.
  assert (Hr : is_double kg_139_9) by reflexivity.
  assert (Ht : is_double (LOW_THRESHOLD_KG sample_config)) by reflexivity.
  assert (Hm : - 286331153 <= MIN_ALERT_INTERVAL_MIN sample_config <= 286331153)
    by (cbn [MIN_ALERT_INTERVAL_MIN sample_config]; lia).
  assert (Hle : float_le kg_139_9 (LOW_THRESHOLD_KG sample_config))
    by (vm_compute; discriminate).
  split; [exact Hr|]. split; [exact Ht|]. split; [exact Hm|]. split; [exact Hle|].
  split.
  - apply (proj1 (decide_iff sample_config kg_139_9 (Some T0) (T0 + 120000000) Hr Ht Hm)).
    split; [exact Hle|]. right. exists T0. split; [reflexivity|].
    cbn [MIN_ALERT_INTERVAL_MIN sample_config]. lia.
  - apply (proj2 (decide_iff sample_config kg_139_9 (Some T0) (T0 + 120000000 - 1) Hr Ht Hm)).
    right. exists T0. split; [reflexivity|].
    cbn [MIN_ALERT_INTERVAL_MIN sample_config]. lia.
Defined.

(** C1, refuted as stated: with a minimum interval of 286331154 minutes the
    reading 139.9 kg alerts one microsecond before the interval has passed.
    The elapsed time is compared as the double [total_seconds()] gives, and
    at this size the double next below the interval is farther away than a
    microsecond. *)
Lemma alert_one_microsecond_early :
  let interval := MIN_ALERT_INTERVAL_MIN config_long_interval * 60 * 1000000 in
  let now := T0 + interval - 1 in
  now - T0 < interval /\
  float_le kg_139_9 (LOW_THRESHOLD_KG config_long_interval) /\
  decide config_long_interval kg_139_9 (Some T0) now = true.
Proof.
  cbv zeta. split; [vm_compute; reflexivity|].
  split; [vm_compute; discriminate|]. vm_compute. reflexivity.
Qed.

Lemma extraction_first_match_wins_witness :
  payload_typed (payload_both (VStr "123,4") (VStr "87.0")) = true /\
  chosen_entry (payload_both (VStr "123,4") (VStr "87.0"))
  = Some (hoppercontent_item (VStr "123,4")) /\
  res (run_extract (VDict (payload_both (VStr "123,4") (VStr "87.0"))) tt)
  = coerce_and_parse sample_float_repr (value_of (hoppercontent_item (VStr "123,4"))).
Proof.
  split; [reflexivity|]. split; [reflexivity|].
  exact (proj1 (extraction_first_match_wins sample_float_repr
                  (payload_both (VStr "123,4") (VStr "87.0")) eq_refl)).
Defined.

(** Neither field present, and neither field a list. *)
Lemma extraction_failure_reports_raw_witness :
  payload_typed [("frontdata", VStr "n/a"); ("hopperdata", VNone)] = true /\
  chosen_entry [("frontdata", VStr "n/a"); ("hopperdata", VNone)] = None /\
  exists msg,
    res (run_extract (VDict [("frontdata", VStr "n/a"); ("hopperdata", VNone)]) tt)
    = Raise (RuntimeError msg) /\
    PyStr.includes msg "'n/a'" /\ PyStr.includes msg "None".
Proof.
  split; [reflexivity|]. split; [reflexivity|].
  exact (extraction_failure_reports_raw sample_float_repr
           [("frontdata", VStr "n/a"); ("hopperdata", VNone)] eq_refl eq_refl).
Defined.

(** C3, refuted as stated: [frontdata] holds an entry that is no object and
    has no match, [hopperdata] holds a match. The claim's choice is the
    [hopperdata] entry; the code stops at the first entry of [frontdata]
    with an attribute error and never reads it. *)
Lemma nonobject_entry_blocks_fallback :
  let entries := [("frontdata", VList [VInt 7]);
                  ("hopperdata", VList [lng_kg_item (VStr "87.0")])] in
  first_entry is_hoppercontent (field entries "frontdata" (VList [])) = None /\
  chosen_entry entries = Some (lng_kg_item (VStr "87.0")) /\
  coerce_and_parse sample_float_repr (value_of (lng_kg_item (VStr "87.0")))
  = Ok (S754_finite false 6122080743456768 (-46)) /\
  run_extract (VDict entries) tt
  = Outcome [EvLog DEBUG "controllerdata top-level keys: ['frontdata', 'hopperdata']"] tt
      (Raise (AttributeError "int" "get")).
Proof. vm_compute. repeat split; reflexivity. Qed.

(** C4, refuted as stated: neither source yields a value, [hopperdata]
    holding a number where an entry should be. The error is the attribute
    error of that entry, and its text holds neither raw field. *)
Lemma failure_without_raw_contents :
  let entries := [("hopperdata", VList [VInt 5])] in
  chosen_entry entries = None /\
  res (run_extract (VDict entries) tt) = Raise (AttributeError "int" "get") /\
  exn_class (AttributeError "int" "get") = "AttributeError" /\
  exn_text (AttributeError "int" "get") = "'int' object has no attribute 'get'".
Proof. vm_compute. repeat split; reflexivity. Qed.

(** An entry without a value, with a usable [hopperdata] beside it. *)
Lemma unparseable_front_value_raises_witness :
  let entries := [("frontdata", VList [VDict [("id", VStr "hoppercontent")]]);
                  ("hopperdata", VList [lng_kg_item (VStr "87.0")])] in
  list_of_dicts (field entries "frontdata" (VList [])) = true /\
  first_entry is_hoppercontent (field entries "frontdata" (VList []))
  = Some (VDict [("id", VStr "hoppercontent")]) /\
  PyFloat.of_string "None" = None /\
  run_extract (VDict entries) tt
  = Outcome [EvLog DEBUG "controllerdata top-level keys: ['frontdata', 'hopperdata']"] tt
      (Raise (ValueError "could not convert string to float: 'None'")).
Proof.
  cbv zeta.
  split; [reflexivity|]. split; [reflexivity|]. split; [reflexivity|].
  exact (unparseable_front_value_raises sample_float_repr
           [("frontdata", VList [VDict [("id", VStr "hoppercontent")]]);
            ("hopperdata", VList [lng_kg_item (VStr "87.0")])]
           (VDict [("id", VStr "hoppercontent")]) eq_refl eq_refl eq_refl).
Defined.

(** Without a server the send raises to its caller, and the cycle around it
    logs the failure and leaves the time of the last alert unset. *)
Lemma send_ntfy_alert_without_server_witness :
  NTFY_SERVER config_without_server = None /\
  send_ntfy_alert Script scripted config_without_server kg_139_9 None (world_of [])
  = Outcome [] (world_of []) (Raise (AttributeError "NoneType" "rstrip")).
Proof.
  split; [reflexivity|].
  exact (send_ntfy_alert_without_server Script scripted config_without_server
           kg_139_9 None (world_of []) eq_refl).
Defined.

Lemma cycle_without_server :
  let o := cycle sample_float_repr Script scripted config_without_server (Some kg_500)
             (world_of [reading_reply "139,9"], locals0) in
  res o = Ok tt /\
  last (events o) (EvSleep 0)
  = EvLog ERROR "Final failure this cycle: 'NoneType' object has no attribute 'rstrip'" /\
  requests (events o) = [fetch_request config_without_server (VStr "abc")] /\
  last_alert_time (snd (state o)) = None.
Proof. vm_compute. repeat split; reflexivity. Qed.

(** C6, refuted as stated: the fetch gives 139.9 kg, no alert was sent
    before, the notification server answers 500. The send fails and is
    logged as failed, nothing is delivered, and the time of the last alert
    is set all the same. *)
Lemma failed_send_still_sets_timestamp :
  let o := run_cycle (Some kg_500)
             (world_of [reading_reply "139,9"; status_reply 500 "Internal Server Error"],
              locals0) in
  last_alert_time locals0 = None /\
  last_alert_time (snd (state o)) = Some T0 /\
  In (EvLog ERROR ("Failed to send ntfy alert: "
                   ++ "500 Server Error: Internal Server Error for url: https://ntfy.sh/stoker"))
     (events o) /\
  ~ delivered (events o).
Proof.
  vm_compute. split; [reflexivity|]. split; [reflexivity|]. split.
  - repeat ((left; reflexivity) || right).
  - intros H. repeat (destruct H as [H|H]; [discriminate H|]). exact H.
Qed.

Lemma timestamp_follows_send_attempt_witness :
  let w := world_of [reading_reply "139,9"; status_reply 500 "Internal Server Error"] in
  let o := run_cycle (Some kg_500) (w, locals0) in
  NTFY_SERVER sample_config = Some "https://ntfy.sh/" /\
  notifications (events o)
  = [alert_request sample_config "https://ntfy.sh/" kg_139_9
       (percent_remaining (Some kg_500) kg_139_9)] /\
  last_alert_time (snd (state o)) = Some T0.
Proof.
  cbv zeta. split; [reflexivity|].
  generalize (timestamp_follows_send_attempt sample_float_repr Script scripted
                sample_config "https://ntfy.sh/" (Some kg_500)
                (world_of [reading_reply "139,9"; status_reply 500 "Internal Server Error"])
                locals0 eq_refl).
  vm_compute. intros H. exact H.
Defined.

(** Three turns against a server that refuses every connection. *)
Lemma poll_loop_survives_failures_witness :
  let o := poll_loop sample_float_repr Script scripted sample_config (Some kg_500) 3
             (world_of [], locals0) in
  sleep_accepts Script scripted (CHECK_INTERVAL sample_config) /\
  res o = Ok tt /\
  sleeps (events o) = [60; 60; 60] /\
  (3 <= List.length (requests (events o)))%nat.
Proof.
  cbv zeta.
  assert (Hok : sleep_accepts Script scripted (CHECK_INTERVAL sample_config)).
  { split; [vm_compute; split; discriminate|]. intros w. reflexivity. }
  split; [exact Hok|].
  exact (proj2 (proj2 (proj2 (proj2
           (poll_loop_survives_failures sample_float_repr Script scripted
              sample_config (Some kg_500) Hok)))) 3%nat (world_of [], locals0)).
Defined.

(** C7, refuted as stated: with an interval of -1 s the first cycle runs
    and succeeds, the sleep after it raises, and the loop is left: three
    turns are asked for, one fetch is made and nothing is slept. *)
Lemma negative_interval_ends_loop :
  let o := poll_loop sample_float_repr Script scripted config_negative_interval
             (Some kg_500) 3
             (world_of [reading_reply "150"; reading_reply "150"; reading_reply "150"],
              locals0) in
  res (cycle sample_float_repr Script scripted config_negative_interval (Some kg_500)
         (world_of [reading_reply "150"; reading_reply "150"; reading_reply "150"],
          locals0)) = Ok tt /\
  res o = Raise (ValueError "sleep length must be non-negative") /\
  requests (events o) = [fetch_request config_negative_interval (VStr "abc")] /\
  sleeps (events o) = [].
Proof. vm_compute. repeat split; reflexivity. Qed.

Lemma percent_and_message_witness :
  LOW_THRESHOLD_KG sample_config = PyFloat.of_Z 140 /\
  py_float "139.9" = Ok kg_139_9 /\
  alert_message sample_config kg_139_9 (percent_remaining (Some kg_500) kg_139_9)
  = "Hopper low: 139.9 kg remaining (28.0% of capacity). Threshold: 140.0 kg.".
Proof.
  assert (Hlow : LOW_THRESHOLD_KG sample_config = PyFloat.of_Z 140) by (vm_compute; reflexivity).
  assert (Hread : py_float "139.9" = Ok kg_139_9) by (vm_compute; reflexivity).
  split; [exact Hlow|]. split; [exact Hread|].
  exact (proj1 (proj2 (proj2 (proj2 (proj2 (proj2
           (percent_and_message sample_config (Some kg_500) kg_139_9)))))
           Hlow kg_139_9 Hread)).
Defined.

(** The fetch fails and so does the login of the recovery. *)
Lemma failed_fetch_keeps_locals_witness :
  let w := world_of [status_reply 401 "Unauthorized"] in
  res (safe_get_hopper sample_float_repr Script scripted sample_config (token locals0) w)
  = Raise (Exn "ConnectionError" "connection refused") /\
  snd (state (run_cycle (Some kg_500) (w, locals0))) = locals0.
Proof.
  cbv zeta.
  assert (Hf : res (safe_get_hopper sample_float_repr Script scripted sample_config
                      (token locals0) (world_of [status_reply 401 "Unauthorized"]))
               = Raise (Exn "ConnectionError" "connection refused"))
    by (vm_compute; reflexivity).
  split; [exact Hf|].
  exact (proj1 (failed_fetch_keeps_locals sample_float_repr Script scripted sample_config
                  (Some kg_500) (world_of [status_reply 401 "Unauthorized"]) locals0 _ Hf)).
Defined.

(** The end-to-end scenario of the specification: login, then two turns
    with 139.9 kg in the hopper. The first turn alerts; the second, a
    minute later and inside the cooldown, does not. *)
Lemma end_to_end_scenario :
  let o := main sample_float_repr Script scripted sample_config 2
             (world_of [json_reply (VDict [("token", VStr "abc")]);
                        status_reply 200 "OK";
                        reading_reply "139,9";
                        status_reply 200 "OK";
                        reading_reply "139,9"]) in
  res o = Ok {| token := VStr "abc"; last_alert_time := Some T0 |} /\
  notifications (events o)
  = [alert_request sample_config "https://ntfy.sh/" kg_139_9
       (percent_remaining (Some kg_500) kg_139_9)] /\
  sleeps (events o) = [60; 60] /\
  last (events o) (EvSleep 0) = EvSleep 60 /\
  In (EvLog INFO "Hopper low but last alert was recent; skipping alert.") (events o).
Proof.
  vm_compute. repeat split; try reflexivity.
  repeat ((left; reflexivity) || right).
Qed.

(** ** The further properties on concrete runs *)

(** A login page answered in place of JSON. *)
Lemma login_reports_bad_body_witness :
  let w := world_of [status_reply 200 "OK"] in
  let o := login_and_get_token sample_float_repr Script scripted sample_config w in
  snd (perform scripted (login_request sample_config) w) = status_reply 200 "OK" /\
  res o = Raise (Exn "JSONDecodeError" "Expecting value") /\
  In (EvLog ERROR "Login did not return JSON, got: ''") (events o).
Proof.
  cbv zeta. split; [reflexivity|].
  generalize (proj2 (login_reports_bad_body sample_float_repr Script scripted sample_config
                       (world_of [status_reply 200 "OK"]) _ eq_refl)
                eq_refl _ eq_refl).
  intros (Hres & Hlog & _). split; [exact Hres|exact Hlog].
Defined.

(** A match in second place, with an entry that is no object after it. *)
Lemma extraction_stops_at_first_match_witness :
  let pre := [VDict [("id", VStr "boilertemp"); ("value", VStr "61,5")]] in
  let hit := [("id", VStr "hoppercontent"); ("value", VStr "123,4")] in
  let entries := [("frontdata", VList (pre ++ VDict hit :: [VNone]));
                  ("hopperdata", VStr "n/a")] in
  passed_over is_hoppercontent pre = true /\
  is_hoppercontent (VDict hit) = true /\
  res (run_extract (VDict entries) tt)
  = coerce_and_parse sample_float_repr (value_of (VDict hit)).
Proof.
  cbv zeta. split; [reflexivity|]. split; [reflexivity|].
  exact (extraction_stops_at_first_match sample_float_repr
           [("frontdata",
             VList ([VDict [("id", VStr "boilertemp"); ("value", VStr "61,5")]]
                    ++ VDict [("id", VStr "hoppercontent"); ("value", VStr "123,4")]
                    :: [VNone]));
            ("hopperdata", VStr "n/a")]
           [VDict [("id", VStr "boilertemp"); ("value", VStr "61,5")]]
           [VNone]
           [("id", VStr "hoppercontent"); ("value", VStr "123,4")]
           eq_refl eq_refl eq_refl).
Defined.

(** A notification server that answers 500. *)
Lemma send_ntfy_alert_posts_once_witness :
  let w := world_of [status_reply 500 "Internal Server Error"] in
  NTFY_SERVER sample_config = Some "https://ntfy.sh/" /\
  send_ntfy_alert Script scripted sample_config kg_139_9 None w
  = Outcome [EvLog INFO "Sending ntfy alert to https://ntfy.sh/stoker";
             EvHttp (alert_request sample_config "https://ntfy.sh/" kg_139_9 None);
             EvLog ERROR ("Failed to send ntfy alert: 500 Server Error: "
                          ++ "Internal Server Error for url: https://ntfy.sh/stoker")]
            (world_of [])
            (Ok tt).
Proof.
  cbv zeta. split; [reflexivity|].
  generalize (send_ntfy_alert_posts_once Script scripted sample_config "https://ntfy.sh/"
                kg_139_9 None (world_of [status_reply 500 "Internal Server Error"]) eq_refl).
  vm_compute. intros H. exact H.
Defined.

(** The token has expired: the fetch is refused, the login gives a new
    token, and the notification that follows fails. *)
Lemma fetched_token_is_kept_witness :
  let w := world_of [status_reply 401 "Unauthorized";
                     json_reply (VDict [("token", VStr "new")]);
                     status_reply 200 "OK";
                     reading_reply "139,9";
                     status_reply 500 "Internal Server Error"] in
  res (safe_get_hopper sample_float_repr Script scripted sample_config (token locals0) w)
  = Ok (kg_139_9, VStr "new") /\
  token (snd (state (run_cycle (Some kg_500) (w, locals0)))) = VStr "new" /\
  token (snd (state (iteration sample_float_repr Script scripted sample_config
                       (Some kg_500) (w, locals0)))) = VStr "new".
Proof.
  cbv zeta.
  assert (Hf : res (safe_get_hopper sample_float_repr Script scripted sample_config
                      (token locals0)
                      (world_of [status_reply 401 "Unauthorized";
                                 json_reply (VDict [("token", VStr "new")]);
                                 status_reply 200 "OK";
                                 reading_reply "139,9";
                                 status_reply 500 "Internal Server Error"]))
               = Ok (kg_139_9, VStr "new"))
    by (vm_compute; reflexivity).
  split; [exact Hf|].
  exact (fetched_token_is_kept sample_float_repr Script scripted sample_config
           (Some kg_500) _ locals0 kg_139_9 (VStr "new") Hf).
Defined.

(** A low reading with no server to notify. *)
Lemma without_server_nothing_is_recorded_witness :
  let w := world_of [reading_reply "139,9"] in
  let o := cycle sample_float_repr Script scripted config_without_server (Some kg_500)
             (w, locals0) in
  NTFY_SERVER config_without_server = None /\
  notifications (events o) = [] /\
  last_alert_time (snd (state o)) = None /\
  exists evs,
    events o
    = (evs ++ [EvLog ERROR ("Final failure this cycle: "
                            ++ "'NoneType' object has no attribute 'rstrip'")])%list.
Proof.
  cbv zeta. split; [reflexivity|].
  generalize (without_server_nothing_is_recorded sample_float_repr Script scripted
                config_without_server (Some kg_500)
                (world_of [reading_reply "139,9"]) locals0 eq_refl).
  cbv zeta. intros (Hn & Hl & Hlog).
  split; [exact Hn|]. split; [exact Hl|].
  apply (Hlog kg_139_9 (VStr "abc")); vm_compute; reflexivity.
Defined.

(** An interval of -1 s: three turns are asked for and one cycle runs. *)
Lemma negative_interval_stops_loop_witness :
  let s := (world_of [reading_reply "150"; reading_reply "150"], locals0) in
  let o := poll_loop sample_float_repr Script scripted config_negative_interval
             (Some kg_500) 3 s in
  - SLEEP_MAX <= CHECK_INTERVAL config_negative_interval < 0 /\
  res o = Raise (ValueError "sleep length must be non-negative") /\
  requests (events o) = [fetch_request config_negative_interval (VStr "abc")] /\
  sleeps (events o) = [].
Proof.
  cbv zeta.
  assert (Hneg : - SLEEP_MAX <= CHECK_INTERVAL config_negative_interval < 0)
    by (vm_compute; split; [discriminate|reflexivity]).
  split; [exact Hneg|].
  rewrite (proj1 (negative_interval_stops_loop sample_float_repr Script scripted
                    config_negative_interval (Some kg_500) 2
                    (world_of [reading_reply "150"; reading_reply "150"], locals0)) Hneg).
  vm_compute. repeat split; reflexivity.
Defined.

Lemma load_config_defaults_witness :
  minimal_environ "STOKERCLOUD_USER" = Some "user" /\
  minimal_environ "NTFY_SERVER" = None /\
  exists c,
    load_config minimal_environ = Ok c /\
    LOW_THRESHOLD_KG c = PyFloat.of_Z 140 /\
    CHECK_INTERVAL c = 60 /\
    MIN_ALERT_INTERVAL_MIN c = 2 /\
    MAX_CAPACITY_KG c = None /\
    NTFY_SERVER c = None.
Proof.
  split; [reflexivity|]. split; [reflexivity|].
  assert (Hnone : forall name,
             name <> "STOKERCLOUD_USER" -> name <> "STOKERCLOUD_PASSWORD" ->
             name <> "NTFY_TOPIC" -> minimal_environ name = None).
  { intros name H1 H2 H3. unfold minimal_environ.
    apply String.eqb_neq in H1. apply String.eqb_neq in H2. apply String.eqb_neq in H3.
    rewrite H1, H2, H3. reflexivity. }
  eexists. split.
  - exact (load_config_defaults minimal_environ "user" "secret" "stoker"
             eq_refl eq_refl eq_refl Hnone).
  - vm_compute. repeat split; reflexivity.
Defined.

(** A thousands separator beside a decimal comma. *)
Lemma grouped_number_is_rejected_witness :
  (2 <= separators "1.234,5")%nat /\
  read_value sample_float_repr (hoppercontent_item (VStr "1.234,5"))
  = Raise (ValueError "could not convert string to float: '1.234.5'").
Proof.
  assert (Hsep : (2 <= separators "1.234,5")%nat) by (vm_compute; lia).
  split; [exact Hsep|].
  exact (grouped_number_is_rejected sample_float_repr
           [("id", VStr "hoppercontent"); ("value", VStr "1.234,5")] "1.234,5"
           eq_refl Hsep).
Defined.
